(** * tsorders-api: shipment registration and carrier response normalisation

    A shallow embedding of the shipment pipeline of the API
    ([app/services.py], [app/routes.py], [app/utils.py]) together with the
    properties its specification states about it.

    Python dictionaries are finite maps ([gmap string _]); exceptions are an
    explicit [Result]; database, network and clock effects are threaded
    through a trace of events. *)

From Stdlib Require Import String Ascii List ZArith Lia.
From stdpp Require Import base option strings gmap list.

Set Warnings "-register-all".

(** ** Python values and exceptions *)

(** A scalar as a database column, a bound parameter or an environment
    setting holds it.  A float or decimal column is carried by the text
    [str()] gives for it. *)
Inductive Scalar :=
| SNone
| SStr (s : string)
| SInt (n : Z)
| SNum (repr : string).

(** One entry of the [refs] list built by the parser:
    [{"type": ..., "value": ...}]. *)
Record Reference := mkReference { ref_type : string; ref_value : string }.

(** The values of an outcome dictionary: scalars and the list of
    references. *)
Inductive Value :=
| VScalar (x : Scalar)
| VRefs (refs : list Reference).

Coercion VScalar : Scalar >-> Value.

Abbreviation VNone := (VScalar SNone).
Abbreviation VStr s := (VScalar (SStr s)).

#[global] Instance Scalar_eq_dec : EqDecision Scalar.
Proof. solve_decision. Defined.

#[global] Instance Reference_eq_dec : EqDecision Reference.
Proof. solve_decision. Defined.

#[global] Instance Value_eq_dec : EqDecision Value.
Proof. solve_decision. Defined.

(** A row turned into a [dict], and an outcome [dict]. *)
Abbreviation Row := (gmap string Scalar).
Abbreviation Dict := (gmap string Value).

(** A dictionary literal as Python builds it: a later key overwrites an
    earlier one. *)
Definition dict_literal {V} (kvs : list (string * V)) : gmap string V :=
  fold_left (fun m kv => <[kv.1 := kv.2]> m) kvs ∅.

(** [HTTPException] is the only exception class the handlers tell apart;
    every other exception is carried by its [str(e)] text. *)
Inductive Exc :=
| HTTPException (status_code : Z) (detail : string)
| Exception (msg : string).

Definition str_exc (e : Exc) : string :=
  match e with
  | HTTPException _ detail => detail
  | Exception msg => msg
  end.

Inductive Result (A : Type) :=
| Ok (a : A)
| Raise (e : Exc).
Arguments Ok {A} a.
Arguments Raise {A} e.

#[global] Instance Result_ret : MRet Result := fun _ a => Ok a.
#[global] Instance Result_bind : MBind Result := fun _ _ f r =>
  match r with
  | Ok a => f a
  | Raise e => Raise e
  end.

#[global] Instance Result_fmap : FMap Result := fun _ _ f r =>
  match r with
  | Ok a => Ok (f a)
  | Raise e => Raise e
  end.

(** [try: body except Exception as e: handler(e)] *)
Definition try_except {A} (body : Result A) (handler : Exc -> Result A) : Result A :=
  match body with
  | Ok a => Ok a
  | Raise e => handler e
  end.

(** ** Element trees ([xml.etree.ElementTree])

    [tag] is the expanded name, [{uri}local] for a namespaced element. *)
Inductive Element :=
  mkElement (tag : string) (attrib : gmap string string)
            (text : option string) (children : list Element).

Definition tag (e : Element) : string :=
  match e with mkElement t _ _ _ => t end.
Definition attrib (e : Element) : gmap string string :=
  match e with mkElement _ a _ _ => a end.
Definition text (e : Element) : option string :=
  match e with mkElement _ _ x _ => x end.
Definition children (e : Element) : list Element :=
  match e with mkElement _ _ _ cs => cs end.

(** [elem.get(key, default)] *)
Definition elem_get (e : Element) (key dflt : string) : string :=
  default dflt (attrib e !! key).

(** [elem.iter()]: the element and all its descendants in document order. *)
Fixpoint iter (e : Element) : list Element :=
  match e with
  | mkElement _ _ _ cs => e :: flat_map iter cs
  end.

(** The elements [.//] ranges over: every descendant, the element itself
    excluded. *)
Definition descendants (e : Element) : list Element :=
  flat_map iter (children e).

Definition has_tag (t : string) (e : Element) : bool :=
  bool_decide (tag e = t).

(** [elem.findall('.//t')] *)
Definition findall_desc (t : string) (e : Element) : list Element :=
  List.filter (has_tag t) (descendants e).

(** [elem.find('.//t')] *)
Definition find_desc (t : string) (e : Element) : option Element :=
  head (findall_desc t e).

(** [elem.findall('.//t1/t2')]: the [t2] children of every [t1]
    descendant. *)
Definition findall_desc_child (t1 t2 : string) (e : Element) : list Element :=
  flat_map (fun p => List.filter (has_tag t2) (children p)) (findall_desc t1 e).

(** [elem.find('.//t1/t2')] *)
Definition find_desc_child (t1 t2 : string) (e : Element) : option Element :=
  head (findall_desc_child t1 t2 e).

(** The [namespaces] dictionary of the parser and the expansion of a
    prefixed name under it. *)
Definition ns_soap : string := "http://www.w3.org/2003/05/soap-envelope".
Definition ns_asm : string := "http://www.asmred.com/".
Definition qname (uri local : string) : string :=
  "{" +:+ uri +:+ "}" +:+ local.

(** ** Effects: database session, carrier endpoint, clock, environment *)

(** What [db.execute(...)] hands back: [keys()], [fetchall()] and
    [rowcount]. *)
Record ResultSet := mkResultSet {
  keys : list string;
  fetchall : list (list Scalar);
  rowcount : Z
}.

(** [httpx] response: [status_code] and [text]. *)
Record HttpResponse := mkHttpResponse {
  resp_status_code : Z;
  resp_text : string
}.

(** [datetime.now()] *)
Record datetime := mkDatetime {
  year : nat; month : nat; day : nat;
  hour : nat; minute : nat; second : nat
}.

(** What a request does to the outside, in the order it does it. *)
Inductive Event :=
| EvExecute (sql : string) (params : Dict)
| EvCommit
| EvRollback
| EvPost (url : option string) (content : string).

#[global] Instance Event_eq_dec : EqDecision Event.
Proof. solve_decision. Defined.

(** The collaborators the pipeline calls and does not define.  Each answer
    may depend on what the request did before.

    [dict_of_row columns values] is [dict(row)] for a row [fetchone()]
    gave, with the columns of its result and its values: the dictionary, or
    the text of the [TypeError] or [ValueError] raised.  What it is depends
    on the row class of the installed SQLAlchemy, which the repository does
    not pin: a row of the 1.x series converts as the mapping of its
    columns, a row of the 2.x series as a sequence of key/value pairs. *)
Record World := mkWorld {
  fromstring : string -> Result Element;
  getenv : string -> option string;
  now : list Event -> datetime;
  db_execute : list Event -> string -> Dict -> Result ResultSet;
  db_commit : list Event -> Result unit;
  http_post : list Event -> option string -> string -> Result HttpResponse;
  dict_of_row : list string -> list Scalar -> Row + string
}.

(** A computation that may raise and that extends the trace. *)
Definition M (A : Type) : Type := list Event -> Result A * list Event.

#[global] Instance M_ret : MRet M := fun _ a log => (Ok a, log).
#[global] Instance M_bind : MBind M := fun _ _ f m log =>
  match m log with
  | (Ok a, log') => f a log'
  | (Raise e, log') => (Raise e, log')
  end.

Definition lift {A} (r : Result A) : M A := fun log => (r, log).

Definition raise {A} (e : Exc) : M A := lift (Raise e).

(** [try: body except Exception as e: handler(e)] *)
Definition try_exceptM {A} (body : M A) (handler : Exc -> M A) : M A :=
  fun log =>
    match body log with
    | (Ok a, log') => (Ok a, log')
    | (Raise e, log') => handler e log'
    end.

(** ** Text rendering *)

Definition nl : string := String "010"%char EmptyString.
Definition dq : string := String "034"%char EmptyString.

Definition digit (n : nat) : ascii := ascii_of_nat (48 + Nat.modulo n 10).

Fixpoint digits (fuel n : nat) (acc : string) : string :=
  match fuel with
  | O => acc
  | S fuel' =>
    let acc' := String (digit n) acc in
    if Nat.ltb n 10 then acc' else digits fuel' (Nat.div n 10) acc'
  end.

(** Decimal text of a natural number and of an integer ([str(n)]). *)
Definition str_nat (n : nat) : string := digits (S n) n EmptyString.
Definition str_Z (n : Z) : string :=
  match n with
  | Zneg p => "-" +:+ str_nat (Pos.to_nat p)
  | _ => str_nat (Z.to_nat n)
  end.

(** [str(v)], as [str.format] renders a field. *)
Definition str_scalar (v : Scalar) : string :=
  match v with
  | SNone => "None"
  | SStr s => s
  | SInt n => str_Z n
  | SNum repr => repr
  end.

(** Two- and four-digit zero-padded fields of [strftime]. *)
Definition pad2 (n : nat) : string :=
  String (digit (Nat.div n 10)) (String (digit n) EmptyString).
Definition pad4 (n : nat) : string :=
  String (digit (Nat.div n 1000)) (String (digit (Nat.div n 100)) (pad2 n)).

(** [d.strftime("%d/%m/%Y")] *)
Definition strftime_dmY (d : datetime) : string :=
  pad2 (day d) +:+ "/" +:+ pad2 (month d) +:+ "/" +:+ pad4 (year d).

(** [d.strftime('%d%m%Y_%H%M%S')] *)
Definition strftime_file (d : datetime) : string :=
  pad2 (day d) +:+ pad2 (month d) +:+ pad4 (year d) +:+ "_" +:+
  pad2 (hour d) +:+ pad2 (minute d) +:+ pad2 (second d).

(** A [str.format] template: literal text and [{name}] fields. *)
Inductive Segment :=
| Lit (s : string)
| Field (name : string).

(** [template.format] over the keys of [data]: a missing key raises
    [KeyError]. *)
Fixpoint format (template : list Segment) (data : Row) : Result string :=
  match template with
  | [] => Ok EmptyString
  | Lit s :: rest => out ← format rest data; mret (s +:+ out)
  | Field name :: rest =>
    match data !! name with
    | None => Raise (Exception ("'" +:+ name +:+ "'"))
    | Some v => out ← format rest data; mret (str_scalar v +:+ out)
    end
  end.

(** ** Response builders ([app/utils.py]) *)

Inductive Payload :=
| PRows (rows : list Row)
| POutcome (outcome : Dict).

Record Header := mkHeader {
  status : string;
  content : Z;
  resource : option string;
  count : option Z
}.

(** The response dictionary; [message] is [None] when the key is absent. *)
Record Response := mkResponse {
  header : Header;
  payload : Payload;
  message : option string
}.

(** A string that passes [if s:], neither [None] nor empty. *)
Definition truthy (s : option string) : option string :=
  match s with
  | Some EmptyString => None
  | _ => s
  end.

Definition success_response (payload : Payload) (content : Z)
    (message resource : option string) (count : option Z) : Response :=
  {| header := {| status := "ok"; content := content;
                  resource := truthy resource; count := count |};
     payload := payload;
     message := truthy message |}.

Definition empty_response (message : option string) : Response :=
  success_response (PRows []) 0 message None None.

(** ** The carrier service ([app/services.py], [GLSService]) *)

Definition errors : list (string * string) :=
  [ ("+38", "Error, Número de teléfono del destinatario no válido.");
    ("36", "Error, Código postal del destinatario, formato incorrecto.");
    ("-1", "Tiempo de espera expirado.");
    ("-3", "Error, El código de barras del envío ya existe.");
    ("-33", "Cp destino no existe o no es de esa plaza");
    ("-48", "Error, servicio EuroEstandar/EBP: El número de paquetes debe ser siempre 1.");
    ("-49", "Error, servicio EuroEstandar/EBP: El peso debe ser <= 31,5 kgs.");
    ("-70", "Error, El número de pedido ya existe");
    ("-99", "Advertencia, los servicios web están temporalmente fuera de servicio.");
    ("-128", "Error, Nombre del destinatario debe tener al menos tres caracteres.");
    ("-129", "Error, la dirección del destinatario debe tener al menos tres caracteres.");
    ("-130", "Error, La Ciudad del Destinatario debe tener al menos tres caracteres.");
    ("-131", "Error, Consignee Zipcode debe tener al menos cuatro caracteres.") ].

Definition get_error_message (error_code : string) : string :=
  default EmptyString (dict_literal errors !! error_code).

(** The order id is annotated [str]; it is whatever [envio.get("idOrder", "")]
    finds in the row. *)
Definition _build_error_response (error : string) (order_id : Scalar) : Dict :=
  dict_literal
    [ ("codResponseWS", VStr "-1");
      ("responseWS", VStr error);
      ("messageWS", VStr "Error en solicitud GLS");
      ("idOrder", VScalar order_id) ].

(** [x or y] for a string [x]: [y] when [x] is empty. *)
Definition py_or (x : string) (y : Scalar) : Scalar :=
  match x with
  | EmptyString => y
  | _ => SStr x
  end.

(** [node.text if node is not None else dflt] *)
Definition text_or (node : option Element) (dflt : string) : Scalar :=
  match node with
  | Some n => match text n with Some s => SStr s | None => SNone end
  | None => SStr dflt
  end.

Definition xml_template : list Segment :=
  [ Lit ("<?xml version=" +:+ dq +:+ "1.0" +:+ dq +:+ " encoding=" +:+ dq +:+
         "utf-8" +:+ dq +:+ "?>" +:+ nl +:+ "<soap12:Envelope xmlns:xsi=" +:+
         dq +:+ "http://www.w3.org/2001/XMLSchema-instance" +:+ dq +:+ nl +:+
         "                 xmlns:xsd=" +:+ dq +:+
         "http://www.w3.org/2001/XMLSchema" +:+ dq +:+ nl +:+
         "                 xmlns:soap12=" +:+ dq +:+
         "http://www.w3.org/2003/05/soap-envelope" +:+ dq +:+ ">" +:+ nl +:+
         "<soap12:Body>" +:+ nl +:+ "<GrabaServicios xmlns=" +:+ dq +:+
         "http://www.asmred.com/" +:+ dq +:+ ">" +:+ nl +:+ "<docIn>" +:+ nl +:+
         "   <Servicios uidcliente=" +:+ dq);
    Field "uid_cliente";
    Lit (dq +:+ " xmlns=" +:+ dq +:+ "http://www.asmred.com/" +:+ dq +:+ ">" +:+
         nl +:+ "   <Envio>" +:+ nl +:+ "      <Fecha>");
    Field "fecha";
    Lit ("</Fecha>" +:+ nl +:+ "      <Servicio>");
    Field "servicio";
    Lit ("</Servicio>" +:+ nl +:+ "      <Horario>");
    Field "horario";
    Lit ("</Horario>" +:+ nl +:+ "      <Bultos>");
    Field "bultos";
    Lit ("</Bultos>" +:+ nl +:+ "      <Peso>");
    Field "peso";
    Lit ("</Peso>" +:+ nl +:+ "      <Portes>");
    Field "portes";
    Lit ("</Portes>" +:+ nl +:+ "      <Importes>" +:+ nl +:+
         "         <Reembolso>");
    Field "reembolso";
    Lit ("</Reembolso>" +:+ nl +:+ "      </Importes>" +:+ nl +:+
         "      <Remite>" +:+ nl +:+ "         <Nombre>");
    Field "nombre_org";
    Lit ("</Nombre>" +:+ nl +:+ "         <Direccion>");
    Field "direccion_org";
    Lit ("</Direccion>" +:+ nl +:+ "         <Poblacion>");
    Field "poblacion_org";
    Lit ("</Poblacion>" +:+ nl +:+ "         <Pais>");
    Field "pais_org";
    Lit ("</Pais>" +:+ nl +:+ "         <CP>");
    Field "cp_org";
    Lit ("</CP>" +:+ nl +:+ "      </Remite>" +:+ nl +:+ "      <Destinatario>" +:+
         nl +:+ "         <Nombre>");
    Field "destinatario";
    Lit ("</Nombre>" +:+ nl +:+ "         <Direccion>");
    Field "direccion";
    Lit ("</Direccion>" +:+ nl +:+ "         <Poblacion>");
    Field "poblacion";
    Lit ("</Poblacion>" +:+ nl +:+ "         <Pais>");
    Field "pais";
    Lit ("</Pais>" +:+ nl +:+ "         <CP>");
    Field "cp";
    Lit ("</CP>" +:+ nl +:+ "         <Telefono>");
    Field "telefono";
    Lit ("</Telefono>" +:+ nl +:+ "         <Movil>");
    Field "movil";
    Lit ("</Movil>" +:+ nl +:+ "         <Email>");
    Field "email";
    Lit ("</Email>" +:+ nl +:+ "         <Departamento>");
    Field "departamento";
    Lit ("</Departamento>" +:+ nl +:+ "         <Observaciones>");
    Field "observaciones";
    Lit ("</Observaciones>" +:+ nl +:+ "      </Destinatario>" +:+ nl +:+
         "      <Referencias>" +:+ nl +:+ "         <Referencia tipo=" +:+ dq +:+
         "C" +:+ dq +:+ ">");
    Field "refC";
    Lit ("</Referencia>" +:+ nl +:+ "      </Referencias>" +:+ nl +:+
         "      <DevuelveAdicionales>" +:+ nl +:+ "         <Etiqueta tipo=" +:+
         dq +:+ "PDF" +:+ dq +:+ "/>" +:+ nl +:+ "      </DevuelveAdicionales>" +:+
         nl +:+ "   </Envio>" +:+ nl +:+ "   </Servicios>" +:+ nl +:+
         "   </docIn>" +:+ nl +:+ "</GrabaServicios>" +:+ nl +:+
         "</soap12:Body>" +:+ nl +:+ "</soap12:Envelope>") ].

Section Pipeline.

Variable w : World.

(** *** Primitive effects *)

(** [db.execute(text(sql), params)] *)
Definition execute (sql : string) (params : Dict) : M ResultSet :=
  fun log => (db_execute w log sql params, log ++ [EvExecute sql params]).

(** [db.commit()] *)
Definition commit : M unit :=
  fun log => (db_commit w log, log ++ [EvCommit]).

(** [db.rollback()] *)
Definition rollback : M unit :=
  fun log => (Ok tt, log ++ [EvRollback]).

(** [await client.post(url, content=xml, headers=...)] *)
Definition post (url : option string) (xml : string) : M HttpResponse :=
  fun log => (http_post w log url xml, log ++ [EvPost url xml]).

(** [datetime.now()] *)
Definition datetime_now : M datetime :=
  fun log => (Ok (now w log), log).

(** [dict(row)] for a row of [result] *)
Definition to_dict (result : ResultSet) (row : list Scalar) : M Row :=
  match dict_of_row w (keys result) row with
  | inl d => mret d
  | inr msg => raise (Exception msg)
  end.

(** *** [GLSService] *)

Definition env_scalar (x : option string) : Scalar :=
  match x with
  | Some s => SStr s
  | None => SNone
  end.

(** [self.config], loaded from the environment. *)
Definition config : Row :=
  dict_literal
    [ ("uid_cliente", env_scalar (getenv w "GLS_UID"));
      ("url_save_ship", env_scalar (getenv w "GLS_SAVE_SHIP_URL"));
      ("portes", env_scalar (getenv w "GLS_PORTES"));
      ("reembolso", env_scalar (getenv w "GLS_REEMBOLSO"));
      ("nombre_org", env_scalar (getenv w "GLS_NOMBRE_ORG"));
      ("direccion_org", env_scalar (getenv w "GLS_DIRECCION_ORG"));
      ("poblacion_org", env_scalar (getenv w "GLS_POBLACION_ORG"));
      ("pais_org", env_scalar (getenv w "GLS_PAIS_ORG"));
      ("cp_org", env_scalar (getenv w "GLS_CP_ORG")) ].

(** The merged dictionary [{**self.config, **envio, "fecha": fecha}]. *)
Definition merge_data (envio : Row) (fecha : string) : Row :=
  <["fecha" := SStr fecha]> (envio ∪ config).

Definition generate_soap_xml (envio : Row) : M string :=
  d ← datetime_now;
  let fecha := strftime_dmY d in
  let data := merge_data envio fecha in
  lift (format xml_template data).

Definition _parse_gls_response (xml_response : string) (order_id : Scalar) : Result Dict :=
  try_except
    (root ← fromstring w xml_response;
     match find_desc (qname ns_asm "GrabaServiciosResult") root with
     | None => mret (_build_error_response "Respuesta XML inválida" order_id)
     | Some result_node =>
       match find_desc "Envio" result_node with
       | None => mret (_build_error_response "Nodo Envio no encontrado" order_id)
       | Some envio_node =>
         match find_desc "Resultado" envio_node with
         | None => mret (_build_error_response "Nodo Resultado no encontrado" order_id)
         | Some resultado_node =>
           let return_code := elem_get resultado_node "return" "-1" in
           if bool_decide (return_code = "0") then
             let cod_bar := elem_get envio_node "codbarras" EmptyString in
             let uid := elem_get envio_node "uid" EmptyString in
             let exp := elem_get envio_node "codexp" EmptyString in
             let referencias :=
               findall_desc_child "Referencias" "Referencia" envio_node in
             let refs :=
               map (fun ref => mkReference (elem_get ref "tipo" EmptyString)
                                           (default EmptyString (text ref)))
                   referencias in
             let etiqueta_node :=
               find_desc_child "Etiquetas" "Etiqueta" envio_node in
             let etiqueta := text_or etiqueta_node EmptyString in
             mret (dict_literal
                     [ ("codResponseWS", VStr return_code);
                       ("responseWS", VStr EmptyString);
                       ("messageWS", VStr "Envio insertado Ok");
                       ("idOrder", VScalar order_id);
                       ("uidExp", VStr uid);
                       ("codBar", VStr cod_bar);
                       ("exp", VStr exp);
                       ("refs", VRefs refs);
                       ("LabelBase64", VScalar etiqueta) ])
           else
             let error_node := find_desc_child "Errores" "Error" envio_node in
             let error_msg := text_or error_node "Error desconocido" in
             mret (dict_literal
                     [ ("codResponseWS", VStr return_code);
                       ("responseWS", VScalar error_msg);
                       ("messageWS",
                        VScalar (py_or (get_error_message return_code) error_msg));
                       ("idOrder", VScalar order_id) ])
         end
       end
     end)
    (fun e =>
       mret (_build_error_response
               ("Error parseando respuesta: " +:+ str_exc e) order_id)).

(** [envio.get("idOrder", "")] *)
Definition envio_order_id (envio : Row) : Scalar :=
  default (SStr EmptyString) (envio !! "idOrder").

Definition request_shipment_ws (envio : Row) : M Dict :=
  try_exceptM
    (xml ← generate_soap_xml envio;
     response ← post (getenv w "GLS_SAVE_SHIP_URL") xml;
     lift (_parse_gls_response (resp_text response) (envio_order_id envio)))
    (fun e => mret (_build_error_response (str_exc e) (envio_order_id envio))).

(** *** Database helpers ([app/utils.py]) *)

(** [bool(result and len(result) > 0)] *)
Definition nonempty {A} (result : list A) : bool :=
  match result with
  | [] => false
  | _ :: _ => true
  end.

Definition check_order_exists (order_id : string) : M bool :=
  try_exceptM
    (result ← execute "CALL toolstock_amz.uSp_isExistOrder(:idOrder)"
                      (dict_literal [("idOrder", VStr order_id)]);
     mret (nonempty (fetchall result)))
    (fun e => mret false).

Definition check_order_not_shipped (order_id : string) : M bool :=
  try_exceptM
    (result ← execute "CALL toolstock_amz.uSp_isOrderNotShipped(:idOrder)"
                      (dict_literal [("idOrder", VStr order_id)]);
     mret (nonempty (fetchall result)))
    (fun e => mret false).


(** [dict(zip(columns, row))] *)
Definition row_dict (columns : list string) (row : list Scalar) : Row :=
  dict_literal (zip columns row).

(** [params] is the parameter dictionary in insertion order, [None] by
    default.  The [except] clause logs and re-raises, so a failure of
    [db.execute] leaves as it came. *)
Definition execute_stored_procedure (procedure_name : string)
    (params : option (list (string * Value))) : M (list Row) :=
  let sql :=
    match params with
    | Some ((_ :: _) as ps) =>
      "CALL toolstock_amz." +:+ procedure_name +:+ "(" +:+
      String.concat ", " (map (fun kv => ":" +:+ kv.1) ps) +:+ ")"
    | _ => "CALL toolstock_amz." +:+ procedure_name +:+ "()"
    end in
  result ← execute sql (dict_literal (default [] params));
  let rows := fetchall result in
  if nonempty rows then
    let columns := keys result in
    mret (map (row_dict columns) rows)
  else mret [].

(** [OrderService.get_orders_by_procedure(..., group_items=False)]: with
    grouping off the rows come back as [execute_stored_procedure] made
    them. *)
Definition get_orders_by_procedure_raw (procedure_name : string)
    (params : option (list (string * Value))) : M (list Row) :=
  rows ← execute_stored_procedure procedure_name params;
  mret rows.

(** [handle_database_error]: logs and raises the generic internal
    error. *)
Definition handle_database_error {A} (e : Exc) (operation : string) : M A :=
  raise (HTTPException 500 "Error interno").

(** *** Shipment registration ([app/routes.py]) *)

Definition file_name_of (d : datetime) : string :=
  "Envios_" +:+ strftime_file d +:+ ".xlsx".

Definition sql_updateOrdersDetailWS : string :=
  "CALL toolstock_amz.uSp_updateOrdersDetailWS(" +:+ nl +:+
  "                :idOrder, :uIdExp, :expeditionTraking, :codBar" +:+ nl +:+
  "            )".

Definition _register_shipment_file : M Response :=
  rows ← get_orders_by_procedure_raw "uSp_getOrdersForShipmentFile" None;
  if negb (nonempty rows) then mret (empty_response None)
  else
    d ← datetime_now;
    let file_name := file_name_of d in
    let rows :=
      map (fun record => <["fileGenerateName" := SStr file_name]> record) rows in
    _ ← execute "CALL toolstock_amz.uSp_updateShipmentFile(:fileGenerateName)"
                (dict_literal [("fileGenerateName", VStr file_name)]);
    _ ← commit;
    _ ← execute "CALL toolstock_amz.uSp_updateOrdersDetailFile()" ∅;
    _ ← commit;
    mret (success_response (PRows rows) 1 None None None).

(** [d[key]]: a missing key raises [KeyError]. *)
Definition getitem (d : Dict) (key : string) : M Value :=
  match d !! key with
  | Some v => mret v
  | None => raise (Exception ("'" +:+ key +:+ "'"))
  end.

(** [d.get(key, "")] *)
Definition get_or_empty (d : Dict) (key : string) : Value :=
  default (VStr EmptyString) (d !! key).

(** [.fetchone()] and the test [if not shipment_data]: no row, or a row
    without columns. *)
Definition fetchone (result : ResultSet) : option (list Scalar) :=
  match head (fetchall result) with
  | Some ((_ :: _) as row) => Some row
  | _ => None
  end.

Definition _register_shipment_ws (order_id : option string) : M Response :=
  match truthy order_id with
  | None =>
    raise (HTTPException 400 "idOrder es requerido para shipmentType=usingWS")
  | Some order_id =>
    not_shipped ← check_order_not_shipped order_id;
    if negb not_shipped then
      mret (success_response (PRows []) 0 (Some "El pedido ya fue enviado") None None)
    else
      result ← execute "CALL toolstock_amz.uSp_getOrdersForShipmentWS(:idOrder)"
                       (dict_literal [("idOrder", VStr order_id)]);
      match fetchone result with
      | None => mret (empty_response None)
      | Some shipment_data =>
        envio ← to_dict result shipment_data;
        gls_response ← request_shipment_ws envio;
        _ ← (if bool_decide (gls_response !! "codResponseWS" = Some (VStr "0")) then
               id_order ← getitem gls_response "idOrder";
               _ ← execute sql_updateOrdersDetailWS
                     (dict_literal
                        [ ("idOrder", id_order);
                          ("uIdExp", get_or_empty gls_response "uidExp");
                          ("expeditionTraking", get_or_empty gls_response "exp");
                          ("codBar", get_or_empty gls_response "codBar") ]);
               _ ← commit;
               _ ← execute "CALL toolstock_amz.uSp_updateShipmentWS(:idOrder)"
                     (dict_literal [("idOrder", VStr order_id)]);
               _ ← commit;
               _ ← execute "CALL toolstock_amz.uSp_updateOrdersWS(:idOrder, :exp)"
                     (dict_literal
                        [ ("idOrder", VStr order_id);
                          ("exp", get_or_empty gls_response "exp") ]);
               commit
             else mret tt);
        mret (success_response (POutcome gls_response) 1 None None None)
      end
  end.

(** The body of [RegisterShipment]. *)
Record RegisterShipment := mkRegisterShipment {
  shipmentType : string;
  idOrder : option string
}.

Definition register_shipment (data : RegisterShipment) : M Response :=
  fun log =>
    match (if bool_decide (shipmentType data = "usingFile")
           then _register_shipment_file
           else _register_shipment_ws (idOrder data)) log with
    | (Ok r, log') => (Ok r, log')
    | (Raise (HTTPException c d), log') => (Raise (HTTPException c d), log')
    | (Raise e, log') =>
      (_ ← rollback; handle_database_error e "registering shipment") log'
    end.

End Pipeline.

(** ** Sample collaborators

    Carrier replies with their element trees, a database answering from a
    fixed table, a fixed clock and environment: the concrete worlds the
    properties below are exercised on. *)

Definition reply_text (envio : string) : string :=
  "<s:Envelope xmlns:s='http://www.w3.org/2003/05/soap-envelope'><s:Body>" +:+
  "<GrabaServiciosResponse xmlns='http://www.asmred.com/'><GrabaServiciosResult>" +:+
  "<Servicios xmlns=''>" +:+ envio +:+ "</Servicios>" +:+
  "</GrabaServiciosResult></GrabaServiciosResponse></s:Body></s:Envelope>".

(** The result envelope of a reply and the reply around it. *)
Definition reply_result (envio : list Element) : Element :=
  mkElement (qname ns_asm "GrabaServiciosResult") ∅ None
    [ mkElement "Servicios" ∅ None envio ].

Definition reply_tree (envio : list Element) : Element :=
  mkElement (qname ns_soap "Envelope") ∅ None
    [ mkElement (qname ns_soap "Body") ∅ None
        [ mkElement (qname ns_asm "GrabaServiciosResponse") ∅ None
            [ reply_result envio ] ] ].

Definition leaf (t : string) (attrs : list (string * string)) (x : option string) : Element :=
  mkElement t (dict_literal attrs) x [].

(** A reply carrying result code [code] and one error text. *)
Definition failure_text (code : string) : string :=
  reply_text ("<Envio codbarras='' uid='' codexp=''><Resultado return='" +:+ code +:+
              "'/><Errores><Error>rechazado</Error></Errores></Envio>").

Definition failure_resultado (code : string) : Element :=
  leaf "Resultado" [("return", code)] None.

Definition failure_envio (code : string) : Element :=
  mkElement "Envio"
    (dict_literal [("codbarras", EmptyString); ("uid", EmptyString); ("codexp", EmptyString)])
    None
    [ failure_resultado code;
      mkElement "Errores" ∅ None [ leaf "Error" [] (Some "rechazado") ] ].

Definition failure_tree (code : string) : Element :=
  reply_tree [ failure_envio code ].

(** A successful reply with two references and a label. *)
Definition success_text : string :=
  reply_text ("<Envio codbarras='B1' uid='U1' codexp='EXP1'><Resultado return='0'/>" +:+
              "<Referencias><Referencia tipo='C'>R1</Referencia>" +:+
              "<Referencia tipo='N'>R2</Referencia></Referencias>" +:+
              "<Etiquetas><Etiqueta>JVBERi0=</Etiqueta></Etiquetas></Envio>").

Definition success_tree : Element :=
  reply_tree
    [ mkElement "Envio"
        (dict_literal [("codbarras", "B1"); ("uid", "U1"); ("codexp", "EXP1")])
        None
        [ leaf "Resultado" [("return", "0")] None;
          mkElement "Referencias" ∅ None
            [ leaf "Referencia" [("tipo", "C")] (Some "R1");
              leaf "Referencia" [("tipo", "N")] (Some "R2") ];
          mkElement "Etiquetas" ∅ None [ leaf "Etiqueta" [] (Some "JVBERi0=") ] ] ].

(** A reply whose shipment node has no result node. *)
Definition no_result_text : string :=
  reply_text "<Envio codbarras='B1' uid='U1' codexp='EXP1'><Errores><Error>x</Error></Errores></Envio>".

Definition no_result_envio : Element :=
  mkElement "Envio"
    (dict_literal [("codbarras", "B1"); ("uid", "U1"); ("codexp", "EXP1")])
    None
    [ mkElement "Errores" ∅ None [ leaf "Error" [] (Some "x") ] ].

Definition no_result_tree : Element :=
  reply_tree [ no_result_envio ].

Definition sample_documents : list (string * Element) :=
  [ (success_text, success_tree);
    (failure_text "-3", failure_tree "-3");
    (failure_text "00", failure_tree "00");
    (failure_text "-777", failure_tree "-777");
    (no_result_text, no_result_tree) ].

Definition sample_fromstring (xml : string) : Result Element :=
  match dict_literal sample_documents !! xml with
  | Some root => Ok root
  | None => Raise (Exception "syntax error: line 1, column 0")
  end.

Definition sample_getenv (name : string) : option string :=
  dict_literal
    [ ("GLS_UID", "6BAB7A53-3B6D-4D5A-9450-702D2FAC0B11");
      ("GLS_SAVE_SHIP_URL", "https://wsclientes.asmred.com/b2b.asmx");
      ("GLS_PORTES", "P");
      ("GLS_REEMBOLSO", "0");
      ("GLS_NOMBRE_ORG", "Toolstock");
      ("GLS_DIRECCION_ORG", "Calle Mayor 1");
      ("GLS_POBLACION_ORG", "Madrid");
      ("GLS_PAIS_ORG", "34");
      ("GLS_CP_ORG", "28001") ] !! name.

Definition sample_now : datetime :=
  {| year := 2026; month := 11; day := 4; hour := 9; minute := 5; second := 7 |}.

Definition shipment_columns : list string :=
  [ "idOrder"; "servicio"; "horario"; "bultos"; "peso"; "destinatario";
    "direccion"; "poblacion"; "pais"; "cp"; "telefono"; "movil"; "email";
    "departamento"; "observaciones"; "refC" ].

Definition shipment_row (order_id refC : string) : list Scalar :=
  [ SStr order_id; SStr "1"; SStr "3"; SInt 1; SNum "1.5"; SStr "Ana Ruiz";
    SStr "Calle Sol 2"; SStr "Burgos"; SStr "34"; SStr "09001";
    SStr "600000000"; SStr "600000000"; SStr "ana@example.org";
    SStr EmptyString; SStr EmptyString; SStr refC ].

(** A database answering each statement from a fixed table of statement
    text; anything else affects no row. *)
Definition table_db (table : list (string * ResultSet))
    (log : list Event) (sql : string) (params : Dict) : Result ResultSet :=
  Ok (default (mkResultSet [] [] 0) (dict_literal table !! sql)).

(** A database that is down: every statement raises. *)
Definition failing_db (log : list Event) (sql : string) (params : Dict)
    : Result ResultSet :=
  Raise (Exception "(pymysql.err.OperationalError) (2003, 'connection refused')").

(** The carrier answering every request with the same document. *)
Definition fixed_reply (xml : string)
    (log : list Event) (url : option string) (content : string) : Result HttpResponse :=
  Ok (mkHttpResponse 200 xml).

(** The carrier out of reach. *)
Definition no_reply (log : list Event) (url : option string) (content : string)
    : Result HttpResponse :=
  Raise (Exception "timed out").

(** [dict(row)] on a row of the SQLAlchemy 1.x series: the row answers
    [keys()] and is read as the mapping of its columns. *)
Definition mapping_rows (columns : list string) (row : list Scalar) : Row + string :=
  inl (row_dict columns row).

(** [dict(row)] on a row of the SQLAlchemy 2.x series: the row is a
    sequence of values and each value is taken for a key/value pair.  A
    string of two characters gives its first character as key and its
    second as value; a string of another length raises [ValueError], a
    value that is not a sequence raises [TypeError]. *)
Fixpoint pairs_dict (i : nat) (row : list Scalar) (acc : Row) : Row + string :=
  match row with
  | [] => inl acc
  | SStr (String k (String v EmptyString)) :: rest =>
    pairs_dict (S i) rest
      (<[String k EmptyString := SStr (String v EmptyString)]> acc)
  | SStr s :: _ =>
    inr ("dictionary update sequence element #" +:+ str_nat i +:+
         " has length " +:+ str_nat (String.length s) +:+ "; 2 is required")
  | _ :: _ =>
    inr ("cannot convert dictionary update sequence element #" +:+ str_nat i +:+
         " to a sequence")
  end.

Definition sequence_rows (columns : list string) (row : list Scalar) : Row + string :=
  pairs_dict 0 row ∅.

(** The sample worlds run on rows that convert as mappings. *)
Definition sample_world
    (db : list Event -> string -> Dict -> Result ResultSet)
    (carrier : list Event -> option string -> string -> Result HttpResponse) : World :=
  {| fromstring := sample_fromstring;
     getenv := sample_getenv;
     now := fun _ => sample_now;
     db_execute := db;
     db_commit := fun _ => Ok tt;
     http_post := carrier;
     dict_of_row := mapping_rows |}.

(** Order [X1] is queued and not yet shipped. *)
Definition db_ready : list (string * ResultSet) :=
  [ ("CALL toolstock_amz.uSp_isExistOrder(:idOrder)",
     mkResultSet ["orderId"] [[SStr "X1"]] 1);
    ("CALL toolstock_amz.uSp_isOrderNotShipped(:idOrder)",
     mkResultSet ["orderId"] [[SStr "X1"]] 1);
    ("CALL toolstock_amz.uSp_getOrdersForShipmentWS(:idOrder)",
     mkResultSet shipment_columns [shipment_row "X1" "REF-1"] 1);
    ("CALL toolstock_amz.uSp_getOrdersForShipmentFile()",
     mkResultSet shipment_columns
       [shipment_row "X1" "REF-1"; shipment_row "X2" "REF-2"] 2) ].

(** No order is known: every procedure comes back without rows. *)
Definition db_empty : list (string * ResultSet) := [].

(** The carrier accepts the shipment of [X1]. *)
Definition world_accepted : World :=
  sample_world (table_db db_ready) (fixed_reply success_text).

(** The carrier rejects the shipment of [X1] with result code [code]. *)
Definition world_rejected (code : string) : World :=
  sample_world (table_db db_ready) (fixed_reply (failure_text code)).

(** The carrier answers without a result node. *)
Definition world_no_result : World :=
  sample_world (table_db db_ready) (fixed_reply no_result_text).

(** The carrier cannot be reached. *)
Definition world_unreachable : World :=
  sample_world (table_db db_ready) no_reply.

(** The database knows no order. *)
Definition world_unknown_order : World :=
  sample_world (table_db db_empty) (fixed_reply success_text).

(** The database is down. *)
Definition world_db_down : World :=
  sample_world failing_db (fixed_reply success_text).

(** The world of [world_accepted] on rows of the SQLAlchemy 2.x series. *)
Definition world_sequence_rows : World :=
  {| fromstring := sample_fromstring;
     getenv := sample_getenv;
     now := fun _ => sample_now;
     db_execute := table_db db_ready;
     db_commit := fun _ => Ok tt;
     http_post := fixed_reply success_text;
     dict_of_row := sequence_rows |}.

(** The row of [X1] as a dictionary, the request built from it on the
    sample clock, and what the parser makes of [success_text]. *)
Definition sample_envio : Row :=
  row_dict shipment_columns (shipment_row "X1" "REF-1").

Definition sample_request : string :=
  match format xml_template
          (merge_data world_accepted sample_envio (strftime_dmY sample_now)) with
  | Ok xml => xml
  | Raise _ => EmptyString
  end.

Definition accepted_outcome : Dict :=
  dict_literal
    [ ("codResponseWS", VStr "0");
      ("responseWS", VStr EmptyString);
      ("messageWS", VStr "Envio insertado Ok");
      ("idOrder", VStr "X1");
      ("uidExp", VStr "U1");
      ("codBar", VStr "B1");
      ("exp", VStr "EXP1");
      ("refs", VRefs [mkReference "C" "R1"; mkReference "N" "R2"]);
      ("LabelBase64", VStr "JVBERi0=") ].

(** The trace of a single-service registration of [X1] up to the reply of
    the carrier. *)
Definition accepted_trace : list Event :=
  [ EvExecute "CALL toolstock_amz.uSp_isOrderNotShipped(:idOrder)"
      (dict_literal [("idOrder", VStr "X1")]);
    EvExecute "CALL toolstock_amz.uSp_getOrdersForShipmentWS(:idOrder)"
      (dict_literal [("idOrder", VStr "X1")]);
    EvPost (Some "https://wsclientes.asmred.com/b2b.asmx") sample_request ].

(** The rows the bulk selection returns in [db_ready]. *)
Definition bulk_selection : ResultSet :=
  mkResultSet shipment_columns
    [shipment_row "X1" "REF-1"; shipment_row "X2" "REF-2"] 2.

(** An order id the order table does not know, still queued for shipment:
    only the existence procedure comes back without rows. *)
Definition db_orphan : list (string * ResultSet) :=
  [ ("CALL toolstock_amz.uSp_isOrderNotShipped(:idOrder)",
     mkResultSet ["orderId"] [[SStr "X1"]] 1);
    ("CALL toolstock_amz.uSp_getOrdersForShipmentWS(:idOrder)",
     mkResultSet shipment_columns [shipment_row "X1" "REF-1"] 1) ].

Definition world_orphan : World :=
  sample_world (table_db db_orphan) (fixed_reply success_text).

(** ** Vocabulary of the properties *)

(** Number of positions of [s] at which [pat] starts. *)
Fixpoint count_sub (pat s : string) : nat :=
  match s with
  | EmptyString => 0
  | String _ s' => (if String.prefix pat s then 1 else 0) + count_sub pat s'
  end.


(** [x] occurs in [doc]. *)
Definition occurs_in (x doc : string) : Prop :=
  exists pre post, doc = pre +:+ x +:+ post.

(** The opening tag of a reference of type C in a request document. *)
Definition referencia_C : string := "<Referencia tipo=" +:+ dq +:+ "C" +:+ dq +:+ ">".

(** What may follow the name of an element in its start tag: white space
    (space, tab, line feed, carriage return), the end of the tag, or the
    slash of an empty element. *)
Definition name_ends : list string :=
  [ " "; String "009"%char EmptyString; String "010"%char EmptyString;
    String "013"%char EmptyString; ">"; "/" ].

(** The number of start tags of elements named [name] in [doc]. *)
Definition count_elements (name doc : string) : nat :=
  list_sum (map (fun e => count_sub ("<" +:+ name +:+ e) doc) name_ends).

(** The keys a shipment row must hold for the template to be filled. *)
Definition envio_fields : list string :=
  [ "servicio"; "horario"; "bultos"; "peso"; "destinatario"; "direccion";
    "poblacion"; "pais"; "cp"; "telefono"; "movil"; "email"; "departamento";
    "observaciones"; "refC" ].

(** The reply cannot be read: the document is malformed or one of the
    three nodes the parser looks for is missing. *)
Definition unreadable (w : World) (xml : string) : Prop :=
  match fromstring w xml with
  | Raise _ => True
  | Ok root =>
    match find_desc (qname ns_asm "GrabaServiciosResult") root with
    | None => True
    | Some result_node =>
      match find_desc "Envio" result_node with
      | None => True
      | Some envio_node => find_desc "Resultado" envio_node = None
      end
    end
  end.

(** The outcome is the synthetic failure: code ["-1"], the fixed message,
    and a description of what went wrong. *)
Definition failure_outcome (o : Dict) (order_id : Scalar) : Prop :=
  exists description,
    o = _build_error_response description order_id /\
    o !! "codResponseWS" = Some (VStr "-1") /\
    o !! "responseWS" = Some (VStr description) /\
    o !! "messageWS" = Some (VStr "Error en solicitud GLS").

(** The texts of the [Error] elements that are children of an [Errores]
    element below [envio], in document order; [None] stands for an element
    without text. *)
Definition error_texts (envio : Element) : list (option string) :=
  flat_map
    (fun errores =>
       if decide (tag errores = "Errores") then
         flat_map (fun error => if decide (tag error = "Error") then [text error] else [])
                  (children errores)
       else [])
    (descendants envio).

(** The error text of a reply: that of its first [Error] element. *)
Definition error_text (envio : Element) : Scalar :=
  match error_texts envio with
  | [] => SStr "Error desconocido"
  | Some s :: _ => SStr s
  | None :: _ => SNone
  end.

(** What an outcome holds under [key], the empty string when it has no
    such key. *)
Definition outcome_field (gls_response : Dict) (key : string) : Value :=
  match gls_response !! key with
  | Some v => v
  | None => VStr EmptyString
  end.

(** The three updates of a successful single-service registration of
    [order_id], each followed by its commit: the order id of the shipment
    row with the identifier, tracking code and bar code of the carrier onto
    the order detail, the shipment marked as done, the tracking code onto
    the order. *)
Definition ws_updates (order_id : string) (id_order : Scalar)
    (uid_exp exp cod_bar : Value) : list Event :=
  [ EvExecute sql_updateOrdersDetailWS
      (dict_literal
         [ ("idOrder", VScalar id_order);
           ("uIdExp", uid_exp);
           ("expeditionTraking", exp);
           ("codBar", cod_bar) ]);
    EvCommit;
    EvExecute "CALL toolstock_amz.uSp_updateShipmentWS(:idOrder)"
      (dict_literal [("idOrder", VStr order_id)]);
    EvCommit;
    EvExecute "CALL toolstock_amz.uSp_updateOrdersWS(:idOrder, :exp)"
      (dict_literal [("idOrder", VStr order_id); ("exp", exp)]);
    EvCommit ].

(** The updates the registration of [X1] writes on the accepted reply. *)
Definition accepted_updates : list Event :=
  [ EvExecute sql_updateOrdersDetailWS
      (dict_literal
         [ ("idOrder", VStr "X1");
           ("uIdExp", VStr "U1");
           ("expeditionTraking", VStr "EXP1");
           ("codBar", VStr "B1") ]);
    EvCommit;
    EvExecute "CALL toolstock_amz.uSp_updateShipmentWS(:idOrder)"
      (dict_literal [("idOrder", VStr "X1")]);
    EvCommit;
    EvExecute "CALL toolstock_amz.uSp_updateOrdersWS(:idOrder, :exp)"
      (dict_literal [("idOrder", VStr "X1"); ("exp", VStr "EXP1")]);
    EvCommit ].

(** The two updates of a bulk registration, each followed by its commit. *)
Definition file_updates (file_name : string) : list Event :=
  [ EvExecute "CALL toolstock_amz.uSp_updateShipmentFile(:fileGenerateName)"
      (dict_literal [("fileGenerateName", VStr file_name)]);
    EvCommit;
    EvExecute "CALL toolstock_amz.uSp_updateOrdersDetailFile()" ∅;
    EvCommit ].

(** The statements of a trace. *)
Definition statements (log : list Event) : list string :=
  omap (fun ev => match ev with EvExecute sql _ => Some sql | _ => None end) log.

(** The requests a trace sent to the carrier. *)
Definition carrier_requests (log : list Event) : list string :=
  omap (fun ev => match ev with EvPost _ content => Some content | _ => None end) log.

(** A session on which no statement and no commit fails. *)
Definition db_healthy (w : World) : Prop :=
  (forall log sql params, exists rs, db_execute w log sql params = Ok rs) /\
  (forall log, db_commit w log = Ok tt).

(** The text [template.format] produces when every field [name] renders
    as [f name]. *)
Fixpoint render (f : string -> string) (template : list Segment) : string :=
  match template with
  | [] => EmptyString
  | Lit s :: rest => s +:+ render f rest
  | Field name :: rest => f name +:+ render f rest
  end.

(** The field names of a template, in order. *)
Definition fields (template : list Segment) : list string :=
  omap (fun seg => match seg with Field name => Some name | Lit _ => None end) template.

(** [u] runs out while it still agrees with [pat]: a match of [pat]
    starting at the head of [u] would go on into whatever follows [u]. *)
Fixpoint spills (pat u : string) : bool :=
  match pat, u with
  | EmptyString, _ => false
  | String _ _, EmptyString => true
  | String a p, String c u' =>
    match ascii_dec a c with
    | left _ => spills p u'
    | right _ => false
    end
  end.

(** No match of [pat] starts in [s] and ends after it. *)
Fixpoint spill_free (pat s : string) : bool :=
  match s with
  | EmptyString => true
  | String _ s' => negb (spills pat s) && spill_free pat s'
  end.

(** [q] may still match at the head of [s]: it is a prefix of [s], or [s]
    ends while the two agree. *)
Fixpoint tail_match (q s : string) : bool :=
  match q, s with
  | EmptyString, _ => true
  | String _ _, EmptyString => true
  | String a q', String c s' =>
    match ascii_dec a c with
    | left _ => tail_match q' s'
    | right _ => false
    end
  end.

(** No non-empty suffix of [p] may match at the head of [s]: a match that
    started before [s] cannot end in it. *)
Fixpoint tail_free (p s : string) : bool :=
  match p with
  | EmptyString => true
  | String _ p' => negb (tail_match p s) && tail_free p' s
  end.

(** [pat] without its first character. *)
Definition behead (pat : string) : string :=
  match pat with
  | EmptyString => EmptyString
  | String _ p => p
  end.

(** Occurrences of [pat] in the literal text of a template, provided no
    occurrence can run from a literal into the field after it, or from a
    field into the literal after it. *)
Fixpoint count_template (pat : string) (template : list Segment) : option nat :=
  match template with
  | [] => Some 0
  | Lit s :: rest =>
    if spill_free pat s then
      n ← count_template pat rest; Some (count_sub pat s + n)
    else None
  | Field _ :: rest =>
    match rest with
    | Lit s :: _ => if tail_free (behead pat) s then count_template pat rest else None
    | _ => None
    end
  end.

(** A shipment row holding every key the template asks of it. *)
Definition complete (envio : Row) : Prop :=
  Forall (fun name => is_Some (envio !! name)) envio_fields.


(** The literal at position [n] of the request template. *)
Definition lit_at (n : nat) : string :=
  match nth n xml_template (Lit EmptyString) with
  | Lit s => s
  | Field _ => EmptyString
  end.

(** ** Order listing and shipment queue ([app/utils.py], [app/services.py],
    [app/routes.py]) *)

(** The order id of a row keys a dictionary. *)
#[global] Instance Scalar_countable : Countable Scalar.
Proof.
  refine (inj_countable'
            (fun x : Scalar =>
               match x with
               | SNone => inl tt
               | SStr s => inr (inl s)
               | SInt n => inr (inr (inl n))
               | SNum r => inr (inr (inr r))
               end)
            (fun y : unit + (string + (Z + string)) =>
               match y with
               | inl _ => SNone
               | inr (inl s) => SStr s
               | inr (inr (inl n)) => SInt n
               | inr (inr (inr r)) => SNum r
               end) _).
  by intros [].
Defined.

(** [created_response], [updated_response] and [deleted_response] answer
    [{"header": {"status": "ok", "<kind>": rows}, "message": ...}]. *)
Inductive RowsKind := insertedRows | updatedRows | deletedRows.

Record RowsResponse := mkRowsResponse {
  rows_status : string;
  rows_kind : RowsKind;
  rows_affected : Z;
  rows_message : string
}.

Definition created_response (rows_affected : Z) (message : string) : RowsResponse :=
  {| rows_status := "ok"; rows_kind := insertedRows; rows_affected := rows_affected;
     rows_message := if (0 <? rows_affected)%Z then message
                     else "No se insertó el registro" |}.

Definition updated_response (rows_affected : Z) (message : string) : RowsResponse :=
  {| rows_status := "ok"; rows_kind := updatedRows; rows_affected := rows_affected;
     rows_message := if (0 <? rows_affected)%Z then message
                     else "No se actualizó el registro" |}.

Definition deleted_response (rows_affected : Z) (message : string) : RowsResponse :=
  {| rows_status := "ok"; rows_kind := deletedRows; rows_affected := rows_affected;
     rows_message := if (0 <? rows_affected)%Z then message
                     else "No se pudo eliminar el registro" |}.

(** [success_response] for a payload of any type. *)
Record ResponseOf (P : Type) := mkResponseOf {
  header_of : Header;
  payload_of : P;
  message_of : option string
}.
Arguments mkResponseOf {P} _ _ _.
Arguments header_of {P} _.
Arguments payload_of {P} _.
Arguments message_of {P} _.

Definition success_response_of {P} (payload : P) (content : Z)
    (message resource : option string) (count : option Z) : ResponseOf P :=
  {| header_of := {| status := "ok"; content := content;
                     resource := truthy resource; count := count |};
     payload_of := payload;
     message_of := truthy message |}.

(** An order with its items: the order columns of its first row, and under
    the key [items] the product columns of each of its rows. *)
Record Order := mkOrder {
  order_info : Row;
  items : list Row
}.

Definition product_fields : list string :=
  [ "orderItemId"; "sku"; "productName"; "quantityPurchased";
    "itemPrice"; "itemTax"; "shippingPrice"; "shippingTax";
    "vatExclusiveItemPrice"; "vatExclusiveShippingPrice";
    "asin"; "referenciaProv" ].

(** [{field: row.get(field) for field in product_fields if field in row}] *)
Definition product_info (row : Row) : Row :=
  filter (fun kv => kv.1 ∈ product_fields) row.

(** [{key: value for key, value in row.items() if key not in product_fields}];
    the key [items] is then taken by the list of items. *)
Definition order_columns (row : Row) : Row :=
  delete "items" (filter (fun kv => kv.1 ∉ product_fields) row).

(** [row.get('amazonOrderId')] *)
Definition row_order_id (row : Row) : Scalar :=
  default SNone (row !! "amazonOrderId").

(** One turn of the loop of [group_orders_with_items], on
    [grouped_orders] and [processed_order_ids]. *)
Definition group_step (state : list Order * gmap Scalar nat) (row : Row)
    : Result (list Order * gmap Scalar nat) :=
  let '(grouped_orders, processed_order_ids) := state in
  let order_id := row_order_id row in
  let info := product_info row in
  match processed_order_ids !! order_id with
  | None =>
    Ok (grouped_orders ++ [mkOrder (order_columns row) [info]],
        <[order_id := length grouped_orders]> processed_order_ids)
  | Some index =>
    match grouped_orders !! index with
    | Some order =>
      Ok (<[index := mkOrder (order_info order) (items order ++ [info])]> grouped_orders,
          processed_order_ids)
    | None => Raise (Exception "list index out of range")
    end
  end.

Fixpoint group_loop (rows : list Row) (state : list Order * gmap Scalar nat)
    : Result (list Order * gmap Scalar nat) :=
  match rows with
  | [] => Ok state
  | row :: rest => state' ← group_step state row; group_loop rest state'
  end.

Definition group_orders_with_items (rows : list Row) : Result (list Order) :=
  match rows with
  | [] => Ok []
  | _ => state ← group_loop rows ([], ∅); mret state.1
  end.

(** What [get_orders_by_procedure] returns: orders with items, or the rows
    as they came. *)
Inductive OrderList :=
| Grouped (orders : list Order)
| Plain (rows : list Row).

(** [len(result)] and [if result:] *)
Definition order_list_length (result : OrderList) : nat :=
  match result with
  | Grouped orders => length orders
  | Plain rows => length rows
  end.

(** The body of [ShipmentData]; [servicio], [horario] and [pais] are
    strings once validated. *)
Record ShipmentData := mkShipmentData {
  sd_servicio : string;
  sd_horario : string;
  sd_destinatario : string;
  sd_direccion : string;
  sd_pais : string;
  sd_cp : string;
  sd_poblacion : string;
  sd_telefono : string;
  sd_email : string;
  sd_departamento : string;
  sd_contacto : string;
  sd_observaciones : string;
  sd_bultos : Z;
  sd_movil : string;
  sd_refC : string;
  sd_idOrder : string;
  sd_process : string;
  sd_shipmentType : string;
  sd_value : option Z
}.

(** The body of [UpdateShipment]. *)
Record UpdateShipment := mkUpdateShipment {
  us_columnName : string;
  us_columnValue : string;
  us_idOrder : string
}.

(** The body of [DeleteShipment]. *)
Record DeleteShipment := mkDeleteShipment {
  ds_idOrder : string;
  ds_shipmentType : string;
  ds_value : option Z
}.

(** The bodies of [UpdateStockFlag] and [UpdateFakeFlag]. *)
Record UpdateStockFlag := mkUpdateStockFlag {
  usf_withoutstock : Z;
  usf_idOrder : string
}.

Record UpdateFakeFlag := mkUpdateFakeFlag {
  uff_isFake : Z;
  uff_idOrder : string
}.

Definition opt_int (x : option Z) : Value :=
  match x with
  | Some n => VScalar (SInt n)
  | None => VNone
  end.

(** [x or 0] *)
Definition int_or_0 (x : option Z) : Z := default 0%Z x.

Definition insert_query : string :=
  nl +:+
  "            CALL toolstock_amz.uSp_insertSelectedshipment(" +:+ nl +:+
  "                :servicio, :horario, :destinatario, :direccion," +:+ nl +:+
  "                :pais, :cp, :poblacion, :telefono, :email," +:+ nl +:+
  "                :departamento, :contacto, :observaciones," +:+ nl +:+
  "                :bultos, :movil, :refC, :idOrder, :process" +:+ nl +:+
  "            )" +:+ nl +:+
  "        ".

Definition delete_query : string :=
  nl +:+
  "            DELETE FROM toolstock_amz.selectedshipment" +:+ nl +:+
  "            WHERE idOrder = :idOrder" +:+ nl +:+
  "        ".

Definition update_shipment_query (columnName : string) : string :=
  nl +:+
  "            UPDATE toolstock_amz.selectedShipment" +:+ nl +:+
  "            SET " +:+ columnName +:+ " = :columnValue" +:+ nl +:+
  "            WHERE idOrder = :idOrder AND fileGenerateName IS NULL" +:+ nl +:+
  "        ".

Definition update_flag_query (table column : string) : string :=
  nl +:+
  "            UPDATE toolstock_amz." +:+ table +:+ nl +:+
  "            SET " +:+ column +:+ " = :value" +:+ nl +:+
  "            WHERE orderId = :idOrder" +:+ nl +:+
  "        ".

(** [sp_name] of the create and delete routes. *)
Definition flag_procedure (shipmentType : string) : string :=
  if bool_decide (shipmentType = "usingFile") then "uSp_updateMarkShipment"
  else "uSp_updateSelectedShipment".

Definition flag_call (shipmentType : string) : string :=
  "CALL toolstock_amz." +:+ flag_procedure shipmentType +:+ "(:value, :idOrder)".

Definition insert_params (data : ShipmentData) : Dict :=
  dict_literal
    [ ("servicio", VStr (sd_servicio data));
      ("horario", VStr (sd_horario data));
      ("destinatario", VStr (sd_destinatario data));
      ("direccion", VStr (sd_direccion data));
      ("pais", VStr (sd_pais data));
      ("cp", VStr (sd_cp data));
      ("poblacion", VStr (sd_poblacion data));
      ("telefono", VStr (sd_telefono data));
      ("email", VStr (sd_email data));
      ("departamento", VStr (sd_departamento data));
      ("contacto", VStr (sd_contacto data));
      ("observaciones", VStr (sd_observaciones data));
      ("bultos", VScalar (SInt (sd_bultos data)));
      ("movil", VStr (sd_movil data));
      ("refC", VStr (sd_refC data));
      ("idOrder", VStr (sd_idOrder data));
      ("process", VStr (sd_process data)) ].

Section Queue.

Variable w : World.

(** [execute_update]: commit on success; on failure roll back and raise
    what was caught. *)
Definition execute_update (query : string) (params : Dict) : M Z :=
  try_exceptM
    (result ← execute w query params;
     _ ← commit w;
     mret (rowcount result))
    (fun e => _ ← rollback; raise e).

(** [OrderService.update_order_flag] *)
Definition update_order_flag (table column : string) (value : Value)
    (order_id : string) : M Z :=
  execute_update (update_flag_query table column)
    (dict_literal [("value", value); ("idOrder", VStr order_id)]).

(** [OrderService.get_orders_by_procedure] *)
Definition get_orders_by_procedure (procedure_name : string)
    (params : option (list (string * Value))) (group_items : bool) : M OrderList :=
  rows ← execute_stored_procedure w procedure_name params;
  if group_items && nonempty rows then
    lift (Grouped <$> group_orders_with_items rows)
  else mret (Plain rows).

Definition get_order_by_id (order_id : string) : M (ResponseOf OrderList) :=
  try_exceptM
    (result ← get_orders_by_procedure "uSp_getOrdersDetailUnshippedByOrderId"
                (Some [("id", VStr order_id)]) true;
     if Nat.ltb 0 (order_list_length result) then
       mret (success_response_of result 1 None None None)
     else mret (success_response_of (Plain []) 0 None None None))
    (fun e => handle_database_error e ("fetching order " +:+ order_id)).

Definition get_orders_pending : M (ResponseOf OrderList) :=
  try_exceptM
    (result ← get_orders_by_procedure "uSp_getOrdersDetailUnshipped" None true;
     mret (success_response_of result 1 None (Some "orderspending")
             (Some (Z.of_nat (order_list_length result)))))
    (fun e => handle_database_error e "fetching pending orders").

Definition get_orders_ready_to_ship : M (ResponseOf OrderList) :=
  try_exceptM
    (result ← get_orders_by_procedure "uSp_getOrdersSelectedShipment" None false;
     mret (success_response_of result 1 None None None))
    (fun e => handle_database_error e "fetching ready to ship orders").

Definition update_order_flag_stock (data : UpdateStockFlag) : M RowsResponse :=
  try_exceptM
    (rows_affected ← update_order_flag "ordersdetail" "pendingWithoutStock"
                       (VScalar (SInt (usf_withoutstock data))) (usf_idOrder data);
     mret (updated_response rows_affected "Registro actualizado"))
    (fun e => handle_database_error e
                ("updating stock flag for " +:+ usf_idOrder data)).

Definition update_order_flag_fake (data : UpdateFakeFlag) : M RowsResponse :=
  try_exceptM
    (rows_affected ← update_order_flag "ordersdetail" "isShipFake"
                       (VScalar (SInt (uff_isFake data))) (uff_idOrder data);
     mret (updated_response rows_affected "Registro actualizado"))
    (fun e => handle_database_error e
                ("updating fake flag for " +:+ uff_idOrder data)).

Definition create_order_ready_to_ship (data : ShipmentData) : M RowsResponse :=
  try_exceptM
    (exists_ ← check_order_exists w (sd_idOrder data);
     if negb exists_ then mret (created_response 0 "El pedido no existe")
     else
       not_shipped ← check_order_not_shipped w (sd_idOrder data);
       if negb not_shipped then mret (created_response 0 "El pedido ya fue enviado")
       else
         _ ← execute w (flag_call (sd_shipmentType data))
               (dict_literal [ ("value", opt_int (sd_value data));
                               ("idOrder", VStr (sd_idOrder data)) ]);
         _ ← commit w;
         result ← execute w insert_query (insert_params data);
         _ ← commit w;
         let rows_affected := rowcount result in
         mret (created_response rows_affected "Registro insertado"))
    (fun e => _ ← rollback;
              handle_database_error e ("creating shipment for " +:+ sd_idOrder data)).

Definition update_order_ready_to_ship (data : UpdateShipment) : M RowsResponse :=
  try_exceptM
    (result ← execute w (update_shipment_query (us_columnName data))
                (dict_literal [ ("columnValue", VStr (us_columnValue data));
                                ("idOrder", VStr (us_idOrder data)) ]);
     _ ← commit w;
     let rows_affected := rowcount result in
     mret (updated_response rows_affected "Registro actualizado"))
    (fun e => _ ← rollback;
              handle_database_error e ("updating shipment for " +:+ us_idOrder data)).

Definition delete_order_ready_to_ship (data : DeleteShipment) : M RowsResponse :=
  try_exceptM
    (exists_ ← check_order_exists w (ds_idOrder data);
     if negb exists_ then mret (deleted_response 0 "El pedido no existe")
     else
       result ← execute w delete_query
                  (dict_literal [("idOrder", VStr (ds_idOrder data))]);
       _ ← commit w;
       let rows_deleted := rowcount result in
       _ ← (if (0 <? rows_deleted)%Z then
              _ ← execute w (flag_call (ds_shipmentType data))
                    (dict_literal [ ("value", VScalar (SInt (int_or_0 (ds_value data))));
                                    ("idOrder", VStr (ds_idOrder data)) ]);
              commit w
            else mret tt);
       mret (deleted_response rows_deleted "Registro eliminado"))
    (fun e => _ ← rollback;
              handle_database_error e ("deleting shipment for " +:+ ds_idOrder data)).

End Queue.

(** ** Vocabulary and samples of the listing, queue and registration
       properties *)

(** The order ids of the rows, each once, in the order in which they first
    appear. *)
Definition distinct_ids (rows : list Row) : list Scalar :=
  fold_left (fun acc row =>
               if decide (row_order_id row ∈ acc) then acc
               else acc ++ [row_order_id row]) rows [].

(** The rows of one order, in row order. *)
Definition rows_of (order_id : Scalar) (rows : list Row) : list Row :=
  List.filter (fun row => bool_decide (row_order_id row = order_id)) rows.

(** The order the rows hold for an id: the order columns of its first row
    and, as items, the product columns of each of its rows. *)
Definition expected_order (rows : list Row) (order_id : Scalar) : Order :=
  mkOrder (from_option order_columns ∅ (head (rows_of order_id rows)))
          (product_info <$> rows_of order_id rows).

(** The invariant of the grouping loop after the rows [done]: the orders
    built so far, and the index kept for each id. *)
Definition group_inv (done : list Row) (state : list Order * gmap Scalar nat) : Prop :=
  state.1 = expected_order done <$> distinct_ids done /\
  (forall order_id i, state.2 !! order_id = Some i <-> distinct_ids done !! i = Some order_id).

(** The number of items of all orders together. *)
Definition total_items (orders : list Order) : nat :=
  length (concat (items <$> orders)).

(** A reply whose result node has no [return] attribute and whose first
    error element has no text. *)
Definition no_code_text : string :=
  reply_text ("<Envio codbarras='B9' uid='U9' codexp='EXP9'><Resultado/>" +:+
              "<Errores><Error/><Error>segundo</Error></Errores></Envio>").

Definition no_code_resultado : Element := leaf "Resultado" [] None.

Definition no_code_envio : Element :=
  mkElement "Envio"
    (dict_literal [("codbarras", "B9"); ("uid", "U9"); ("codexp", "EXP9")])
    None
    [ no_code_resultado;
      mkElement "Errores" ∅ None
        [ leaf "Error" [] None; leaf "Error" [] (Some "segundo") ] ].

Definition no_code_tree : Element := reply_tree [ no_code_envio ].

(** A reply whose root is the result envelope itself. *)
Definition bare_result_text : string :=
  "<GrabaServiciosResult xmlns='http://www.asmred.com/'><Servicios xmlns=''>" +:+
  "<Envio><Resultado return='0'/></Envio></Servicios></GrabaServiciosResult>".

Definition bare_result_tree : Element :=
  reply_result [ mkElement "Envio" ∅ None [ leaf "Resultado" [("return", "0")] None ] ].

(** A reply whose shipment node stays in the carrier namespace. *)
Definition namespaced_text : string :=
  "<s:Envelope xmlns:s='http://www.w3.org/2003/05/soap-envelope'><s:Body>" +:+
  "<GrabaServiciosResponse xmlns='http://www.asmred.com/'><GrabaServiciosResult>" +:+
  "<Servicios><Envio><Resultado return='0'/></Envio></Servicios>" +:+
  "</GrabaServiciosResult></GrabaServiciosResponse></s:Body></s:Envelope>".

Definition namespaced_result : Element :=
  mkElement (qname ns_asm "GrabaServiciosResult") ∅ None
    [ mkElement (qname ns_asm "Servicios") ∅ None
        [ mkElement (qname ns_asm "Envio") ∅ None
            [ mkElement (qname ns_asm "Resultado") (dict_literal [("return", "0")]) None [] ] ] ].

Definition namespaced_tree : Element :=
  mkElement (qname ns_soap "Envelope") ∅ None
    [ mkElement (qname ns_soap "Body") ∅ None
        [ mkElement (qname ns_asm "GrabaServiciosResponse") ∅ None
            [ namespaced_result ] ] ].

(** The element trees of these replies, added to the sample ones. *)
Definition more_documents : list (string * Element) :=
  [ (no_code_text, no_code_tree);
    (bare_result_text, bare_result_tree);
    (namespaced_text, namespaced_tree);
    (success_text, success_tree) ].

Definition more_fromstring (xml : string) : Result Element :=
  match dict_literal more_documents !! xml with
  | Some root => Ok root
  | None => Raise (Exception "syntax error: line 1, column 0")
  end.

Definition world_more : World :=
  {| fromstring := more_fromstring;
     getenv := sample_getenv;
     now := fun _ => sample_now;
     db_execute := table_db db_ready;
     db_commit := fun _ => Ok tt;
     http_post := fixed_reply no_code_text;
     dict_of_row := mapping_rows |}.

(** The nodes of the accepted reply [success_text]. *)
Definition success_resultado : Element := leaf "Resultado" [("return", "0")] None.

Definition success_envio : Element :=
  mkElement "Envio"
    (dict_literal [("codbarras", "B1"); ("uid", "U1"); ("codexp", "EXP1")])
    None
    [ success_resultado;
      mkElement "Referencias" ∅ None
        [ leaf "Referencia" [("tipo", "C")] (Some "R1");
          leaf "Referencia" [("tipo", "N")] (Some "R2") ];
      mkElement "Etiquetas" ∅ None [ leaf "Etiqueta" [] (Some "JVBERi0=") ] ].

(** A session that raises no [HTTPException] of its own. *)
Definition plain_failures (w : World) : Prop :=
  (forall log sql params c d, db_execute w log sql params <> Raise (HTTPException c d)) /\
  (forall log c d, db_commit w log <> Raise (HTTPException c d)).

(** What [handle_database_error] raises. *)
Definition internal_error : Exc := HTTPException 500 "Error interno".

(** The sample row without its reference column. *)
Definition incomplete_envio : Row := delete "refC" sample_envio.

(** The sample row with a NULL remark, and with a column named like a
    setting. *)
Definition null_envio : Row := <["observaciones" := SNone]> sample_envio.

Definition override_envio : Row := <["portes" := SStr "D"]> sample_envio.

(** No setting of the carrier is configured. *)
Definition world_unconfigured : World :=
  {| fromstring := sample_fromstring;
     getenv := fun _ => None;
     now := fun _ => sample_now;
     db_execute := table_db db_ready;
     db_commit := fun _ => Ok tt;
     http_post := fixed_reply success_text;
     dict_of_row := mapping_rows |}.

(** The statements of the two precondition checks. *)
Definition q_exists (order_id : string) : Event :=
  EvExecute "CALL toolstock_amz.uSp_isExistOrder(:idOrder)"
            (dict_literal [("idOrder", VStr order_id)]).

Definition q_not_shipped (order_id : string) : Event :=
  EvExecute "CALL toolstock_amz.uSp_isOrderNotShipped(:idOrder)"
            (dict_literal [("idOrder", VStr order_id)]).

(** The statements of the create route after its two checks. *)
Definition create_updates (data : ShipmentData) : list Event :=
  [ EvExecute (flag_call (sd_shipmentType data))
      (dict_literal [ ("value", opt_int (sd_value data));
                      ("idOrder", VStr (sd_idOrder data)) ]);
    EvCommit;
    EvExecute insert_query (insert_params data);
    EvCommit ].

(** A request to queue order [X1]. *)
Definition sample_shipment : ShipmentData :=
  mkShipmentData "1" "3" "Ana Ruiz" "Calle Sol 2" "34" "09001" "Burgos"
    "600000000" "ana@example.org" EmptyString EmptyString EmptyString 1
    "600000000" "REF-1" "X1" "orders" "usingWS" (Some 1%Z).

(** Order [X1] is known and not shipped; queueing it inserts one row and
    unqueueing it deletes one. *)
Definition db_queue : list (string * ResultSet) :=
  [ ("CALL toolstock_amz.uSp_isExistOrder(:idOrder)",
     mkResultSet ["orderId"] [[SStr "X1"]] 1);
    ("CALL toolstock_amz.uSp_isOrderNotShipped(:idOrder)",
     mkResultSet ["orderId"] [[SStr "X1"]] 1);
    (insert_query, mkResultSet [] [] 1);
    (delete_query, mkResultSet [] [] 1) ].

Definition world_queue : World :=
  sample_world (table_db db_queue) (fixed_reply success_text).

(** The same database, on which the insertion into the queue fails. *)
Definition insert_fails (log : list Event) (sql : string) (params : Dict)
    : Result ResultSet :=
  if String.eqb sql insert_query
  then Raise (Exception "(pymysql.err.IntegrityError) (1062, 'duplicate entry')")
  else table_db db_queue log sql params.

Definition world_insert_fails : World :=
  sample_world insert_fails (fixed_reply success_text).

(** The statement of a flag route. *)
Definition q_flag (column : string) (value : Z) (order_id : string) : Event :=
  EvExecute (update_flag_query "ordersdetail" column)
    (dict_literal [("value", VScalar (SInt value)); ("idOrder", VStr order_id)]).

(** The statements of the unqueue route and of the update route. *)
Definition q_delete (order_id : string) : Event :=
  EvExecute delete_query (dict_literal [("idOrder", VStr order_id)]).

Definition q_unflag (data : DeleteShipment) : Event :=
  EvExecute (flag_call (ds_shipmentType data))
    (dict_literal [ ("value", VScalar (SInt (int_or_0 (ds_value data))));
                    ("idOrder", VStr (ds_idOrder data)) ]).

Definition q_update (data : UpdateShipment) : Event :=
  EvExecute (update_shipment_query (us_columnName data))
    (dict_literal [ ("columnValue", VStr (us_columnValue data));
                    ("idOrder", VStr (us_idOrder data)) ]).

(** Requests on the queued order [X1]. *)
Definition sample_unqueue : DeleteShipment := mkDeleteShipment "X1" "usingWS" None.

Definition sample_stock_flag : UpdateStockFlag := mkUpdateStockFlag 1 "X1".

Definition sample_update : UpdateShipment := mkUpdateShipment "cp" "09002" "X1".

(** An exception that is not an [HTTPException]. *)
Definition plain (e : Exc) : Prop := forall c d, e <> HTTPException c d.

(** A computation that raises no [HTTPException]. *)
Definition raises_plain {A} (m : M A) : Prop :=
  forall log e log', m log = (Raise e, log') -> plain e.

(** A computation that sends at most [n] requests to the carrier and takes
    none back from the trace. *)
Definition sends_at_most {A} (n : nat) (m : M A) : Prop :=
  forall log, exists posts,
    carrier_requests (m log).2 = carrier_requests log ++ posts /\
    length posts <= n.

(** What a single-service registration without order id raises. *)
Definition missing_order_error : Exc :=
  HTTPException 400 "idOrder es requerido para shipmentType=usingWS".

(** The selection of the bulk registration, and the fetch of the
    single-service one. *)
Definition q_selection : Event :=
  EvExecute "CALL toolstock_amz.uSp_getOrdersForShipmentFile()" ∅.

Definition q_shipment (order_id : string) : Event :=
  EvExecute "CALL toolstock_amz.uSp_getOrdersForShipmentWS(:idOrder)"
            (dict_literal [("idOrder", VStr order_id)]).

(** Order [X1] is not shipped, and not in the shipment queue either. *)
Definition db_unqueued : list (string * ResultSet) :=
  [ ("CALL toolstock_amz.uSp_isOrderNotShipped(:idOrder)",
     mkResultSet ["orderId"] [[SStr "X1"]] 1) ].

Definition world_unqueued : World :=
  sample_world (table_db db_unqueued) (fixed_reply success_text).

(** A bulk registration. *)
Definition sample_bulk : RegisterShipment := mkRegisterShipment "usingFile" None.

(** The header of a listing. *)
Definition listing_header (content : Z) (resource : option string)
    (count : option Z) : Header :=
  {| status := "ok"; content := content; resource := resource; count := count |}.

(** The call of a procedure without parameters, and the fetch of one order. *)
Definition q_procedure (name : string) : Event :=
  EvExecute ("CALL toolstock_amz." +:+ name +:+ "()") ∅.

Definition q_order (order_id : string) : Event :=
  EvExecute "CALL toolstock_amz.uSp_getOrdersDetailUnshippedByOrderId(:id)"
            (dict_literal [("id", VStr order_id)]).

(** Three pending rows of two orders, the first with two items. *)
Definition pending_columns : list string :=
  ["amazonOrderId"; "orderStatus"; "sku"; "quantityPurchased"].

Definition pending_rows : list (list Scalar) :=
  [ [SStr "X1"; SStr "Unshipped"; SStr "SKU-1"; SInt 1];
    [SStr "X2"; SStr "Unshipped"; SStr "SKU-2"; SInt 3];
    [SStr "X1"; SStr "Unshipped"; SStr "SKU-3"; SInt 2] ].

Definition db_pending : list (string * ResultSet) :=
  [ ("CALL toolstock_amz.uSp_getOrdersDetailUnshipped()",
     mkResultSet pending_columns pending_rows 3);
    ("CALL toolstock_amz.uSp_getOrdersDetailUnshippedByOrderId(:id)",
     mkResultSet pending_columns pending_rows 3);
    ("CALL toolstock_amz.uSp_getOrdersSelectedShipment()",
     mkResultSet shipment_columns [shipment_row "X1" "REF-1"] 1) ].

Definition world_pending : World :=
  sample_world (table_db db_pending) (fixed_reply success_text).

(** * Properties *)

Section DictFacts.

Context {V : Type}.

Lemma fold_insert_lookup (kvs : list (string * V)) (acc : gmap string V) k v :
  fold_left (fun m kv => <[kv.1 := kv.2]> m) kvs acc !! k = Some v ->
  In (k, v) kvs \/ acc !! k = Some v.
Proof.
  revert acc. induction kvs as [|[k' v'] kvs IH]; intros acc H; simpl in *.
  - by right.
  - destruct (IH _ H) as [Hin | Hacc]; [by left; right|].
    destruct (decide (k' = k)) as [->|Hne].
    + rewrite lookup_insert_eq in Hacc. left; left. congruence.
    + rewrite lookup_insert_ne in Hacc by done. by right.
Qed.

Lemma dict_literal_lookup_In (kvs : list (string * V)) k v :
  dict_literal kvs !! k = Some v -> In (k, v) kvs.
Proof.
  intros H. apply fold_insert_lookup in H as [H|H]; [done|].
  by rewrite lookup_empty in H.
Qed.

End DictFacts.

Lemma errors_entry_nonempty code msg :
  dict_literal errors !! code = Some msg -> msg <> EmptyString.
Proof.
  intros H%dict_literal_lookup_In. unfold errors in H. simpl in H.
  repeat (destruct H as [[= <- <-]|H]; [discriminate|]). destruct H.
Qed.

Lemma py_or_table code (error_msg : Scalar) :
  py_or (get_error_message code) error_msg =
  match dict_literal errors !! code with
  | Some msg => SStr msg
  | None => error_msg
  end.
Proof.
  unfold get_error_message.
  destruct (dict_literal errors !! code) as [msg|] eqn:E; simpl; [|done].
  apply errors_entry_nonempty in E. by destruct msg.
Qed.

Lemma build_error_response_failure description order_id :
  failure_outcome (_build_error_response description order_id) order_id.
Proof. exists description. repeat split. Qed.

Section ParserFacts.

Variable w : World.

Lemma parse_malformed xml order_id e :
  fromstring w xml = Raise e ->
  _parse_gls_response w xml order_id =
  Ok (_build_error_response ("Error parseando respuesta: " +:+ str_exc e) order_id).
Proof. intros H. unfold _parse_gls_response. by rewrite H. Qed.

Lemma parse_no_envelope xml order_id root :
  fromstring w xml = Ok root ->
  find_desc (qname ns_asm "GrabaServiciosResult") root = None ->
  _parse_gls_response w xml order_id =
  Ok (_build_error_response "Respuesta XML inválida" order_id).
Proof. intros H1 H2. unfold _parse_gls_response. rewrite H1. cbv beta iota delta [mbind Result_bind]. by rewrite H2. Qed.

Lemma parse_no_envio xml order_id root result_node :
  fromstring w xml = Ok root ->
  find_desc (qname ns_asm "GrabaServiciosResult") root = Some result_node ->
  find_desc "Envio" result_node = None ->
  _parse_gls_response w xml order_id =
  Ok (_build_error_response "Nodo Envio no encontrado" order_id).
Proof.
  intros H1 H2 H3. unfold _parse_gls_response. rewrite H1. cbv beta iota delta [mbind Result_bind].
  by rewrite H2, H3.
Qed.

Lemma parse_no_resultado xml order_id root result_node envio_node :
  fromstring w xml = Ok root ->
  find_desc (qname ns_asm "GrabaServiciosResult") root = Some result_node ->
  find_desc "Envio" result_node = Some envio_node ->
  find_desc "Resultado" envio_node = None ->
  _parse_gls_response w xml order_id =
  Ok (_build_error_response "Nodo Resultado no encontrado" order_id).
Proof.
  intros H1 H2 H3 H4. unfold _parse_gls_response. rewrite H1. cbv beta iota delta [mbind Result_bind].
  by rewrite H2, H3, H4.
Qed.

Lemma parse_error_branch xml order_id root result_node envio_node resultado_node code :
  fromstring w xml = Ok root ->
  find_desc (qname ns_asm "GrabaServiciosResult") root = Some result_node ->
  find_desc "Envio" result_node = Some envio_node ->
  find_desc "Resultado" envio_node = Some resultado_node ->
  elem_get resultado_node "return" "-1" = code ->
  code <> "0" ->
  let error_msg :=
    text_or (find_desc_child "Errores" "Error" envio_node) "Error desconocido" in
  _parse_gls_response w xml order_id =
  Ok (dict_literal
        [ ("codResponseWS", VStr code);
          ("responseWS", VScalar error_msg);
          ("messageWS", VScalar (py_or (get_error_message code) error_msg));
          ("idOrder", VScalar order_id) ]).
Proof.
  intros H1 H2 H3 H4 H5 H6. unfold _parse_gls_response. rewrite H1. cbv beta iota delta [mbind Result_bind].
  rewrite H2, H3, H4, H5. by rewrite bool_decide_eq_false_2.
Qed.

Lemma parse_unreadable xml order_id :
  unreadable w xml ->
  exists description,
    _parse_gls_response w xml order_id =
    Ok (_build_error_response description order_id).
Proof.
  unfold unreadable. intros H.
  destruct (fromstring w xml) as [root|e] eqn:E1.
  - destruct (find_desc (qname ns_asm "GrabaServiciosResult") root)
      as [result_node|] eqn:E2.
    + destruct (find_desc "Envio" result_node) as [envio_node|] eqn:E3.
      * eexists. by eapply parse_no_resultado.
      * eexists. by eapply parse_no_envio.
    + eexists. by eapply parse_no_envelope.
  - eexists. by eapply parse_malformed.
Qed.

Lemma parse_total xml order_id :
  exists o, _parse_gls_response w xml order_id = Ok o /\
            o !! "idOrder" = Some (VScalar order_id) /\
            is_Some (o !! "codResponseWS").
Proof.
  unfold _parse_gls_response.
  destruct (fromstring w xml) as [root|e]; simpl; [|by eexists].
  repeat case_match; eexists; (split; [reflexivity|]); by split.
Qed.

End ParserFacts.

Section ClientFacts.

Variable w : World.

Lemma generate_soap_xml_trace envio log :
  (generate_soap_xml w envio log).2 = log.
Proof.
  unfold generate_soap_xml, mbind, M_bind, datetime_now, lift. done.
Qed.

Lemma generate_soap_xml_eq envio log :
  generate_soap_xml w envio log =
  (format xml_template (merge_data w envio (strftime_dmY (now w log))), log).
Proof. reflexivity. Qed.

Lemma request_shipment_ws_transport envio log xml e :
  generate_soap_xml w envio log = (Ok xml, log) ->
  http_post w log (getenv w "GLS_SAVE_SHIP_URL") xml = Raise e ->
  request_shipment_ws w envio log =
  (Ok (_build_error_response (str_exc e) (envio_order_id envio)),
   log ++ [EvPost (getenv w "GLS_SAVE_SHIP_URL") xml]).
Proof.
  intros Hgen Hpost. unfold request_shipment_ws, try_exceptM, mbind, M_bind.
  rewrite Hgen. unfold post. by rewrite Hpost.
Qed.

Lemma request_shipment_ws_build_failure envio log e :
  generate_soap_xml w envio log = (Raise e, log) ->
  request_shipment_ws w envio log =
  (Ok (_build_error_response (str_exc e) (envio_order_id envio)), log).
Proof.
  intros Hgen. unfold request_shipment_ws, try_exceptM, mbind, M_bind.
  by rewrite Hgen.
Qed.

Lemma request_shipment_ws_total envio log :
  exists o log',
    request_shipment_ws w envio log = (Ok o, log') /\
    o !! "idOrder" = Some (VScalar (envio_order_id envio)) /\
    is_Some (o !! "codResponseWS").
Proof.
  unfold request_shipment_ws, try_exceptM, mbind, M_bind.
  rewrite generate_soap_xml_eq.
  destruct (format _ _) as [xml|e]; [|by eexists _, _].
  unfold post. destruct (http_post _ _ _ _) as [response|e]; [|by eexists _, _].
  unfold lift.
  destruct (parse_total w (resp_text response) (envio_order_id envio))
    as (o & -> & Hid & Hcode).
  by eexists _, _.
Qed.

End ClientFacts.

(** ** The response parser *)

(** C10: in every branch (success, carrier error, missing node, internal
    exception) the parser returns an outcome whose [idOrder] field is the
    order id it was given. *)
Theorem parse_carries_order_id (w : World) (xml_response : string) (order_id : Scalar) :
  exists o,
    _parse_gls_response w xml_response order_id = Ok o /\
    o !! "idOrder" = Some (VScalar order_id).
Proof.
  destruct (parse_total w xml_response order_id) as (o & Ho & Hid & _).
  by exists o.
Qed.

(** C6, as the specification words it, fails on a reply without result
    node: the message field of the outcome is the fixed
    "Error en solicitud GLS", not "Nodo Resultado no encontrado". *)
Lemma no_result_message_is_generic :
  exists root result_node envio_node o,
    fromstring world_no_result no_result_text = Ok root /\
    find_desc (qname ns_asm "GrabaServiciosResult") root = Some result_node /\
    find_desc "Envio" result_node = Some envio_node /\
    find_desc "Resultado" envio_node = None /\
    _parse_gls_response world_no_result no_result_text (SStr "X1") = Ok o /\
    o !! "messageWS" = Some (VStr "Error en solicitud GLS") /\
    o !! "messageWS" <> Some (VStr "Nodo Resultado no encontrado").
Proof.
  exists no_result_tree, (reply_result [no_result_envio]), no_result_envio,
    (_build_error_response "Nodo Resultado no encontrado" (SStr "X1")).
  repeat (split; [vm_compute; reflexivity|]).
  vm_compute. discriminate.
Qed.

(** C6 (amended): when the shipment node of a reply has no result node,
    whatever else the document holds, the outcome has result code ["-1"],
    carries "Nodo Resultado no encontrado" in its [responseWS] field and
    the fixed "Error en solicitud GLS" in its [messageWS] field. *)
Theorem parse_missing_result_node (w : World) (xml_response : string)
    (order_id : Scalar) (root result_node envio_node : Element) :
  fromstring w xml_response = Ok root ->
  find_desc (qname ns_asm "GrabaServiciosResult") root = Some result_node ->
  find_desc "Envio" result_node = Some envio_node ->
  find_desc "Resultado" envio_node = None ->
  exists o,
    _parse_gls_response w xml_response order_id = Ok o /\
    o = _build_error_response "Nodo Resultado no encontrado" order_id /\
    o !! "codResponseWS" = Some (VStr "-1") /\
    o !! "responseWS" = Some (VStr "Nodo Resultado no encontrado") /\
    o !! "messageWS" = Some (VStr "Error en solicitud GLS").
Proof.
  intros H1 H2 H3 H4. eexists. split; [by eapply parse_no_resultado|].
  repeat split.
Qed.

Lemma parse_missing_result_node_witness :
  exists o,
    _parse_gls_response world_no_result no_result_text (SStr "X1") = Ok o /\
    o = _build_error_response "Nodo Resultado no encontrado" (SStr "X1") /\
    o !! "codResponseWS" = Some (VStr "-1") /\
    o !! "responseWS" = Some (VStr "Nodo Resultado no encontrado") /\
    o !! "messageWS" = Some (VStr "Error en solicitud GLS").
Proof.
  refine (parse_missing_result_node world_no_result no_result_text (SStr "X1")
            no_result_tree (reply_result [no_result_envio]) no_result_envio
            _ _ _ _);
    vm_compute; reflexivity.
Defined.

Lemma error_texts_findall envio :
  error_texts envio = map text (findall_desc_child "Errores" "Error" envio).
Proof.
  unfold error_texts, findall_desc_child, findall_desc.
  induction (descendants envio) as [|d ds IH]; [done|].
  cbn [flat_map List.filter]. unfold has_tag at 2.
  destruct (decide (tag d = "Errores")) as [Hd|Hd].
  - rewrite bool_decide_eq_true_2 by done. cbn [flat_map].
    rewrite List.map_app, <- IH. f_equal.
    induction (children d) as [|c cs IHc]; [done|].
    cbn [flat_map List.filter]. unfold has_tag at 1.
    destruct (decide (tag c = "Error")) as [Hc|Hc].
    + rewrite bool_decide_eq_true_2 by done. cbn. by rewrite IHc.
    + rewrite bool_decide_eq_false_2 by done. by rewrite IHc.
  - rewrite bool_decide_eq_false_2 by done. by rewrite IH.
Qed.

Lemma error_text_found envio :
  text_or (find_desc_child "Errores" "Error" envio) "Error desconocido" =
  error_text envio.
Proof.
  unfold error_text, find_desc_child. rewrite error_texts_findall.
  by destruct (findall_desc_child "Errores" "Error" envio) as [|node nodes].
Qed.

(** C3: a reply whose result code is any string other than exactly ["0"]
    (so also ["00"]) yields an outcome without carrier identifiers (no
    [uidExp], [exp], [codBar], [refs], [LabelBase64]) whose message is the
    table entry of the code, or, when the table has no entry for it, the
    error text of the document: the text of the first [Error] element
    under an [Errores] element of the shipment node ([None] when that
    element has no text, "Error desconocido" when there is none). *)
Theorem parse_failure_code (w : World) (xml_response : string) (order_id : Scalar)
    (root result_node envio_node resultado_node : Element) (code : string) :
  fromstring w xml_response = Ok root ->
  find_desc (qname ns_asm "GrabaServiciosResult") root = Some result_node ->
  find_desc "Envio" result_node = Some envio_node ->
  find_desc "Resultado" envio_node = Some resultado_node ->
  elem_get resultado_node "return" "-1" = code ->
  code <> "0" ->
  exists o,
    _parse_gls_response w xml_response order_id = Ok o /\
    o !! "codResponseWS" = Some (VStr code) /\
    o !! "uidExp" = None /\
    o !! "exp" = None /\
    o !! "codBar" = None /\
    o !! "refs" = None /\
    o !! "LabelBase64" = None /\
    o !! "messageWS" =
      Some (VScalar
              match dict_literal errors !! code with
              | Some table_message => SStr table_message
              | None =>
                match error_texts envio_node with
                | [] => SStr "Error desconocido"
                | Some error :: _ => SStr error
                | None :: _ => SNone
                end
              end).
Proof.
  intros H1 H2 H3 H4 H5 H6. eexists. split; [by eapply parse_error_branch|].
  change (match error_texts envio_node with
          | [] => SStr "Error desconocido"
          | Some error :: _ => SStr error
          | None :: _ => SNone
          end) with (error_text envio_node).
  rewrite <- error_text_found, <- py_or_table. repeat split.
Qed.

Lemma parse_failure_code_witness :
  exists o,
    _parse_gls_response (world_rejected "00") (failure_text "00") (SStr "X1") = Ok o /\
    o !! "codResponseWS" = Some (VStr "00") /\
    o !! "uidExp" = None /\
    o !! "exp" = None /\
    o !! "codBar" = None /\
    o !! "refs" = None /\
    o !! "LabelBase64" = None /\
    o !! "messageWS" = Some (VStr "rechazado").
Proof.
  unshelve refine
    (let H := parse_failure_code (world_rejected "00") (failure_text "00") (SStr "X1")
                (failure_tree "00") (reply_result [failure_envio "00"])
                (failure_envio "00") (failure_resultado "00") "00"
                _ _ _ _ _ _ in _);
    [vm_compute; reflexivity .. | discriminate |].
  destruct H as (o & Ho & Hc & H1 & H2 & H3 & H4 & H5 & Hm).
  exists o. split; [exact Ho|]. split; [exact Hc|]. split; [exact H1|].
  split; [exact H2|]. split; [exact H3|]. split; [exact H4|]. split; [exact H5|].
  etransitivity; [exact Hm|]. vm_compute. reflexivity.
Defined.

Example parse_code_00 :
  (fun o => (o !! "codResponseWS", o !! "messageWS", o !! "exp")) <$>
    _parse_gls_response (world_rejected "00") (failure_text "00") (SStr "X1") =
  Ok (Some (VStr "00"), Some (VStr "rechazado"), None).
Proof. vm_compute. reflexivity. Qed.

(** C5, as the specification words it, fails: the static table holds
    thirteen codes, not fourteen. *)
Lemma error_table_not_14 :
  length errors = 13 /\ size (dict_literal errors) <> 14.
Proof. split; [reflexivity|]. vm_compute. discriminate. Qed.

(** C5 (amended): the static table holds 13 known codes, all distinct; for
    a carrier reply with a code of the table, such as ["-3"], the message
    of the outcome is the table entry, and for a code outside the table it
    is the raw error text read from the document. *)
Theorem error_table_message (w : World) (xml_response : string) (order_id : Scalar)
    (root result_node envio_node resultado_node : Element) (code : string) :
  fromstring w xml_response = Ok root ->
  find_desc (qname ns_asm "GrabaServiciosResult") root = Some result_node ->
  find_desc "Envio" result_node = Some envio_node ->
  find_desc "Resultado" envio_node = Some resultado_node ->
  elem_get resultado_node "return" "-1" = code ->
  code <> "0" ->
  size (dict_literal errors) = 13 /\
  NoDup (map fst errors) /\
  dict_literal errors !! "-3" =
    Some "Error, El código de barras del envío ya existe." /\
  exists o,
    _parse_gls_response w xml_response order_id = Ok o /\
    (forall table_message,
        dict_literal errors !! code = Some table_message ->
        o !! "messageWS" = Some (VStr table_message)) /\
    (dict_literal errors !! code = None ->
     o !! "messageWS" =
       Some (VScalar (text_or (find_desc_child "Errores" "Error" envio_node)
                              "Error desconocido"))).
Proof.
  intros H1 H2 H3 H4 H5 H6.
  split; [by vm_compute|].
  split; [apply NoDup_ListNoDup; unfold errors; simpl;
          repeat (constructor; [simpl; intuition discriminate|]); constructor|].
  split; [by vm_compute|].
  eexists. split; [by eapply parse_error_branch|].
  split.
  - intros m Hm.
    change (Some (VScalar (py_or (get_error_message code)
              (text_or (find_desc_child "Errores" "Error" envio_node) "Error desconocido")))
            = Some (VStr m)).
    by rewrite py_or_table, Hm.
  - intros Hnone.
    change (Some (VScalar (py_or (get_error_message code)
              (text_or (find_desc_child "Errores" "Error" envio_node) "Error desconocido")))
            = Some (VScalar (text_or (find_desc_child "Errores" "Error" envio_node)
                                     "Error desconocido"))).
    by rewrite py_or_table, Hnone.
Qed.

Lemma error_table_message_witness :
  size (dict_literal errors) = 13 /\
  NoDup (map fst errors) /\
  dict_literal errors !! "-3" =
    Some "Error, El código de barras del envío ya existe." /\
  exists o,
    _parse_gls_response (world_rejected "-3") (failure_text "-3") (SStr "X1") = Ok o /\
    (forall table_message,
        dict_literal errors !! "-3" = Some table_message ->
        o !! "messageWS" = Some (VStr table_message)) /\
    (dict_literal errors !! "-3" = None ->
     o !! "messageWS" =
       Some (VScalar (text_or (find_desc_child "Errores" "Error" (failure_envio "-3"))
                              "Error desconocido"))).
Proof.
  refine (error_table_message (world_rejected "-3") (failure_text "-3") (SStr "X1")
            (failure_tree "-3") (reply_result [failure_envio "-3"])
            (failure_envio "-3") (failure_resultado "-3") "-3"
            _ _ _ _ _ _);
    [vm_compute; reflexivity .. | discriminate].
Defined.

Example parse_code_minus_3 :
  (fun o => o !! "messageWS") <$>
    _parse_gls_response (world_rejected "-3") (failure_text "-3") (SStr "X1") =
  Ok (Some (VStr "Error, El código de barras del envío ya existe.")).
Proof. vm_compute. reflexivity. Qed.

Example parse_code_unknown :
  (fun o => o !! "messageWS") <$>
    _parse_gls_response (world_rejected "-777") (failure_text "-777") (SStr "X1") =
  Ok (Some (VStr "rechazado")).
Proof. vm_compute. reflexivity. Qed.

(** C4: the parser never raises.  For every input it returns an outcome,
    and when the reply cannot be read (malformed document, a missing node,
    any exception inside) the outcome is the synthetic failure with result
    code ["-1"] and a description.  The carrier client never raises
    either: a failure to build or to send the request becomes the same
    kind of outcome. *)
Theorem failures_become_outcomes (w : World) (xml_response : string)
    (order_id : Scalar) (envio : Row) (log : list Event) :
  (exists o,
      _parse_gls_response w xml_response order_id = Ok o /\
      (unreadable w xml_response -> failure_outcome o order_id)) /\
  (exists o log',
      request_shipment_ws w envio log = (Ok o, log') /\
      (forall xml e,
          generate_soap_xml w envio log = (Ok xml, log) ->
          http_post w log (getenv w "GLS_SAVE_SHIP_URL") xml = Raise e ->
          failure_outcome o (envio_order_id envio) /\
          o !! "responseWS" = Some (VStr (str_exc e))) /\
      (forall e,
          generate_soap_xml w envio log = (Raise e, log) ->
          failure_outcome o (envio_order_id envio))).
Proof.
  split.
  - destruct (parse_total w xml_response order_id) as (o & Ho & _).
    exists o. split; [done|]. intros Hbad.
    destruct (parse_unreadable w xml_response order_id Hbad) as [d Hd].
    rewrite Ho in Hd. injection Hd as ->. apply build_error_response_failure.
  - destruct (request_shipment_ws_total w envio log) as (o & log' & Ho & _).
    exists o, log'. split; [done|]. split.
    + intros xml e Hgen Hpost.
      rewrite (request_shipment_ws_transport w envio log xml e Hgen Hpost) in Ho.
      injection Ho as <- <-. split; [apply build_error_response_failure|done].
    + intros e Hgen.
      rewrite (request_shipment_ws_build_failure w envio log e Hgen) in Ho.
      injection Ho as <- <-. apply build_error_response_failure.
Qed.

Lemma failures_become_outcomes_witness :
  (exists o,
      _parse_gls_response world_unreachable "<oops" (SStr "X1") = Ok o /\
      failure_outcome o (SStr "X1")) /\
  (exists o log',
      request_shipment_ws world_unreachable sample_envio [] = (Ok o, log') /\
      failure_outcome o (envio_order_id sample_envio) /\
      o !! "responseWS" = Some (VStr (str_exc (Exception "timed out")))).
Proof.
  destruct (failures_become_outcomes world_unreachable "<oops" (SStr "X1")
              sample_envio [])
    as [(o & Ho & Hbad) (o' & log' & Ho' & Htransport & _)].
  split.
  - exists o. split; [exact Ho|]. apply Hbad. vm_compute. exact I.
  - exists o', log'. split; [exact Ho'|].
    apply (Htransport sample_request (Exception "timed out"));
      vm_compute; reflexivity.
Defined.

Example parse_malformed_document :
  (fun o => (o !! "codResponseWS", o !! "responseWS")) <$>
    _parse_gls_response world_accepted "<oops" (SStr "X1") =
  Ok (Some (VStr "-1"),
      Some (VStr "Error parseando respuesta: syntax error: line 1, column 0")).
Proof. vm_compute. reflexivity. Qed.

Example request_without_carrier :
  (fun o => (o !! "codResponseWS", o !! "responseWS")) <$>
    (request_shipment_ws world_unreachable
       (row_dict shipment_columns (shipment_row "X1" "REF-1")) []).1 =
  Ok (Some (VStr "-1"), Some (VStr "timed out")).
Proof. vm_compute. reflexivity. Qed.

(** ** Shipment registration *)

Ltac mrun :=
  repeat (unfold mbind, M_bind, mret, M_ret, execute, commit, lift, raise,
            try_exceptM, datetime_now, post; cbv beta iota).

Ltac case_results :=
  repeat (match goal with
          | |- context [match ?x with Ok _ => _ | Raise _ => _ end] => destruct x
          end; cbv beta iota).

Lemma truthy_nonempty s : s <> EmptyString -> truthy (Some s) = Some s.
Proof. by destruct s. Qed.

Lemma sample_world_healthy table carrier :
  db_healthy (sample_world (table_db table) carrier).
Proof. split; intros; [by eexists|done]. Qed.

(** A check runs its one statement and answers, whatever the session
    does. *)
Lemma check_order_exists_run (w : World) order_id log :
  check_order_exists w order_id log =
  (Ok match db_execute w log "CALL toolstock_amz.uSp_isExistOrder(:idOrder)"
              (dict_literal [("idOrder", VStr order_id)]) with
      | Ok result => nonempty (fetchall result)
      | Raise _ => false
      end,
   log ++ [q_exists order_id]).
Proof.
  unfold check_order_exists. mrun. by destruct (db_execute _ _ _ _).
Qed.

Lemma check_order_not_shipped_run (w : World) order_id log :
  check_order_not_shipped w order_id log =
  (Ok match db_execute w log "CALL toolstock_amz.uSp_isOrderNotShipped(:idOrder)"
              (dict_literal [("idOrder", VStr order_id)]) with
      | Ok result => nonempty (fetchall result)
      | Raise _ => false
      end,
   log ++ [q_not_shipped order_id]).
Proof.
  unfold check_order_not_shipped. mrun. by destruct (db_execute _ _ _ _).
Qed.

(** The single-service registration answers with no message or with
    "El pedido ya fue enviado", whatever the database holds. *)
Lemma register_ws_message (w : World) order_id log response log' :
  _register_shipment_ws w order_id log = (Ok response, log') ->
  message response = None \/ message response = Some "El pedido ya fue enviado".
Proof.
  unfold _register_shipment_ws.
  destruct (truthy order_id) as [oid|]; [|discriminate].
  unfold check_order_not_shipped. mrun.
  destruct (db_execute _ _ _ _) as [rs|e]; cbv beta iota.
  2:{ intros [= <- <-]. by right. }
  destruct (nonempty (fetchall rs)); cbv beta iota delta [negb].
  2:{ intros [= <- <-]. by right. }
  destruct (db_execute _ _ _ _) as [rs2|e2]; cbv beta iota; [|discriminate].
  destruct (fetchone rs2) as [row|]; cbv beta iota.
  2:{ intros [= <- <-]. by left. }
  unfold to_dict. destruct (dict_of_row w (keys rs2) row) as [envio|reason];
    mrun; [|discriminate].
  match goal with |- context [request_shipment_ws w ?e ?l] =>
    destruct (request_shipment_ws w e l) as [[o|e3] l3] end;
    cbv beta iota; [|discriminate].
  destruct (bool_decide _); [|intros [= <- <-]; by left].
  unfold getitem. destruct (o !! "idOrder"); mrun; [|discriminate].
  case_results; try discriminate.
  intros [= <- <-]. by left.
Qed.

(** C1 does not hold of the code: the single-service registration never
    asks whether the order exists.  For an order id unknown to the database
    it answers affected-count 0 with "El pedido ya fue enviado", not
    "El pedido no existe"; the carrier is not called on this input. *)
Theorem unknown_order_reported_as_shipped :
  check_order_exists world_unknown_order "X1" [] =
    (Ok false,
     [EvExecute "CALL toolstock_amz.uSp_isExistOrder(:idOrder)"
        (dict_literal [("idOrder", VStr "X1")])]) /\
  _register_shipment_ws world_unknown_order (Some "X1") [] =
    (Ok (success_response (PRows []) 0 (Some "El pedido ya fue enviado") None None),
     [EvExecute "CALL toolstock_amz.uSp_isOrderNotShipped(:idOrder)"
        (dict_literal [("idOrder", VStr "X1")])]) /\
  message (success_response (PRows []) 0 (Some "El pedido ya fue enviado") None None)
    <> Some "El pedido no existe" /\
  carrier_requests (_register_shipment_ws world_unknown_order (Some "X1") []).2 = [] /\
  (forall (w : World) order_id log response log',
      _register_shipment_ws w order_id log = (Ok response, log') ->
      message response <> Some "El pedido no existe").
Proof.
  split; [vm_compute; reflexivity|]. split; [vm_compute; reflexivity|].
  split; [discriminate|]. split; [vm_compute; reflexivity|].
  intros w order_id log response log' H.
  destruct (register_ws_message w order_id log response log' H) as [-> | ->];
    discriminate.
Qed.

(** With an order id the existence procedure does not know but that is
    queued for shipment, the registration goes all the way to the carrier
    and to the three updates. *)
Example orphan_order_reaches_carrier :
  check_order_exists world_orphan "X1" [] =
    (Ok false,
     [EvExecute "CALL toolstock_amz.uSp_isExistOrder(:idOrder)"
        (dict_literal [("idOrder", VStr "X1")])]) /\
  _register_shipment_ws world_orphan (Some "X1") [] =
    (Ok (success_response (POutcome accepted_outcome) 1 None None None),
     accepted_trace ++ accepted_updates) /\
  carrier_requests (_register_shipment_ws world_orphan (Some "X1") []).2 =
    [sample_request].
Proof. repeat split; vm_compute; reflexivity. Qed.

(** C2: a single-service registration that reaches the shipment row either
    fails to convert it, and then raises with nothing but the check and the
    fetch in the trace (the route rolls back and answers HTTP 500), or
    calls the carrier.  Once the carrier has been called and its outcome
    parsed, the three updates (the identifier, tracking code and bar code
    of the outcome onto the order detail, shipment marked as done by web
    service, tracking code onto the order) are issued, in that order and
    each followed by its own commit, exactly when the result code of the
    outcome is the string ["0"].  For any other code, ["-1"] included,
    nothing is added to the trace and the outcome is returned as it is.
    With code ["0"] the trace grows by a prefix of the six events; it is
    the whole of them whenever the registration returns, and it returns
    whenever the session does not fail. *)
Theorem ws_updates_iff_code_0 (w : World) (order_id : string) (log : list Event)
    (result : ResultSet) (shipment_data : list Scalar) :
  order_id <> EmptyString ->
  let log1 := log ++ [q_not_shipped order_id] in
  let log2 := log1 ++ [q_shipment order_id] in
  (check_order_not_shipped w order_id log).1 = Ok true ->
  db_execute w log1 "CALL toolstock_amz.uSp_getOrdersForShipmentWS(:idOrder)"
             (dict_literal [("idOrder", VStr order_id)]) = Ok result ->
  fetchone result = Some shipment_data ->
  let run := _register_shipment_ws w (Some order_id) log in
  (forall reason,
     dict_of_row w (keys result) shipment_data = inr reason ->
     run = (Raise (Exception reason), log2) /\
     register_shipment w (mkRegisterShipment "usingWS" (Some order_id)) log =
       (Raise (HTTPException 500 "Error interno"), log2 ++ [EvRollback])) /\
  (forall envio gls_response log3,
     dict_of_row w (keys result) shipment_data = inl envio ->
     request_shipment_ws w envio log2 = (Ok gls_response, log3) ->
     let response :=
       {| header := {| status := "ok"; content := 1;
                       resource := None; count := None |};
          payload := POutcome gls_response;
          message := None |} in
     let updates :=
       ws_updates order_id (envio_order_id envio)
         (outcome_field gls_response "uidExp")
         (outcome_field gls_response "exp")
         (outcome_field gls_response "codBar") in
     (gls_response !! "codResponseWS" <> Some (VStr "0") ->
      run = (Ok response, log3)) /\
     (gls_response !! "codResponseWS" = Some (VStr "0") ->
      (exists n, run.2 = log3 ++ take n updates) /\
      (forall r, run.1 = Ok r -> r = response /\ run.2 = log3 ++ updates) /\
      (db_healthy w -> run = (Ok response, log3 ++ updates)))).
Proof.
  intros Hne log1 log2 Hcheck Hexec Hfetch run.
  eassert (Hrun : run = (to_dict w result shipment_data ≫= _) log2).
  { subst run. unfold _register_shipment_ws. rewrite truthy_nonempty by done.
    unfold mbind at 1, M_bind at 1.
    rewrite check_order_not_shipped_run in *. cbn [fst] in Hcheck.
    injection Hcheck as ->. cbv beta iota delta [negb].
    unfold mbind at 1, M_bind at 1. unfold execute at 1. fold log1.
    rewrite Hexec. cbv beta iota. rewrite Hfetch. reflexivity. }
  split.
  - intros reason Hbad.
    assert (Hraise : run = (Raise (Exception reason), log2)).
    { rewrite Hrun. unfold mbind at 1, M_bind at 1. unfold to_dict.
      by rewrite Hbad. }
    split; [exact Hraise|].
    unfold register_shipment. cbn [shipmentType idOrder].
    rewrite bool_decide_eq_false_2 by done. fold run. by rewrite Hraise.
  - intros envio gls_response log3 Hok Hreq response updates.
    assert (Hid : gls_response !! "idOrder" = Some (VScalar (envio_order_id envio))).
    { destruct (request_shipment_ws_total w envio log2) as (o & l & Ho & Hi & _).
      rewrite Hreq in Ho. by injection Ho as <- <-. }
    eassert (Hrun' : run = _).
    { rewrite Hrun. unfold mbind at 1, M_bind at 1. unfold to_dict. rewrite Hok.
      unfold mret at 1, M_ret at 1. cbv beta iota.
      unfold mbind at 1, M_bind at 1. rewrite Hreq. cbv beta iota.
      unfold mbind at 1, M_bind at 1. reflexivity. }
    clearbody run. clear Hrun Hcheck Hexec Hfetch. subst run. split.
    + intros Hc. by rewrite bool_decide_eq_false_2.
    + intros Hc. rewrite bool_decide_eq_true_2 by done.
      unfold getitem, get_or_empty. rewrite Hid. subst updates.
      unfold ws_updates, outcome_field.
      change (default (VStr EmptyString) ?x)
        with (match x with Some v => v | None => VStr EmptyString end).
      mrun. cbv zeta.
      split; [|split].
      * case_results; cbn [snd]; rewrite <- ?app_assoc; cbn [app];
          first [ by exists 1 | by exists 2 | by exists 3
                | by exists 4 | by exists 5 | by exists 6 ].
      * intros r. case_results; cbn [fst snd]; try discriminate.
        intros [= <-]. split; [done|]. by rewrite <- !app_assoc.
      * intros [Hex Hco].
        repeat (first [ rewrite Hco
                      | match goal with
                        | |- context [db_execute w ?l ?s ?p] =>
                          destruct (Hex l s p) as [? ->]
                        end ]; cbv beta iota).
        by rewrite <- !app_assoc.
Qed.

Lemma ws_updates_iff_code_0_witness :
  _register_shipment_ws world_accepted (Some "X1") [] =
  (Ok {| header := {| status := "ok"; content := 1;
                      resource := None; count := None |};
         payload := POutcome accepted_outcome;
         message := None |},
   accepted_trace ++ accepted_updates).
Proof.
  assert (Hne : "X1" <> EmptyString) by discriminate.
  assert (Hcheck : (check_order_not_shipped world_accepted "X1" []).1 = Ok true)
    by (vm_compute; reflexivity).
  assert (Hexec : db_execute world_accepted ([] ++ [q_not_shipped "X1"])
            "CALL toolstock_amz.uSp_getOrdersForShipmentWS(:idOrder)"
            (dict_literal [("idOrder", VStr "X1")]) =
            Ok (mkResultSet shipment_columns [shipment_row "X1" "REF-1"] 1))
    by (vm_compute; reflexivity).
  assert (Hfetch : fetchone (mkResultSet shipment_columns [shipment_row "X1" "REF-1"] 1)
                   = Some (shipment_row "X1" "REF-1")) by (vm_compute; reflexivity).
  assert (Hok : dict_of_row world_accepted
                  (keys (mkResultSet shipment_columns [shipment_row "X1" "REF-1"] 1))
                  (shipment_row "X1" "REF-1") = inl sample_envio)
    by reflexivity.
  assert (Hreq : request_shipment_ws world_accepted sample_envio
                   (([] ++ [q_not_shipped "X1"]) ++ [q_shipment "X1"]) =
                 (Ok accepted_outcome, accepted_trace)) by (vm_compute; reflexivity).
  assert (Hcode : accepted_outcome !! "codResponseWS" = Some (VStr "0"))
    by (vm_compute; reflexivity).
  pose proof (proj2 (proj2 (proj2 (proj2
         (ws_updates_iff_code_0 world_accepted "X1" []
            (mkResultSet shipment_columns [shipment_row "X1" "REF-1"] 1)
            (shipment_row "X1" "REF-1") Hne Hcheck Hexec Hfetch)
         sample_envio accepted_outcome accepted_trace Hok Hreq) Hcode))
         (sample_world_healthy db_ready (fixed_reply success_text))) as H.
  etransitivity; [exact H|].
  vm_compute. reflexivity.
Defined.

(** On rows of the SQLAlchemy 2.x series the row of [X1] does not convert:
    the registration stops before the carrier, rolls back and answers
    HTTP 500. *)
Example sequence_row_is_not_converted :
  register_shipment world_sequence_rows (mkRegisterShipment "usingWS" (Some "X1")) [] =
  (Raise (HTTPException 500 "Error interno"),
   [ q_not_shipped "X1"; q_shipment "X1"; EvRollback ]) /\
  _register_shipment_ws world_sequence_rows (Some "X1") [] =
  (Raise (Exception
            "dictionary update sequence element #1 has length 1; 2 is required"),
   [ q_not_shipped "X1"; q_shipment "X1" ]).
Proof. split; vm_compute; reflexivity. Qed.

Example rejected_shipment_writes_nothing :
  _register_shipment_ws (world_rejected "-3") (Some "X1") [] =
  (Ok (success_response
         (POutcome
            (dict_literal
               [ ("codResponseWS", VStr "-3");
                 ("responseWS", VStr "rechazado");
                 ("messageWS", VStr "Error, El código de barras del envío ya existe.");
                 ("idOrder", VStr "X1") ]))
         1 None None None),
   accepted_trace).
Proof. vm_compute. reflexivity. Qed.

Example unreachable_carrier_writes_nothing :
  _register_shipment_ws world_unreachable (Some "X1") [] =
  (Ok (success_response
         (POutcome (_build_error_response "timed out" (SStr "X1"))) 1 None None None),
   accepted_trace).
Proof. vm_compute. reflexivity. Qed.

(** C7: a bulk registration that finds N >= 1 eligible orders generates one
    file name, "Envios_" followed by the day, month, year, "_", hour,
    minute and second of the clock and ".xlsx"; every one of the N records
    of the payload carries that name; and the statements issued after the
    selection are exactly two, the one marking the shipment records with the
    file and the one flagging the order details, each followed by its
    commit. *)
Theorem bulk_registration (w : World) (log : list Event) (rs : ResultSet) :
  db_execute w log "CALL toolstock_amz.uSp_getOrdersForShipmentFile()" ∅ = Ok rs ->
  fetchall rs <> [] ->
  let log1 := log ++ [EvExecute "CALL toolstock_amz.uSp_getOrdersForShipmentFile()" ∅] in
  let d := now w log1 in
  let file_name :=
    "Envios_" +:+
    (pad2 (day d) +:+ pad2 (month d) +:+ pad4 (year d) +:+ "_" +:+
     pad2 (hour d) +:+ pad2 (minute d) +:+ pad2 (second d)) +:+
    ".xlsx" in
  let run := _register_shipment_file w log in
  (exists n, run.2 = log1 ++ take n (file_updates file_name)) /\
  (forall r, run.1 = Ok r ->
     payload r =
       PRows (map (fun record => <["fileGenerateName" := SStr file_name]> record)
                  (map (row_dict (keys rs)) (fetchall rs))) /\
     (exists rows,
         payload r = PRows rows /\
         length rows = length (fetchall rs) /\
         Forall (fun record => record !! "fileGenerateName" = Some (SStr file_name)) rows) /\
     run.2 = log1 ++ file_updates file_name /\
     statements (file_updates file_name) =
       [ "CALL toolstock_amz.uSp_updateShipmentFile(:fileGenerateName)";
         "CALL toolstock_amz.uSp_updateOrdersDetailFile()" ]) /\
  (db_healthy w -> exists r, run = (Ok r, log1 ++ file_updates file_name)).
Proof.
  intros Hsel Hrows log1 d file_name run.
  assert (Hrun : run =
    (let rows := map (fun record => <["fileGenerateName" := SStr file_name]> record)
                     (map (row_dict (keys rs)) (fetchall rs)) in
     (_ ← execute w "CALL toolstock_amz.uSp_updateShipmentFile(:fileGenerateName)"
            (dict_literal [("fileGenerateName", VStr file_name)]);
      _ ← commit w;
      _ ← execute w "CALL toolstock_amz.uSp_updateOrdersDetailFile()" ∅;
      _ ← commit w;
      mret (success_response (PRows rows) 1 None None None)) log1)).
  { subst run. unfold _register_shipment_file, get_orders_by_procedure_raw,
      execute_stored_procedure.
    unfold mbind at 1, M_bind at 1. unfold mbind at 1, M_bind at 1.
    unfold mbind at 1, M_bind at 1. unfold execute at 1.
    change (dict_literal (default [] None)) with (∅ : Dict).
    change ("CALL toolstock_amz." +:+ "uSp_getOrdersForShipmentFile" +:+ "()")
      with "CALL toolstock_amz.uSp_getOrdersForShipmentFile()".
    rewrite Hsel. cbv beta iota zeta.
    destruct (fetchall rs) as [|row rows] eqn:Erows; [done|].
    cbn [nonempty negb]. unfold mret at 1 2, M_ret at 1 2. cbv beta iota.
    reflexivity. }
  clearbody run. subst run. clear Hsel. mrun. cbv zeta.
  split; [|split].
  - case_results; cbn [snd]; rewrite <- ?app_assoc; cbn [app];
      first [ by exists 1 | by exists 2 | by exists 3 | by exists 4 ].
  - intros r. case_results; cbn [fst snd]; try discriminate.
    intros [= <-]. split; [done|]. split; [|split].
    + eexists. split; [reflexivity|]. split; [by rewrite !length_map|].
      apply Forall_map, Forall_true. intros record. apply lookup_insert_eq.
    + by rewrite <- !app_assoc.
    + reflexivity.
  - intros [Hex Hco].
    repeat (first [ rewrite Hco
                  | match goal with
                    | |- context [db_execute w ?l ?s ?p] =>
                      destruct (Hex l s p) as [? ->]
                    end ]; cbv beta iota).
    eexists. by rewrite <- !app_assoc.
Qed.

Lemma bulk_registration_witness :
  exists r,
    _register_shipment_file world_accepted [] =
      (Ok r,
       [EvExecute "CALL toolstock_amz.uSp_getOrdersForShipmentFile()" ∅] ++
       file_updates "Envios_04112026_090507.xlsx") /\
    payload r =
      PRows (map (fun record =>
                    <["fileGenerateName" := SStr "Envios_04112026_090507.xlsx"]> record)
                 (map (row_dict shipment_columns)
                      [shipment_row "X1" "REF-1"; shipment_row "X2" "REF-2"])).
Proof.
  unshelve refine (let H := bulk_registration world_accepted [] bulk_selection _ _ in _);
    [vm_compute; reflexivity | discriminate |].
  destruct H as (_ & Hreturn & Hhealthy).
  destruct (Hhealthy (sample_world_healthy db_ready (fixed_reply success_text)))
    as [r Hr].
  exists r. split; [exact Hr|].
  apply (Hreturn r). by rewrite Hr.
Defined.

(** ** The request builder *)

Lemma append_cons c (a b : string) : String c a +:+ b = String c (a +:+ b).
Proof. reflexivity. Qed.

Lemma append_assoc (a b c : string) : (a +:+ b) +:+ c = a +:+ (b +:+ c).
Proof. induction a as [|x a IH]; [done|]. by rewrite !append_cons, IH. Qed.









Lemma format_render (f : string -> string) template (data : Row) :
  (forall name, In name (fields template) ->
                exists v, data !! name = Some v /\ str_scalar v = f name) ->
  format template data = Ok (render f template).
Proof.
  induction template as [|[s|name] rest IH]; intros H; [done| |].
  - cbn [format render]. rewrite IH by done. done.
  - cbn [format render].
    destruct (H name) as (v & -> & <-); [cbn; by left|].
    rewrite IH; [done|]. intros k Hk. apply H. cbn. by right.
Qed.

Lemma render_app f t1 t2 :
  render f (t1 ++ t2) = render f t1 +:+ render f t2.
Proof.
  induction t1 as [|[s|name] t1 IH]; cbn [render app]; [done| |];
    by rewrite IH, append_assoc.
Qed.

Lemma occurs_in_field f t1 a x name y b t2 :
  occurs_in (x +:+ f name +:+ y)
    (render f (t1 ++ Lit (a +:+ x) :: Field name :: Lit (y +:+ b) :: t2)).
Proof.
  exists (render f t1 +:+ a), (b +:+ render f t2).
  rewrite render_app. cbn [render]. by rewrite !append_assoc.
Qed.







Lemma xml_template_fields :
  fields xml_template =
  [ "uid_cliente"; "fecha"; "servicio"; "horario"; "bultos"; "peso"; "portes";
    "reembolso"; "nombre_org"; "direccion_org"; "poblacion_org"; "pais_org";
    "cp_org"; "destinatario"; "direccion"; "poblacion"; "pais"; "cp";
    "telefono"; "movil"; "email"; "departamento"; "observaciones"; "refC" ].
Proof. reflexivity. Qed.

Lemma xml_template_one_reference :
  count_template referencia_C xml_template = Some 1.
Proof. vm_compute. reflexivity. Qed.


Lemma complete_lookup envio name :
  complete envio -> In name envio_fields -> is_Some (envio !! name).
Proof. intros H. by apply (proj1 (List.Forall_forall _ _) H). Qed.

Lemma config_lookup (w : World) name :
  In name [ "uid_cliente"; "portes"; "reembolso"; "nombre_org"; "direccion_org";
            "poblacion_org"; "pais_org"; "cp_org" ] ->
  is_Some (config w !! name).
Proof.
  intros H. cbn [In] in H.
  repeat (destruct H as [<-|H]; [by eexists|]). destruct H.
Qed.

Lemma merge_data_lookup (w : World) envio fecha name :
  complete envio ->
  In name (fields xml_template) ->
  exists v,
    merge_data w envio fecha !! name = Some v /\
    (name = "fecha" /\ v = SStr fecha \/
     name <> "fecha" /\ (envio ∪ config w) !! name = Some v).
Proof.
  intros Hc Hin. unfold merge_data.
  destruct (decide (name = "fecha")) as [->|Hne].
  - exists (SStr fecha). rewrite lookup_insert_eq. split; [done|by left].
  - rewrite lookup_insert_ne by done.
    assert (Hs : is_Some ((envio ∪ config w) !! name)).
    { apply lookup_union_is_Some. rewrite xml_template_fields in Hin.
      cbn [In] in Hin.
      destruct Hin as [<-|Hin]; [right; apply config_lookup; cbn; tauto|].
      destruct Hin as [<-|Hin]; [done|].
      repeat (destruct Hin as [<-|Hin];
              [first [ left; apply complete_lookup; [done|cbn; tauto]
                     | right; apply config_lookup; cbn; tauto ]|]).
      destruct Hin. }
    destruct Hs as [v Hv]. exists v. split; [done|]. by right.
Qed.



Lemma sample_envio_complete : complete sample_envio.
Proof. apply (bool_decide_unpack _). vm_compute. exact I. Defined.




(** A reference code that opens a second reference with single quotes
    round its type holds no opening tag of type C as the template writes
    it, and still gives two elements named [Referencia]. *)
Example quoted_reference_is_doubled :
  let envio :=
    row_dict shipment_columns
      (shipment_row "X1" "A</Referencia><Referencia tipo='C'>B") in
  count_sub referencia_C <$> (generate_soap_xml world_accepted envio []).1 = Ok 1 /\
  count_elements "Referencia" <$> (generate_soap_xml world_accepted envio []).1 = Ok 2.
Proof. split; vm_compute; reflexivity. Qed.

Example sample_request_text :
  generate_soap_xml world_accepted sample_envio [] = (Ok sample_request, []) /\
  count_sub referencia_C sample_request = 1 /\
  count_sub ("<Referencia tipo=" +:+ dq +:+ "C" +:+ dq +:+ ">REF-1</Referencia>")
            sample_request = 1 /\
  count_sub "<Fecha>04/11/2026</Fecha>" sample_request = 1.
Proof. repeat split; vm_compute; reflexivity. Qed.

(** * Further properties *)

(** ** Grouping orders with their items *)

Lemma distinct_ids_snoc rows row :
  distinct_ids (rows ++ [row]) =
  if decide (row_order_id row ∈ distinct_ids rows) then distinct_ids rows
  else distinct_ids rows ++ [row_order_id row].
Proof. unfold distinct_ids. by rewrite fold_left_app. Qed.

Lemma rows_of_snoc order_id rows row :
  rows_of order_id (rows ++ [row]) =
  rows_of order_id rows ++
  (if decide (row_order_id row = order_id) then [row] else []).
Proof.
  unfold rows_of. rewrite List.filter_app. cbn [List.filter].
  case_bool_decide; case_decide; done.
Qed.

Lemma distinct_ids_elem order_id rows :
  order_id ∈ distinct_ids rows <-> exists row, row ∈ rows /\ row_order_id row = order_id.
Proof.
  induction rows as [|row rows IH] using rev_ind.
  - split; [by intros ?%elem_of_nil|]. intros (r & Hr%elem_of_nil & _). done.
  - rewrite distinct_ids_snoc. split.
    + intros H. case_decide as Hd.
      * apply IH in H as (r & Hr & Hid). exists r. split; [|done].
        apply elem_of_app. by left.
      * apply elem_of_app in H as [H|H%list_elem_of_singleton].
        -- apply IH in H as (r & Hr & Hid). exists r. split; [|done].
           apply elem_of_app. by left.
        -- exists row. split; [|done]. apply elem_of_app. right. by left.
    + intros (r & Hr & Hid). apply elem_of_app in Hr as [Hr|Hr%list_elem_of_singleton].
      * assert (order_id ∈ distinct_ids rows) by (apply IH; eauto).
        case_decide; [done|]. apply elem_of_app. by left.
      * subst r. case_decide; [by subst|]. apply elem_of_app. right. subst. by left.
Qed.

Lemma distinct_ids_NoDup rows : NoDup (distinct_ids rows).
Proof.
  induction rows as [|row rows IH] using rev_ind; [constructor|].
  rewrite distinct_ids_snoc. case_decide; [done|].
  apply NoDup_app. split; [done|]. split; [|apply NoDup_singleton].
  intros x Hx ->%list_elem_of_singleton. done.
Qed.

Lemma rows_of_nil order_id rows :
  order_id ∉ distinct_ids rows -> rows_of order_id rows = [].
Proof.
  intros H. unfold rows_of. induction rows as [|row rows IH]; [done|].
  cbn [List.filter]. case_bool_decide as Hd.
  - exfalso. apply H, distinct_ids_elem. exists row. split; [by left|done].
  - apply IH. intros Hin. apply H. apply distinct_ids_elem.
    apply distinct_ids_elem in Hin as (r & Hr & Hid). exists r. split; [by right|done].
Qed.

Lemma rows_of_nonempty order_id rows :
  order_id ∈ distinct_ids rows -> rows_of order_id rows <> [].
Proof.
  intros (r & Hr & Hid)%distinct_ids_elem Hnil.
  assert (r ∈ rows_of order_id rows) as Hin.
  { unfold rows_of. apply list_elem_of_In, List.filter_In. split.
    - by apply list_elem_of_In.
    - by apply bool_decide_eq_true. }
  rewrite Hnil in Hin. by apply elem_of_nil in Hin.
Qed.

Lemma group_step_inv done state row :
  group_inv done state ->
  exists state', group_step state row = Ok state' /\ group_inv (done ++ [row]) state'.
Proof.
  destruct state as [grouped processed]. intros [Hg Hp]. cbn [fst snd] in *.
  unfold group_step.
  destruct (processed !! row_order_id row) as [index|] eqn:Hlook.
  - apply Hp in Hlook.
    assert (Hin : row_order_id row ∈ distinct_ids done)
      by (by eapply list_elem_of_lookup_2).
    assert (Ho : grouped !! index = Some (expected_order done (row_order_id row))).
    { rewrite Hg, list_lookup_fmap, Hlook. done. }
    rewrite Ho. eexists. split; [reflexivity|]. split; cbn [fst snd].
    + rewrite distinct_ids_snoc. rewrite decide_True by done.
      rewrite Hg. apply list_eq. intros j.
      destruct (decide (j = index)) as [->|Hne].
      * rewrite list_lookup_insert_eq
          by (rewrite length_fmap; by eapply lookup_lt_Some).
        rewrite list_lookup_fmap, Hlook. cbn. f_equal.
        unfold expected_order. rewrite rows_of_snoc, decide_True by done.
        rewrite fmap_app. cbn. f_equal.
        destruct (rows_of (row_order_id row) done) eqn:E; [|done].
        by apply rows_of_nonempty in Hin.
      * rewrite list_lookup_insert_ne by done.
        rewrite !list_lookup_fmap.
        destruct (distinct_ids done !! j) as [id|] eqn:Hj; [|done]. cbn. f_equal.
        unfold expected_order. rewrite rows_of_snoc.
        rewrite decide_False; [by rewrite app_nil_r|].
        intros Heq. subst id. apply Hne.
        by eapply NoDup_lookup; [apply distinct_ids_NoDup|..].
    + rewrite distinct_ids_snoc, decide_True by done. apply Hp.
  - assert (Hnin : row_order_id row ∉ distinct_ids done).
    { intros (i & Hi)%list_elem_of_lookup_1. apply Hp in Hi. congruence. }
    eexists. split; [reflexivity|]. split; cbn [fst snd].
    + rewrite distinct_ids_snoc, decide_False by done.
      rewrite fmap_app. cbn. f_equal.
      * rewrite Hg. apply list_fmap_ext. intros j id Hid%list_elem_of_lookup_2.
        unfold expected_order. rewrite rows_of_snoc.
        rewrite decide_False; [by rewrite app_nil_r|]. intros Heq. by subst.
      * unfold expected_order. rewrite rows_of_snoc, decide_True by done.
        by rewrite rows_of_nil.
    + intros order_id i. rewrite distinct_ids_snoc, decide_False by done.
      assert (Hlen : length grouped = length (distinct_ids done))
        by (by rewrite Hg, length_fmap).
      rewrite Hlen.
      destruct (decide (order_id = row_order_id row)) as [->|Hne].
      * rewrite lookup_insert_eq. split.
        -- intros [= <-]. rewrite lookup_app_r by done.
           by rewrite Nat.sub_diag.
        -- intros Hi. f_equal.
           destruct (decide (i < length (distinct_ids done))) as [Hlt|Hge].
           ++ rewrite lookup_app_l in Hi by done.
              exfalso. apply Hnin. by eapply list_elem_of_lookup_2.
           ++ rewrite lookup_app_r in Hi by lia.
              apply list_lookup_singleton_Some in Hi as [Hi _]. lia.
      * rewrite lookup_insert_ne by done. rewrite Hp. split.
        -- intros Hi. by apply lookup_app_l_Some.
        -- intros Hi. apply lookup_app_Some in Hi as [Hi|[_ Hi]]; [done|].
           apply list_lookup_singleton_Some in Hi as [_ Hi]. congruence.
Qed.

Lemma group_loop_inv rest : forall done state,
  group_inv done state ->
  exists state', group_loop rest state = Ok state' /\ group_inv (done ++ rest) state'.
Proof.
  induction rest as [|row rest IH]; intros done state Hinv.
  - exists state. by rewrite app_nil_r.
  - destruct (group_step_inv done state row Hinv) as (state1 & Hs & Hinv1).
    destruct (IH _ _ Hinv1) as (state' & Hl & Hinv').
    exists state'. cbn [group_loop]. rewrite Hs. cbn.
    split; [done|]. by rewrite <- app_assoc in Hinv'.
Qed.

Lemma group_orders_with_items_eq (rows : list Row) :
  group_orders_with_items rows =
  Ok (expected_order rows <$> distinct_ids rows).
Proof.
  destruct rows as [|row rows]; [done|].
  unfold group_orders_with_items.
  destruct (group_loop_inv (row :: rows) [] ([], ∅)) as (state' & Hl & Hg & _).
  { split; [done|]. intros id i. cbn. rewrite lookup_empty. split; done. }
  rewrite Hl. cbn. by rewrite Hg.
Qed.

(** X1: group_orders_with_items returns, for any list of rows, one order per
    distinct amazonOrderId in the order in which the ids first appear; each
    order holds the non-product columns of the first row with its id and, as
    items, the product columns of every row with that id in row order. It
    never raises: the index kept for an id always points into the list of
    orders. Rows without the amazonOrderId key and rows where it is NULL share
    one group. *)
Theorem group_orders_with_items_spec (rows : list Row) :
  group_orders_with_items rows =
  Ok (expected_order rows <$> distinct_ids rows).
Proof. apply group_orders_with_items_eq. Qed.

Lemma rows_of_elem order_id rows row :
  row ∈ rows_of order_id rows <-> row ∈ rows /\ row_order_id row = order_id.
Proof.
  unfold rows_of. rewrite list_elem_of_In, List.filter_In, <- list_elem_of_In.
  by rewrite bool_decide_eq_true.
Qed.

Lemma total_items_cons order orders :
  total_items (order :: orders) = length (items order) + total_items orders.
Proof. unfold total_items. cbn. by rewrite length_app. Qed.

Lemma total_items_app orders1 orders2 :
  total_items (orders1 ++ orders2) = total_items orders1 + total_items orders2.
Proof.
  induction orders1 as [|o orders1 IH]; [done|].
  cbn [app]. rewrite !total_items_cons, IH. lia.
Qed.

Lemma expected_items_snoc rows row ids :
  NoDup ids ->
  total_items (expected_order (rows ++ [row]) <$> ids) =
  total_items (expected_order rows <$> ids) +
  (if decide (row_order_id row ∈ ids) then 1 else 0).
Proof.
  induction ids as [|id ids IHids]; intros Hnd; [done|].
  apply NoDup_cons in Hnd as [Hid Hnd]. cbn [fmap list_fmap].
  rewrite !total_items_cons, IHids by done. cbn [expected_order items].
  rewrite rows_of_snoc, fmap_app, length_app.
  destruct (decide (row_order_id row = id)) as [Heq|Hne].
  - subst id. rewrite (decide_False (P := row_order_id row ∈ ids)) by done.
    rewrite decide_True by (by left). cbn. lia.
  - cbn. destruct (decide (row_order_id row ∈ ids)) as [Hin|Hnin].
    + rewrite (decide_True (P := row_order_id row ∈ id :: ids)) by (by right).
      lia.
    + rewrite (decide_False (P := row_order_id row ∈ id :: ids)); [lia|].
      intros [?|?]%elem_of_cons; done.
Qed.

Lemma expected_items_total rows :
  total_items (expected_order rows <$> distinct_ids rows) = length rows.
Proof.
  induction rows as [|row rows IH] using rev_ind; [done|].
  rewrite distinct_ids_snoc, length_app. cbn [length].
  case_decide as Hd.
  - rewrite expected_items_snoc by apply distinct_ids_NoDup.
    rewrite decide_True by done. rewrite IH. lia.
  - rewrite fmap_app, total_items_app.
    rewrite expected_items_snoc by apply distinct_ids_NoDup.
    rewrite decide_False by done. rewrite IH.
    cbn [fmap list_fmap]. rewrite total_items_cons. cbn [expected_order items].
    rewrite rows_of_snoc, decide_True by done.
    rewrite (rows_of_nil _ _ Hd). cbn. lia.
Qed.

(** X2: Grouping loses and invents no row: the items of all returned orders
    together are as many as the input rows, every returned order has at least
    one item, and the result is empty exactly when the input is. *)
Theorem group_orders_keeps_every_row (rows : list Row) :
  exists orders,
    group_orders_with_items rows = Ok orders /\
    total_items orders = length rows /\
    Forall (fun order => items order <> []) orders /\
    (rows = [] <-> orders = []).
Proof.
  eexists. split; [apply group_orders_with_items_eq|]. split; [|split].
  - apply expected_items_total.
  - apply Forall_fmap, Forall_forall. intros id Hid. cbn.
    apply rows_of_nonempty in Hid.
    destruct (rows_of id rows); [done|]. done.
  - split; [by intros ->|]. intros H%fmap_nil_inv.
    destruct rows as [|row rows]; [done|]. exfalso.
    assert (row_order_id row ∈ distinct_ids (row :: rows)) as Hin.
    { apply distinct_ids_elem. exists row. split; [by left|done]. }
    rewrite H in Hin. by apply elem_of_nil in Hin.
Qed.

Lemma order_columns_lookup row key :
  key ∉ product_fields -> key <> "items" ->
  order_columns row !! key = row !! key.
Proof.
  intros Hk Hi. unfold order_columns. rewrite lookup_delete_ne by done.
  destruct (row !! key) as [v|] eqn:E.
  - by apply (map_lookup_filter_Some_2 _ _ key v).
  - apply map_lookup_filter_None. by left.
Qed.

Lemma expected_order_id rows order_id :
  order_id ∈ distinct_ids rows ->
  row_order_id (order_info (expected_order rows order_id)) = order_id.
Proof.
  intros Hin. unfold expected_order. cbn [order_info].
  destruct (rows_of order_id rows) as [|row rest] eqn:E.
  - by apply rows_of_nonempty in Hin.
  - cbn. assert (row ∈ rows_of order_id rows) as Hr by (rewrite E; by left).
    apply rows_of_elem in Hr as [_ Hr].
    unfold row_order_id in *. rewrite order_columns_lookup; [done| |done].
    unfold product_fields. intros H. repeat (apply elem_of_cons in H as [H|H]; [done|]).
    by apply elem_of_nil in H.
Qed.

(** X3: The ids of the returned orders are the distinct amazonOrderId values
    of the rows in first-appearance order, no id occurs twice, and the product
    columns of every input row are an item of the order that carries the row's
    id. *)
Theorem group_orders_one_per_id (rows : list Row) :
  exists orders,
    group_orders_with_items rows = Ok orders /\
    (row_order_id ∘ order_info) <$> orders = distinct_ids rows /\
    NoDup ((row_order_id ∘ order_info) <$> orders) /\
    (forall row, row ∈ rows ->
       exists order, order ∈ orders /\
                     row_order_id (order_info order) = row_order_id row /\
                     product_info row ∈ items order).
Proof.
  eexists. split; [apply group_orders_with_items_eq|].
  assert (Hids : (row_order_id ∘ order_info) <$> (expected_order rows <$> distinct_ids rows)
                 = distinct_ids rows).
  { rewrite <- list_fmap_compose. rewrite <- (list_fmap_id (distinct_ids rows)) at 2.
    apply list_fmap_ext. intros i id Hid%list_elem_of_lookup_2. cbn.
    by apply expected_order_id. }
  split; [done|]. split; [rewrite Hids; apply distinct_ids_NoDup|].
  intros row Hrow.
  assert (Hin : row_order_id row ∈ distinct_ids rows).
  { apply distinct_ids_elem. by exists row. }
  exists (expected_order rows (row_order_id row)). split; [|split].
  - apply list_elem_of_fmap. by eexists.
  - by apply expected_order_id.
  - cbn. apply list_elem_of_fmap. exists row. split; [done|].
    by apply rows_of_elem.
Qed.

(** X4: Every returned order is built from an input row whose product columns
    are its first item: the order columns are that row without the twelve
    product fields (and without a column named items, which the items list
    replaces), order columns and first item together give the row back, no
    product field stays among the order columns, and an item holds nothing but
    product fields. *)
Theorem group_orders_splits_first_row (rows : list Row) :
  exists orders,
    group_orders_with_items rows = Ok orders /\
    Forall (fun order =>
              exists row rest,
                row ∈ rows /\
                items order = product_info row :: rest /\
                order_info order = order_columns row /\
                order_info order ∪ product_info row = delete "items" row /\
                (forall key, key ∈ product_fields -> order_info order !! key = None) /\
                (forall item key, item ∈ items order -> key ∉ product_fields ->
                                  item !! key = None))
           orders.
Proof.
  eexists. split; [apply group_orders_with_items_eq|].
  apply Forall_fmap, Forall_forall. intros id Hid. cbn.
  pose proof (rows_of_nonempty _ _ Hid) as Hne.
  destruct (rows_of id rows) as [|row rest] eqn:E; [done|].
  assert (row ∈ rows_of id rows) as Hr by (rewrite E; by left).
  apply rows_of_elem in Hr as [Hr _].
  exists row, (product_info <$> rest). cbn. repeat split; try done.
  - unfold order_columns, product_info. apply map_eq. intros key.
    destruct (decide (key = "items")) as [->|Hk].
    + rewrite lookup_delete_eq. apply lookup_union_None. split.
      * apply lookup_delete_eq.
      * apply map_lookup_filter_None. right. intros v _ H. cbn in H.
        unfold product_fields in H.
        repeat (apply elem_of_cons in H as [H|H]; [done|]).
        by apply elem_of_nil in H.
    + rewrite lookup_delete_ne by done.
      rewrite <- (map_filter_union_complement (fun kv => kv.1 ∈ product_fields) row) at 3.
      rewrite (map_union_comm (filter _ row) (filter _ row))
        by (apply map_disjoint_filter_complement).
      rewrite !lookup_union. by rewrite lookup_delete_ne.
  - intros key Hkey. unfold order_columns.
    destruct (decide (key = "items")) as [->|Hk]; [apply lookup_delete_eq|].
    rewrite lookup_delete_ne by done.
    apply map_lookup_filter_None. right. intros v _ H. by apply H.
  - intros item key Hitem Hkey.
    change (item ∈ product_info <$> (row :: rest)) in Hitem.
    apply list_elem_of_fmap in Hitem as (r & -> & _).
    unfold product_info. apply map_lookup_filter_None. right. intros v _ H.
    by apply Hkey.
Qed.

Lemma rows_of_all order_id rows :
  Forall (fun row => row_order_id row = order_id) rows ->
  rows_of order_id rows = rows.
Proof.
  unfold rows_of. induction 1 as [|row rows Hrow _ IH]; [done|].
  cbn [List.filter]. rewrite bool_decide_eq_true_2 by done. by rewrite IH.
Qed.

Lemma NoDup_all_equal {A} (a : A) (l : list A) :
  NoDup l -> (forall x, x ∈ l -> x = a) -> a ∈ l -> l = [a].
Proof.
  intros Hnd Hall Hin. destruct l as [|x l]; [by apply elem_of_nil in Hin|].
  apply NoDup_cons in Hnd as [Hx _].
  rewrite (Hall x) in * by (by left). f_equal.
  destruct l as [|y l]; [done|]. exfalso. apply Hx.
  rewrite <- (Hall y) by (right; by left). by left.
Qed.

(** X5: When all rows carry the same order id, the result is a single order:
    the order columns of the first row and one item per row, in row order.
    Order columns of later rows (a differing orderStatus, say) are dropped. *)
Theorem group_orders_single_order (rows : list Row) (first : Row) (order_id : Scalar) :
  Forall (fun row => row_order_id row = order_id) (first :: rows) ->
  group_orders_with_items (first :: rows) =
  Ok [mkOrder (order_columns first) (product_info <$> first :: rows)].
Proof.
  intros H. rewrite group_orders_with_items_eq.
  assert (Hids : distinct_ids (first :: rows) = [order_id]).
  { apply NoDup_all_equal; [apply distinct_ids_NoDup| |].
    - intros x (row & Hrow & <-)%distinct_ids_elem.
      by apply (proj1 (Forall_forall _ _) H).
    - apply distinct_ids_elem. exists first. split; [by left|].
      by apply Forall_cons in H as [? _]. }
  rewrite Hids. cbn [fmap list_fmap]. unfold expected_order.
  by rewrite (rows_of_all _ _ H).
Qed.

Lemma group_orders_single_order_witness :
  group_orders_with_items
    [ dict_literal [("amazonOrderId", SStr "A1"); ("orderStatus", SStr "Unshipped");
                    ("sku", SStr "K-1")];
      dict_literal [("amazonOrderId", SStr "A1"); ("orderStatus", SStr "Pending");
                    ("sku", SStr "K-2")] ] =
  Ok [mkOrder
        (order_columns
           (dict_literal [("amazonOrderId", SStr "A1"); ("orderStatus", SStr "Unshipped");
                          ("sku", SStr "K-1")]))
        (product_info <$>
           [ dict_literal [("amazonOrderId", SStr "A1"); ("orderStatus", SStr "Unshipped");
                           ("sku", SStr "K-1")];
             dict_literal [("amazonOrderId", SStr "A1"); ("orderStatus", SStr "Pending");
                           ("sku", SStr "K-2")] ])].
Proof.
  apply (group_orders_single_order _ _ (SStr "A1")).
  constructor; [vm_compute; reflexivity|].
  constructor; [vm_compute; reflexivity|].
  constructor.
Defined.

(** ** More of the response parser, the error table and the rows of a
       procedure *)

Ltac by_computation H := etransitivity; [exact H | vm_compute; reflexivity].

Lemma find_desc_absent t e :
  Forall (fun d => tag d <> t) (descendants e) -> find_desc t e = None.
Proof.
  unfold find_desc, findall_desc. induction 1 as [|d ds Hd _ IH]; [done|].
  cbn [List.filter]. unfold has_tag at 1. by rewrite bool_decide_eq_false_2.
Qed.

Lemma parse_success_branch (w : World) xml order_id root result_node envio_node resultado_node :
  fromstring w xml = Ok root ->
  find_desc (qname ns_asm "GrabaServiciosResult") root = Some result_node ->
  find_desc "Envio" result_node = Some envio_node ->
  find_desc "Resultado" envio_node = Some resultado_node ->
  elem_get resultado_node "return" "-1" = "0" ->
  _parse_gls_response w xml order_id =
  Ok (dict_literal
        [ ("codResponseWS", VStr "0");
          ("responseWS", VStr EmptyString);
          ("messageWS", VStr "Envio insertado Ok");
          ("idOrder", VScalar order_id);
          ("uidExp", VStr (elem_get envio_node "uid" EmptyString));
          ("codBar", VStr (elem_get envio_node "codbarras" EmptyString));
          ("exp", VStr (elem_get envio_node "codexp" EmptyString));
          ("refs", VRefs (map (fun ref => mkReference (elem_get ref "tipo" EmptyString)
                                                      (default EmptyString (text ref)))
                              (findall_desc_child "Referencias" "Referencia" envio_node)));
          ("LabelBase64",
           VScalar (text_or (find_desc_child "Etiquetas" "Etiqueta" envio_node) EmptyString)) ]).
Proof.
  intros H1 H2 H3 H4 H5. unfold _parse_gls_response. rewrite H1.
  cbv beta iota delta [mbind Result_bind].
  rewrite H2, H3, H4, H5. reflexivity.
Qed.

(** X6: A readable reply whose Resultado node has return='0' is parsed into
    the success outcome: code '0', message 'Envio insertado Ok', uidExp,
    codBar and exp taken from the uid, codbarras and codexp attributes of the
    Envio node ('' when absent), refs one entry per Referencias/Referencia
    element with its tipo and text ('' when absent), and LabelBase64 the text
    of the first Etiquetas/Etiqueta element ('' when there is no such element,
    None when it has no text). *)
Theorem parse_success_outcome (w : World) (xml_response : string) (order_id : Scalar)
    (root result_node envio_node resultado_node : Element) :
  fromstring w xml_response = Ok root ->
  find_desc (qname ns_asm "GrabaServiciosResult") root = Some result_node ->
  find_desc "Envio" result_node = Some envio_node ->
  find_desc "Resultado" envio_node = Some resultado_node ->
  attrib resultado_node !! "return" = Some "0" ->
  exists o,
    _parse_gls_response w xml_response order_id = Ok o /\
    o !! "codResponseWS" = Some (VStr "0") /\
    o !! "messageWS" = Some (VStr "Envio insertado Ok") /\
    o !! "uidExp" = Some (VStr (default EmptyString (attrib envio_node !! "uid"))) /\
    o !! "codBar" = Some (VStr (default EmptyString (attrib envio_node !! "codbarras"))) /\
    o !! "exp" = Some (VStr (default EmptyString (attrib envio_node !! "codexp"))) /\
    o !! "refs" =
      Some (VRefs (map (fun ref => mkReference (default EmptyString (attrib ref !! "tipo"))
                                                (default EmptyString (text ref)))
                       (findall_desc_child "Referencias" "Referencia" envio_node))) /\
    o !! "LabelBase64" =
      Some (VScalar
              match find_desc_child "Etiquetas" "Etiqueta" envio_node with
              | None => SStr EmptyString
              | Some etiqueta =>
                match text etiqueta with Some label => SStr label | None => SNone end
              end).
Proof.
  intros H1 H2 H3 H4 H5. eexists. split.
  - eapply parse_success_branch; try done. unfold elem_get. by rewrite H5.
  - repeat split.
Qed.

Lemma parse_success_outcome_witness :
  exists o,
    _parse_gls_response world_accepted success_text (SStr "X1") = Ok o /\
    o !! "codResponseWS" = Some (VStr "0") /\
    o !! "messageWS" = Some (VStr "Envio insertado Ok") /\
    o !! "uidExp" = Some (VStr "U1") /\
    o !! "codBar" = Some (VStr "B1") /\
    o !! "exp" = Some (VStr "EXP1") /\
    o !! "refs" = Some (VRefs [mkReference "C" "R1"; mkReference "N" "R2"]) /\
    o !! "LabelBase64" = Some (VStr "JVBERi0=").
Proof.
  destruct (parse_success_outcome world_accepted success_text (SStr "X1")
              success_tree (reply_result [success_envio]) success_envio
              success_resultado)
    as (o & Ho & H1 & H2 & H3 & H4 & H5 & H6 & H7);
    [vm_compute; reflexivity ..|].
  exists o. split; [exact Ho|]. split; [exact H1|]. split; [exact H2|].
  split; [by_computation H3|]. split; [by_computation H4|].
  split; [by_computation H5|]. split; [by_computation H6|]. by_computation H7.
Defined.

(** X7: A Resultado node without a return attribute is read as result code
    '-1': the outcome is a failure whose message is the table entry of -1,
    'Tiempo de espera expirado.', and it carries no uidExp, exp or codBar. *)
Theorem parse_missing_return_attribute (w : World) (xml_response : string)
    (order_id : Scalar) (root result_node envio_node resultado_node : Element) :
  fromstring w xml_response = Ok root ->
  find_desc (qname ns_asm "GrabaServiciosResult") root = Some result_node ->
  find_desc "Envio" result_node = Some envio_node ->
  find_desc "Resultado" envio_node = Some resultado_node ->
  attrib resultado_node !! "return" = None ->
  exists o,
    _parse_gls_response w xml_response order_id = Ok o /\
    o !! "codResponseWS" = Some (VStr "-1") /\
    o !! "messageWS" = Some (VStr "Tiempo de espera expirado.") /\
    o !! "uidExp" = None /\ o !! "exp" = None /\ o !! "codBar" = None.
Proof.
  intros H1 H2 H3 H4 H5. eexists. split.
  - eapply (parse_error_branch w _ _ _ _ _ _ "-1"); [done..| |done].
    unfold elem_get. by rewrite H5.
  - repeat split.
Qed.

Lemma parse_missing_return_attribute_witness :
  exists o,
    _parse_gls_response world_more no_code_text (SStr "X1") = Ok o /\
    o !! "codResponseWS" = Some (VStr "-1") /\
    o !! "messageWS" = Some (VStr "Tiempo de espera expirado.") /\
    o !! "uidExp" = None /\ o !! "exp" = None /\ o !! "codBar" = None.
Proof.
  refine (parse_missing_return_attribute world_more no_code_text (SStr "X1")
            no_code_tree (reply_result [no_code_envio]) no_code_envio
            no_code_resultado _ _ _ _ _);
    vm_compute; reflexivity.
Defined.

(** X8: The result envelope GrabaServiciosResult is searched among the
    descendants of the root only: a reply none of whose descendants is the
    envelope, even one whose root element is the envelope itself, gives the
    synthetic failure '-1' with description 'Respuesta XML inválida'. *)
Theorem parse_envelope_below_root (w : World) (xml_response : string)
    (order_id : Scalar) (root : Element) :
  fromstring w xml_response = Ok root ->
  Forall (fun d => tag d <> qname ns_asm "GrabaServiciosResult") (descendants root) ->
  exists o,
    _parse_gls_response w xml_response order_id = Ok o /\
    o !! "codResponseWS" = Some (VStr "-1") /\
    o !! "responseWS" = Some (VStr "Respuesta XML inválida") /\
    o !! "messageWS" = Some (VStr "Error en solicitud GLS").
Proof.
  intros H1 H2. eexists. split.
  - eapply parse_no_envelope; [done|]. by apply find_desc_absent.
  - repeat split.
Qed.

Lemma parse_envelope_below_root_witness :
  tag bare_result_tree = qname ns_asm "GrabaServiciosResult" /\
  exists o,
    _parse_gls_response world_more bare_result_text (SStr "X1") = Ok o /\
    o !! "codResponseWS" = Some (VStr "-1") /\
    o !! "responseWS" = Some (VStr "Respuesta XML inválida") /\
    o !! "messageWS" = Some (VStr "Error en solicitud GLS").
Proof.
  split; [reflexivity|].
  refine (parse_envelope_below_root world_more bare_result_text (SStr "X1")
            bare_result_tree _ _).
  - vm_compute. reflexivity.
  - apply (bool_decide_unpack _). vm_compute. exact I.
Defined.

(** X9: The shipment node is looked up by the unqualified tag Envio: when no
    descendant of the result envelope has exactly that tag (a namespaced Envio
    element included) the outcome is the synthetic failure '-1' with
    description 'Nodo Envio no encontrado'. *)
Theorem parse_shipment_node_unqualified (w : World) (xml_response : string)
    (order_id : Scalar) (root result_node : Element) :
  fromstring w xml_response = Ok root ->
  find_desc (qname ns_asm "GrabaServiciosResult") root = Some result_node ->
  Forall (fun d => tag d <> "Envio") (descendants result_node) ->
  exists o,
    _parse_gls_response w xml_response order_id = Ok o /\
    o !! "codResponseWS" = Some (VStr "-1") /\
    o !! "responseWS" = Some (VStr "Nodo Envio no encontrado") /\
    o !! "messageWS" = Some (VStr "Error en solicitud GLS").
Proof.
  intros H1 H2 H3. eexists. split.
  - eapply parse_no_envio; [done..|]. by apply find_desc_absent.
  - repeat split.
Qed.

Lemma parse_shipment_node_unqualified_witness :
  exists o,
    _parse_gls_response world_more namespaced_text (SStr "X1") = Ok o /\
    o !! "codResponseWS" = Some (VStr "-1") /\
    o !! "responseWS" = Some (VStr "Nodo Envio no encontrado") /\
    o !! "messageWS" = Some (VStr "Error en solicitud GLS").
Proof.
  refine (parse_shipment_node_unqualified world_more namespaced_text (SStr "X1")
            namespaced_tree namespaced_result _ _ _).
  - vm_compute. reflexivity.
  - vm_compute. reflexivity.
  - apply (bool_decide_unpack _). vm_compute. exact I.
Defined.

(** X10: For a result code other than '0', responseWS is the text of the first
    Errores/Error element only: None when that first element has no text
    (later Error elements are not read), 'Error desconocido' when there is no
    such element; and for a code outside the error table messageWS is that
    same value. *)
Theorem parse_raw_error_text (w : World) (xml_response : string) (order_id : Scalar)
    (root result_node envio_node resultado_node : Element) (code : string) :
  fromstring w xml_response = Ok root ->
  find_desc (qname ns_asm "GrabaServiciosResult") root = Some result_node ->
  find_desc "Envio" result_node = Some envio_node ->
  find_desc "Resultado" envio_node = Some resultado_node ->
  elem_get resultado_node "return" "-1" = code ->
  code <> "0" ->
  let raw :=
    match findall_desc_child "Errores" "Error" envio_node with
    | [] => SStr "Error desconocido"
    | first :: _ =>
      match text first with Some s => SStr s | None => SNone end
    end in
  exists o,
    _parse_gls_response w xml_response order_id = Ok o /\
    o !! "responseWS" = Some (VScalar raw) /\
    (dict_literal errors !! code = None -> o !! "messageWS" = Some (VScalar raw)).
Proof.
  intros H1 H2 H3 H4 H5 H6 raw. eexists. split; [by eapply parse_error_branch|].
  assert (Hraw : text_or (find_desc_child "Errores" "Error" envio_node)
                         "Error desconocido" = raw).
  { unfold raw, find_desc_child.
    by destruct (findall_desc_child "Errores" "Error" envio_node). }
  split.
  - change (Some (VScalar (text_or (find_desc_child "Errores" "Error" envio_node)
                             "Error desconocido")) = Some (VScalar raw)).
    by rewrite Hraw.
  - intros Hnone.
    change (Some (VScalar (py_or (get_error_message code)
              (text_or (find_desc_child "Errores" "Error" envio_node) "Error desconocido")))
            = Some (VScalar raw)).
    by rewrite py_or_table, Hnone, Hraw.
Qed.

Lemma parse_raw_error_text_witness :
  exists o,
    _parse_gls_response world_more no_code_text (SStr "X1") = Ok o /\
    o !! "responseWS" = Some VNone.
Proof.
  destruct (parse_raw_error_text world_more no_code_text (SStr "X1")
              no_code_tree (reply_result [no_code_envio]) no_code_envio
              no_code_resultado "-1")
    as (o & Ho & Hraw & _); [vm_compute; reflexivity ..|discriminate|].
  exists o. split; [exact Ho|]. by_computation Hraw.
Defined.

Section DictLiteral.

Context {V : Type}.

Lemma fold_insert_lookup_None (kvs : list (string * V)) (acc : gmap string V) k :
  fold_left (fun m kv => <[kv.1 := kv.2]> m) kvs acc !! k = None <->
  acc !! k = None /\ k ∉ kvs.*1.
Proof.
  revert acc. induction kvs as [|[k' v'] kvs IH]; intros acc; cbn [fold_left].
  - split; [intros H; split; [done|apply not_elem_of_nil]|by intros [? _]].
  - rewrite IH. cbn [fmap list_fmap fst snd]. rewrite not_elem_of_cons.
    destruct (decide (k = k')) as [->|Hne].
    + rewrite lookup_insert_eq. split; [by intros [? _]|]. by intros [_ [? _]].
    + rewrite lookup_insert_ne by done. tauto.
Qed.

Lemma dict_literal_lookup_None (kvs : list (string * V)) k :
  dict_literal kvs !! k = None <-> k ∉ kvs.*1.
Proof.
  unfold dict_literal. rewrite fold_insert_lookup_None, lookup_empty. tauto.
Qed.

Lemma NoDup_fst_functional (kvs : list (string * V)) k v v' :
  NoDup (kvs.*1) -> (k, v) ∈ kvs -> (k, v') ∈ kvs -> v = v'.
Proof.
  induction kvs as [|[k0 v0] kvs IH]; intros Hnd H1 H2.
  - by apply elem_of_nil in H1.
  - cbn in Hnd. apply NoDup_cons in Hnd as [Hk Hnd].
    apply elem_of_cons in H1 as [H1|H1], H2 as [H2|H2].
    + congruence.
    + injection H1 as -> ->. exfalso. apply Hk.
      apply list_elem_of_fmap. by exists (k0, v').
    + injection H2 as -> ->. exfalso. apply Hk.
      apply list_elem_of_fmap. by exists (k0, v).
    + by apply IH.
Qed.

Lemma dict_literal_lookup_NoDup (kvs : list (string * V)) k v :
  NoDup (kvs.*1) -> (k, v) ∈ kvs -> dict_literal kvs !! k = Some v.
Proof.
  intros Hnd Hin.
  destruct (dict_literal kvs !! k) as [v'|] eqn:E.
  - apply dict_literal_lookup_In, list_elem_of_In in E.
    f_equal. by eapply NoDup_fst_functional.
  - apply dict_literal_lookup_None in E. exfalso. apply E.
    apply list_elem_of_fmap. by exists (k, v).
Qed.

Lemma dict_literal_snoc (kvs : list (string * V)) k v :
  dict_literal (kvs ++ [(k, v)]) = <[k := v]> (dict_literal kvs).
Proof. unfold dict_literal. by rewrite fold_left_app. Qed.

End DictLiteral.

(** X11: get_error_message returns the empty string exactly for the codes that
    are not keys of the error table, and for every (code, message) entry
    written in the table it returns that message: no entry is shadowed by
    another with the same code. *)
Theorem get_error_message_known (code : string) :
  (get_error_message code = EmptyString <-> code ∉ errors.*1) /\
  (forall message, (code, message) ∈ errors -> get_error_message code = message).
Proof.
  unfold get_error_message. split.
  - rewrite <- dict_literal_lookup_None.
    destruct (dict_literal errors !! code) as [m|] eqn:E; cbn; [|done].
    apply errors_entry_nonempty in E. split; [done|discriminate].
  - intros message Hin. rewrite (dict_literal_lookup_NoDup errors code message); [done| |done].
    apply (bool_decide_unpack _). vm_compute. exact I.
Qed.

(** X12: The dictionary execute_stored_procedure makes of a result row
    (dict(zip(columns, row))) has no key outside the column names; when the
    column names are distinct, the value under the i-th column is the i-th
    value of the row (absent when the row is shorter); and when a column name
    is repeated, the last value wins. *)
Theorem row_dict_lookup (columns : list string) (row : list Scalar) :
  (forall column, column ∉ columns -> row_dict columns row !! column = None) /\
  (NoDup columns ->
   forall i column,
     columns !! i = Some column ->
     row_dict columns row !! column = row !! i) /\
  (forall column value earlier,
     length earlier = length columns ->
     row_dict (columns ++ [column]) (earlier ++ [value]) !! column = Some value).
Proof.
  unfold row_dict. split; [|split].
  - intros column Hc. apply dict_literal_lookup_None.
    intros (kv & -> & Hin)%list_elem_of_fmap. apply Hc.
    destruct kv as [k v]. by apply elem_of_zip_l in Hin.
  - intros Hnd i column Hi.
    destruct (row !! i) as [value|] eqn:Hr.
    + apply dict_literal_lookup_NoDup.
      * clear Hi Hr. revert row.
        induction Hnd as [|c cs Hc Hnd IH]; intros row; [constructor|].
        destruct row as [|x row]; [constructor|]. cbn. constructor; [|apply IH].
        intros (kv & Heq & Hin)%list_elem_of_fmap. apply Hc.
        destruct kv as [k v]. cbn in Heq. subst. by apply elem_of_zip_l in Hin.
      * apply list_elem_of_lookup. exists i. apply lookup_zip_Some. done.
    + apply dict_literal_lookup_None.
      intros (kv & Heq & Hin)%list_elem_of_fmap. destruct kv as [k v]. cbn in Heq. subst k.
      apply list_elem_of_lookup in Hin as [j Hj].
      apply lookup_zip_Some in Hj as [Hj1 Hj2].
      assert (i = j) by (by eapply NoDup_lookup). subst. congruence.
  - intros column value earlier Hlen.
    rewrite zip_with_app by done. cbn. rewrite dict_literal_snoc.
    apply lookup_insert_eq.
Qed.

(** ** More of the carrier client *)

Section ClientMore.

Variable w : World.

Lemma format_missing template (data : Row) name :
  In name (fields template) -> data !! name = None ->
  exists missing,
    In missing (fields template) /\ data !! missing = None /\
    format template data = Raise (Exception ("'" +:+ missing +:+ "'")).
Proof.
  induction template as [|[s|field] rest IH]; intros Hin Hnone; [done| |].
  - destruct (IH Hin Hnone) as (m & Hm & Hd & Hf).
    exists m. split; [done|]. split; [done|]. cbn [format]. by rewrite Hf.
  - cbn [format]. destruct (data !! field) as [v|] eqn:E.
    + destruct Hin as [->|Hin]; [congruence|].
      destruct (IH Hin Hnone) as (m & Hm & Hd & Hf).
      exists m. split; [by right|]. split; [done|]. by rewrite Hf.
    + exists field. split; [by left|]. done.
Qed.

Lemma merge_data_missing envio fecha name :
  In name envio_fields -> envio !! name = None ->
  merge_data w envio fecha !! name = None.
Proof.
  intros Hin Hnone. unfold merge_data. cbn [In envio_fields] in Hin.
  repeat (destruct Hin as [<-|Hin];
          [rewrite lookup_insert_ne by done;
           apply lookup_union_None; split; [done|reflexivity]|]).
  destruct Hin.
Qed.

Lemma envio_fields_in_template name :
  In name envio_fields -> In name (fields xml_template).
Proof.
  rewrite xml_template_fields. cbn. intros H.
  repeat (destruct H as [<-|H]; [tauto|]). destruct H.
Qed.

Lemma generate_soap_xml_render envio log :
  complete envio ->
  generate_soap_xml w envio log =
  (Ok (render (fun name =>
                 str_scalar (default SNone
                   (merge_data w envio (strftime_dmY (now w log)) !! name)))
              xml_template), log).
Proof.
  intros Hc. rewrite generate_soap_xml_eq. f_equal.
  apply format_render. intros name Hin.
  destruct (merge_data_lookup w envio (strftime_dmY (now w log)) name Hc Hin)
    as (v & Hv & _).
  exists v. by rewrite Hv.
Qed.

End ClientMore.

(** X13: When the shipment row lacks one of the columns the request template
    takes from it, request_shipment_ws sends nothing to the carrier (the trace
    is unchanged) and returns the failure outcome '-1' whose responseWS is the
    KeyError text of a template field the merged data does not hold. *)
Theorem incomplete_row_never_sent (w : World) (envio : Row) (log : list Event)
    (name : string) :
  In name envio_fields -> envio !! name = None ->
  exists missing o,
    request_shipment_ws w envio log = (Ok o, log) /\
    In missing (fields xml_template) /\
    merge_data w envio (strftime_dmY (now w log)) !! missing = None /\
    o !! "codResponseWS" = Some (VStr "-1") /\
    o !! "responseWS" = Some (VStr ("'" +:+ missing +:+ "'")) /\
    o !! "messageWS" = Some (VStr "Error en solicitud GLS").
Proof.
  intros Hin Hnone.
  destruct (format_missing xml_template
              (merge_data w envio (strftime_dmY (now w log))) name)
    as (missing & Hm & Hd & Hf).
  { by apply envio_fields_in_template. }
  { by apply merge_data_missing. }
  exists missing. eexists. split.
  - apply request_shipment_ws_build_failure.
    rewrite generate_soap_xml_eq. by rewrite Hf.
  - split; [exact Hm|]. split; [exact Hd|]. repeat split.
Qed.

Lemma incomplete_row_never_sent_witness :
  exists o,
    request_shipment_ws world_accepted incomplete_envio [] = (Ok o, []) /\
    o !! "codResponseWS" = Some (VStr "-1") /\
    o !! "messageWS" = Some (VStr "Error en solicitud GLS").
Proof.
  destruct (incomplete_row_never_sent world_accepted incomplete_envio [] "refC")
    as (missing & o & Ho & _ & _ & Hc & _ & Hm).
  - cbn. tauto.
  - vm_compute. reflexivity.
  - exists o. split; [exact Ho|]. split; [exact Hc|exact Hm].
Defined.

(** X14: For a shipment row holding every column of the template,
    request_shipment_ws sends exactly one request, the generated document
    posted to the configured GLS_SAVE_SHIP_URL, and always returns an outcome
    carrying the idOrder of the row ('' when the row has none): the parsed
    reply when the post answers, the failure outcome built from the exception
    text when the post raises. *)
Theorem complete_row_sent_once (w : World) (envio : Row) (log : list Event) :
  complete envio ->
  exists xml o,
    generate_soap_xml w envio log = (Ok xml, log) /\
    request_shipment_ws w envio log =
      (Ok o, log ++ [EvPost (getenv w "GLS_SAVE_SHIP_URL") xml]) /\
    o !! "idOrder" = Some (VScalar (default (SStr EmptyString) (envio !! "idOrder"))) /\
    (forall e, http_post w log (getenv w "GLS_SAVE_SHIP_URL") xml = Raise e ->
               o = _build_error_response (str_exc e) (envio_order_id envio)) /\
    (forall response,
        http_post w log (getenv w "GLS_SAVE_SHIP_URL") xml = Ok response ->
        _parse_gls_response w (resp_text response) (envio_order_id envio) = Ok o).
Proof.
  intros Hc. pose proof (generate_soap_xml_render w envio log Hc) as Hgen.
  eexists. 
  destruct (request_shipment_ws_total w envio log) as (o & log' & Ho & Hid & _).
  exists o. split; [exact Hgen|].
  revert Ho. unfold request_shipment_ws, try_exceptM, mbind, M_bind.
  rewrite Hgen. unfold post.
  destruct (http_post _ _ _ _) as [response|e] eqn:Hpost.
  - unfold lift.
    destruct (parse_total w (resp_text response) (envio_order_id envio))
      as (o' & Hp & _).
    rewrite Hp. intros [= <- <-]. split; [done|]. split; [done|].
    split; [done|]. by intros r [= <-].
  - intros [= <- <-]. split; [done|]. split; [done|].
    split; [by intros e' [= <-]|]. done.
Qed.

Lemma complete_row_sent_once_witness :
  exists xml o,
    generate_soap_xml world_accepted sample_envio [] = (Ok xml, []) /\
    request_shipment_ws world_accepted sample_envio [] =
      (Ok o, [] ++ [EvPost (getenv world_accepted "GLS_SAVE_SHIP_URL") xml]).
Proof.
  destruct (complete_row_sent_once world_accepted sample_envio [] sample_envio_complete)
    as (xml & o & Hgen & Hreq & _).
  exists xml, o. split; [exact Hgen|exact Hreq].
Defined.

Section RenderedFields.

Variable w : World.

(** X15: Values are formatted with str(): a NULL observaciones column is sent
    to the carrier as <Observaciones>None</Observaciones>, and an unset
    GLS_UID setting (the row having no uid_cliente column) as the uidcliente
    attribute value None. *)
Theorem null_column_rendered_as_None (envio : Row) (log : list Event) :
  complete envio ->
  exists xml,
    generate_soap_xml w envio log = (Ok xml, log) /\
    (envio !! "observaciones" = Some SNone ->
     occurs_in "<Observaciones>None</Observaciones>" xml) /\
    (getenv w "GLS_UID" = None -> envio !! "uid_cliente" = None ->
     occurs_in ("<Servicios uidcliente=" +:+ dq +:+ "None" +:+ dq) xml).
Proof.
  intros Hc. eexists. split; [by apply generate_soap_xml_render|].
  set (f := fun name => _). split.
  - intros Hnull.
    assert (Hf : f "observaciones" = "None").
    { unfold f, merge_data. rewrite lookup_insert_ne by done.
      by rewrite (lookup_union_Some_l _ _ _ _ Hnull). }
    pose (a := substring 0 (String.length (lit_at 44) - 15) (lit_at 44)).
    pose (b := substring 16 (String.length (lit_at 46) - 16) (lit_at 46)).
    change xml_template
      with (take 44 xml_template ++
            Lit (a +:+ "<Observaciones>") :: Field "observaciones" ::
            Lit ("</Observaciones>" +:+ b) :: drop 47 xml_template).
    change "<Observaciones>None</Observaciones>"
      with ("<Observaciones>" +:+ "None" +:+ "</Observaciones>").
    rewrite <- Hf. apply occurs_in_field.
  - intros Henv Hnone.
    assert (Hf : f "uid_cliente" = "None").
    { unfold f, merge_data. rewrite lookup_insert_ne by done.
      rewrite lookup_union_r by done. unfold config.
      change (dict_literal _ !! "uid_cliente")
        with (Some (env_scalar (getenv w "GLS_UID"))).
      by rewrite Henv. }
    pose (a := substring 0 (String.length (lit_at 0) - 23) (lit_at 0)).
    pose (b := substring 1 (String.length (lit_at 2) - 1) (lit_at 2)).
    change xml_template
      with ([] ++
            Lit (a +:+ ("<Servicios uidcliente=" +:+ dq)) :: Field "uid_cliente" ::
            Lit (dq +:+ b) :: drop 3 xml_template).
    destruct (occurs_in_field f [] a ("<Servicios uidcliente=" +:+ dq) "uid_cliente"
                dq b (drop 3 xml_template)) as (pre & post & Heq).
    exists pre, post. rewrite Heq, Hf. by rewrite !append_assoc.
Qed.

(** X16: The shipment row is merged over the configuration: a column of the
    row named like a setting (portes) replaces the configured value in the
    generated request. *)
Theorem row_overrides_settings (envio : Row) (log : list Event) (portes : Scalar) :
  complete envio ->
  envio !! "portes" = Some portes ->
  exists xml,
    generate_soap_xml w envio log = (Ok xml, log) /\
    occurs_in ("<Portes>" +:+ str_scalar portes +:+ "</Portes>") xml.
Proof.
  intros Hc Hp. eexists. split; [by apply generate_soap_xml_render|].
  set (f := fun name => _).
  assert (Hf : f "portes" = str_scalar portes).
  { unfold f, merge_data. rewrite lookup_insert_ne by done.
    by rewrite (lookup_union_Some_l _ _ _ _ Hp). }
  pose (a := substring 0 (String.length (lit_at 12) - 8) (lit_at 12)).
  pose (b := substring 9 (String.length (lit_at 14) - 9) (lit_at 14)).
  change xml_template
    with (take 12 xml_template ++
          Lit (a +:+ "<Portes>") :: Field "portes" ::
          Lit ("</Portes>" +:+ b) :: drop 15 xml_template).
  rewrite <- Hf. apply occurs_in_field.
Qed.

End RenderedFields.

Lemma null_column_rendered_as_None_witness :
  exists xml,
    generate_soap_xml world_unconfigured null_envio [] = (Ok xml, []) /\
    occurs_in "<Observaciones>None</Observaciones>" xml /\
    occurs_in ("<Servicios uidcliente=" +:+ dq +:+ "None" +:+ dq) xml.
Proof.
  assert (Hc : complete null_envio).
  { apply (bool_decide_unpack _). vm_compute. exact I. }
  destruct (null_column_rendered_as_None world_unconfigured null_envio [] Hc)
    as (xml & Hgen & H1 & H2).
  exists xml. split; [exact Hgen|]. split.
  - apply H1. vm_compute. reflexivity.
  - apply H2; vm_compute; reflexivity.
Defined.

Lemma row_overrides_settings_witness :
  exists xml,
    generate_soap_xml world_accepted override_envio [] = (Ok xml, []) /\
    occurs_in ("<Portes>" +:+ str_scalar (SStr "D") +:+ "</Portes>") xml.
Proof.
  assert (Hc : complete override_envio).
  { apply (bool_decide_unpack _). vm_compute. exact I. }
  refine (row_overrides_settings world_accepted override_envio [] (SStr "D") Hc _).
  vm_compute. reflexivity.
Defined.

(** ** The shipment queue: creation *)

Section QueueFacts.

Variable w : World.

Lemma try_rollback_500 {A} (body : M A) operation log :
  try_exceptM body (fun e => _ ← rollback; handle_database_error e operation) log =
  match body log with
  | (Ok r, log') => (Ok r, log')
  | (Raise _, log') => (Raise internal_error, log' ++ [EvRollback])
  end.
Proof. unfold try_exceptM. by destruct (body log) as [[r|e] log']. Qed.

Lemma try_500 {A} (body : M A) operation log :
  try_exceptM body (fun e => handle_database_error e operation) log =
  match body log with
  | (Ok r, log') => (Ok r, log')
  | (Raise _, log') => (Raise internal_error, log')
  end.
Proof. unfold try_exceptM. by destruct (body log) as [[r|e] log']. Qed.

End QueueFacts.

Lemma create_precondition_refused (w : World) (data : ShipmentData) (log : list Event) :
  let order_id := sd_idOrder data in
  let refused :=
    {| rows_status := "ok"; rows_kind := insertedRows; rows_affected := 0;
       rows_message := "No se insertó el registro" |} in
  ((check_order_exists w order_id log).1 = Ok false ->
   create_order_ready_to_ship w data log = (Ok refused, log ++ [q_exists order_id])) /\
  ((check_order_exists w order_id log).1 = Ok true ->
   (check_order_not_shipped w order_id (log ++ [q_exists order_id])).1 = Ok false ->
   create_order_ready_to_ship w data log =
     (Ok refused, (log ++ [q_exists order_id]) ++ [q_not_shipped order_id])).
Proof.
  intros order_id refused. subst order_id. unfold create_order_ready_to_ship.
  rewrite try_rollback_500. split.
  - intros H. unfold mbind at 1, M_bind at 1.
    rewrite check_order_exists_run in *. cbn [fst] in H. injection H as ->. done.
  - intros H1 H2. unfold mbind at 1, M_bind at 1.
    rewrite check_order_exists_run in *. cbn [fst] in H1. injection H1 as ->.
    cbn [negb]. unfold mbind at 1, M_bind at 1.
    rewrite check_order_not_shipped_run in *. cbn [fst] in H2. injection H2 as ->.
    done.
Qed.

(** X19: create_order_ready_to_ship answers an unknown order, and an order
    already shipped, with status ok, insertedRows 0 and the message 'No se
    insertó el registro': the reason texts 'El pedido no existe' and 'El
    pedido ya fue enviado' never reach the client. Only the check statements
    are issued (one for an unknown order, two for a shipped one) and nothing
    is written. *)
Theorem create_precondition_failure (w : World) (data : ShipmentData)
    (log : list Event) :
  let order_id := sd_idOrder data in
  let refused :=
    {| rows_status := "ok"; rows_kind := insertedRows; rows_affected := 0;
       rows_message := "No se insertó el registro" |} in
  ((check_order_exists w order_id log).1 = Ok false ->
   create_order_ready_to_ship w data log = (Ok refused, log ++ [q_exists order_id])) /\
  ((check_order_exists w order_id log).1 = Ok true ->
   (check_order_not_shipped w order_id (log ++ [q_exists order_id])).1 = Ok false ->
   create_order_ready_to_ship w data log =
     (Ok refused, (log ++ [q_exists order_id]) ++ [q_not_shipped order_id])).
Proof. apply create_precondition_refused. Qed.

Lemma create_precondition_failure_witness :
  create_order_ready_to_ship world_unknown_order sample_shipment [] =
  (Ok {| rows_status := "ok"; rows_kind := insertedRows; rows_affected := 0;
         rows_message := "No se insertó el registro" |},
   [] ++ [q_exists (sd_idOrder sample_shipment)]).
Proof.
  apply (create_precondition_failure world_unknown_order sample_shipment []).
  vm_compute. reflexivity.
Defined.

Lemma create_order_run (w : World) (data : ShipmentData) (log : list Event) :
  (check_order_exists w (sd_idOrder data) log).1 = Ok true ->
  (check_order_not_shipped w (sd_idOrder data)
     (log ++ [q_exists (sd_idOrder data)])).1 = Ok true ->
  create_order_ready_to_ship w data log =
  match
    (_ ← execute w (flag_call (sd_shipmentType data))
           (dict_literal [ ("value", opt_int (sd_value data));
                           ("idOrder", VStr (sd_idOrder data)) ]);
     _ ← commit w;
     result ← execute w insert_query (insert_params data);
     _ ← commit w;
     mret (created_response (rowcount result) "Registro insertado"))
      ((log ++ [q_exists (sd_idOrder data)]) ++ [q_not_shipped (sd_idOrder data)])
  with
  | (Ok r, log') => (Ok r, log')
  | (Raise _, log') => (Raise internal_error, log' ++ [EvRollback])
  end.
Proof.
  intros H1 H2. unfold create_order_ready_to_ship. rewrite try_rollback_500.
  unfold mbind at 1, M_bind at 1.
  rewrite check_order_exists_run in *. cbn [fst] in H1. injection H1 as ->.
  cbn [negb]. unfold mbind at 1, M_bind at 1.
  rewrite check_order_not_shipped_run in *. cbn [fst] in H2. injection H2 as ->.
  reflexivity.
Qed.

(** X20: For a known, unshipped order create_order_ready_to_ship calls the
    flag procedure, commits, inserts the shipment row and commits, in that
    order. When it returns, the trace is exactly those four events after the
    two checks, insertedRows is the row count of the insertion and the message
    is 'Registro insertado' exactly when that count is positive. It returns
    whenever the session does not fail. *)
Theorem create_queues_order (w : World) (data : ShipmentData) (log : list Event) :
  let order_id := sd_idOrder data in
  let log2 := (log ++ [q_exists order_id]) ++ [q_not_shipped order_id] in
  let run := create_order_ready_to_ship w data log in
  (check_order_exists w order_id log).1 = Ok true ->
  (check_order_not_shipped w order_id (log ++ [q_exists order_id])).1 = Ok true ->
  (forall r, run.1 = Ok r ->
     run.2 = log2 ++ create_updates data /\
     rows_kind r = insertedRows /\
     (rows_message r = "Registro insertado" <-> (0 < rows_affected r)%Z) /\
     (rows_message r = "No se insertó el registro" <-> (rows_affected r <= 0)%Z) /\
     exists result,
       db_execute w (log2 ++ take 2 (create_updates data)) insert_query
                  (insert_params data) = Ok result /\
       rows_affected r = rowcount result) /\
  (db_healthy w -> exists r, run = (Ok r, log2 ++ create_updates data)).
Proof.
  intros order_id log2 run H1 H2. subst order_id run.
  rewrite (create_order_run w data log H1 H2). fold log2. clear H1 H2.
  unfold create_updates. mrun. split.
  - intros r.
    destruct (db_execute w log2 _ _) as [f|e1]; cbv beta iota; [|discriminate].
    destruct (db_commit w _) as [[]|e2]; cbv beta iota; [|discriminate].
    destruct (db_execute w _ insert_query _) as [result|e3] eqn:Hins;
      cbv beta iota; [|discriminate].
    destruct (db_commit w _) as [[]|e4]; cbv beta iota; [|discriminate].
    cbn [fst snd]. intros [= <-]. cbn [take].
    rewrite <- !app_assoc in *. cbn [app] in *.
    split; [done|]. split; [done|].
    cbn [rows_message rows_affected created_response].
    split; [|split; [|by exists result]].
    all: destruct (Z.ltb_spec 0 (rowcount result)); split; try done; lia.
  - intros [Hex Hco].
    repeat (first [ rewrite Hco
                  | match goal with
                    | |- context [db_execute w ?l ?s ?p] =>
                      destruct (Hex l s p) as [? ->]
                    end ]; cbv beta iota).
    eexists. by rewrite <- !app_assoc.
Qed.

Lemma create_queues_order_witness :
  exists r,
    create_order_ready_to_ship world_queue sample_shipment [] =
      (Ok r, ([] ++ [q_exists "X1"]) ++ [q_not_shipped "X1"] ++
             create_updates sample_shipment) /\
    rows_kind r = insertedRows.
Proof.
  unshelve refine (let H := create_queues_order world_queue sample_shipment [] _ _ in _);
    [vm_compute; reflexivity | vm_compute; reflexivity |].
  destruct H as (Hok & Hhealthy).
  destruct (Hhealthy (sample_world_healthy db_queue (fixed_reply success_text)))
    as [r Hr].
  exists r. split; [by rewrite <- app_assoc in Hr|].
  refine (proj1 (proj2 (Hok r _))). by rewrite Hr.
Defined.

(** X21: Whenever create_order_ready_to_ship raises, it raises HTTP 500 'Error
    interno' and the trace is a non-empty prefix of the four updates followed
    by one rollback. In particular, when the insertion fails after the flag
    procedure was committed, the rollback comes after that commit: the order
    stays flagged although no shipment row was inserted. *)
Theorem create_failure_rolls_back (w : World) (data : ShipmentData) (log : list Event) :
  let order_id := sd_idOrder data in
  let log2 := (log ++ [q_exists order_id]) ++ [q_not_shipped order_id] in
  let run := create_order_ready_to_ship w data log in
  (forall e, run.1 = Raise e ->
     e = internal_error /\
     exists n, 1 <= n <= 4 /\
               run.2 = (log2 ++ take n (create_updates data)) ++ [EvRollback]) /\
  (forall e flagged,
     (check_order_exists w order_id log).1 = Ok true ->
     (check_order_not_shipped w order_id (log ++ [q_exists order_id])).1 = Ok true ->
     db_execute w log2 (flag_call (sd_shipmentType data))
       (dict_literal [ ("value", opt_int (sd_value data));
                       ("idOrder", VStr order_id) ]) = Ok flagged ->
     db_commit w (log2 ++ take 1 (create_updates data)) = Ok tt ->
     db_execute w (log2 ++ take 2 (create_updates data)) insert_query
                (insert_params data) = Raise e ->
     run = (Raise internal_error,
            (log2 ++ take 3 (create_updates data)) ++ [EvRollback])).
Proof.
  intros order_id log2 run. subst order_id run. split.
  - intros e.
    destruct (check_order_exists w (sd_idOrder data) log) as [r1 l1] eqn:E1.
    pose proof (check_order_exists_run w (sd_idOrder data) log) as R1.
    rewrite E1 in R1.
    destruct (check_order_not_shipped w (sd_idOrder data)
                (log ++ [q_exists (sd_idOrder data)])) as [r2 l2] eqn:E2.
    pose proof (check_order_not_shipped_run w (sd_idOrder data)
                  (log ++ [q_exists (sd_idOrder data)])) as R2.
    rewrite E2 in R2.
    destruct (create_precondition_refused w data log) as [Hno Hshipped].
    injection R1 as -> ->. injection R2 as -> ->.
    destruct (match db_execute w log _ _ with Ok _ => _ | Raise _ => _ end) eqn:B1.
    2:{ rewrite Hno by (by rewrite E1). discriminate. }
    destruct (match db_execute w (log ++ _) _ _ with Ok _ => _ | Raise _ => _ end)
      eqn:B2.
    2:{ rewrite Hshipped by (by rewrite ?E1, ?E2). discriminate. }
    rewrite (create_order_run w data log) by (by rewrite ?E1, ?E2).
    fold log2. unfold create_updates. mrun.
    destruct (db_execute w log2 _ _) as [f|e1]; cbv beta iota.
    2:{ cbn [fst snd]. intros [= <-]. split; [done|]. exists 1. split; [lia|done]. }
    destruct (db_commit w _) as [[]|e2]; cbv beta iota.
    2:{ cbn [fst snd]. intros [= <-]. split; [done|]. exists 2. split; [lia|].
        cbn [take]. by rewrite <- !app_assoc. }
    destruct (db_execute w _ insert_query _) as [result|e3]; cbv beta iota.
    2:{ cbn [fst snd]. intros [= <-]. split; [done|]. exists 3. split; [lia|].
        cbn [take]. by rewrite <- !app_assoc. }
    destruct (db_commit w _) as [[]|e4]; cbv beta iota; [discriminate|].
    cbn [fst snd]. intros [= <-]. split; [done|]. exists 4. split; [lia|].
    cbn [take]. by rewrite <- !app_assoc.
  - intros e flagged H1 H2 Hf Hc Hi.
    rewrite (create_order_run w data log H1 H2). fold log2 in Hf, Hc, Hi |- *.
    unfold create_updates in *. mrun.
    cbn [take] in *. rewrite Hf. cbv beta iota.
    rewrite Hc. cbv beta iota.
    rewrite <- !app_assoc in *. cbn [app] in *. rewrite Hi.
    by rewrite <- !app_assoc.
Qed.

Lemma create_failure_rolls_back_witness :
  create_order_ready_to_ship world_insert_fails sample_shipment [] =
  (Raise internal_error,
   ((([] ++ [q_exists "X1"]) ++ [q_not_shipped "X1"]) ++
    take 3 (create_updates sample_shipment)) ++ [EvRollback]).
Proof.
  refine (proj2 (create_failure_rolls_back world_insert_fails sample_shipment [])
            (Exception "(pymysql.err.IntegrityError) (1062, 'duplicate entry')")
            (mkResultSet [] [] 0) _ _ _ _ _); vm_compute; reflexivity.
Defined.

(** ** The shipment queue: flags, updates and deletion *)

Section RouteFacts.

Variable w : World.

Lemma execute_update_run query params log :
  execute_update w query params log =
  match db_execute w log query params with
  | Ok result =>
    match db_commit w (log ++ [EvExecute query params]) with
    | Ok _ => (Ok (rowcount result), log ++ [EvExecute query params; EvCommit])
    | Raise e => (Raise e, log ++ [EvExecute query params; EvCommit; EvRollback])
    end
  | Raise e => (Raise e, log ++ [EvExecute query params; EvRollback])
  end.
Proof.
  unfold execute_update. mrun. unfold rollback. case_results;
    rewrite <- ?app_assoc; try done.
Qed.

Lemma flag_route_run column value order_id operation log :
  try_exceptM
    (rows_affected ← update_order_flag w "ordersdetail" column
                       (VScalar (SInt value)) order_id;
     mret (updated_response rows_affected "Registro actualizado"))
    (fun e => handle_database_error e operation) log =
  match db_execute w log (update_flag_query "ordersdetail" column)
          (dict_literal [("value", VScalar (SInt value)); ("idOrder", VStr order_id)]) with
  | Ok result =>
    match db_commit w (log ++ [q_flag column value order_id]) with
    | Ok _ => (Ok (updated_response (rowcount result) "Registro actualizado"),
               log ++ [q_flag column value order_id; EvCommit])
    | Raise e => (Raise internal_error,
                  log ++ [q_flag column value order_id; EvCommit; EvRollback])
    end
  | Raise e => (Raise internal_error, log ++ [q_flag column value order_id; EvRollback])
  end.
Proof.
  rewrite try_500. unfold mbind at 1, M_bind at 1. unfold update_order_flag.
  rewrite execute_update_run. unfold q_flag. by case_results.
Qed.

Lemma bind_check_order_exists {A} (f : bool -> M A) order_id log :
  (exists_ ← check_order_exists w order_id; f exists_) log =
  f match db_execute w log "CALL toolstock_amz.uSp_isExistOrder(:idOrder)"
            (dict_literal [("idOrder", VStr order_id)]) with
    | Ok result => nonempty (fetchall result)
    | Raise _ => false
    end (log ++ [q_exists order_id]).
Proof. unfold mbind, M_bind. by rewrite check_order_exists_run. Qed.

End RouteFacts.

(** X17: The two flag routes issue one UPDATE of ordersdetail
    (pendingWithoutStock or isShipFake) with the value and the order id as
    bound parameters. On success the trace ends with the statement and its
    commit, the response counts the rows the database reports, and its message
    is 'Registro actualizado' exactly when that count is positive, 'No se
    actualizó el registro' otherwise. On any failure the route raises HTTP 500
    'Error interno' after exactly one rollback (that of execute_update). *)
Theorem flag_routes_commit_or_roll_back (w : World) (log : list Event) :
  (forall data : UpdateStockFlag,
     let q := q_flag "pendingWithoutStock" (usf_withoutstock data) (usf_idOrder data) in
     let run := update_order_flag_stock w data log in
     (forall r, run.1 = Ok r ->
        run.2 = log ++ [q; EvCommit] /\
        rows_kind r = updatedRows /\
        (rows_message r = "Registro actualizado" <-> (0 < rows_affected r)%Z) /\
        (rows_message r = "No se actualizó el registro" <-> (rows_affected r <= 0)%Z) /\
        exists result,
          db_execute w log (update_flag_query "ordersdetail" "pendingWithoutStock")
            (dict_literal [ ("value", VScalar (SInt (usf_withoutstock data)));
                            ("idOrder", VStr (usf_idOrder data)) ]) = Ok result /\
          rows_affected r = rowcount result) /\
     (forall e, run.1 = Raise e ->
        e = internal_error /\
        (run.2 = log ++ [q; EvRollback] \/ run.2 = log ++ [q; EvCommit; EvRollback]))) /\
  (forall data : UpdateFakeFlag,
     let q := q_flag "isShipFake" (uff_isFake data) (uff_idOrder data) in
     let run := update_order_flag_fake w data log in
     (forall r, run.1 = Ok r ->
        run.2 = log ++ [q; EvCommit] /\
        rows_kind r = updatedRows /\
        (rows_message r = "Registro actualizado" <-> (0 < rows_affected r)%Z) /\
        (rows_message r = "No se actualizó el registro" <-> (rows_affected r <= 0)%Z) /\
        exists result,
          db_execute w log (update_flag_query "ordersdetail" "isShipFake")
            (dict_literal [ ("value", VScalar (SInt (uff_isFake data)));
                            ("idOrder", VStr (uff_idOrder data)) ]) = Ok result /\
          rows_affected r = rowcount result) /\
     (forall e, run.1 = Raise e ->
        e = internal_error /\
        (run.2 = log ++ [q; EvRollback] \/ run.2 = log ++ [q; EvCommit; EvRollback]))).
Proof.
  split; intros data q run; subst run q;
    unfold update_order_flag_stock, update_order_flag_fake;
    rewrite flag_route_run.
  all: split; [intros r|intros e].
  all: destruct (db_execute w log _ _) as [result|e1]; cbv beta iota;
    [destruct (db_commit w _) as [[]|e2]; cbv beta iota|]; cbn [fst snd];
    try discriminate; intros [= <-].
  all: try (split; [done|]; by auto).
  all: split; [done|]; split; [done|];
    cbn [rows_kind rows_message rows_affected updated_response].
  all: split; [|split; [|by exists result]].
  all: destruct (Z.ltb_spec 0 (rowcount result)); split; try done; lia.
Qed.

Lemma flag_routes_commit_or_roll_back_witness :
  (update_order_flag_stock world_queue sample_stock_flag []).2 =
  [] ++ [q_flag "pendingWithoutStock" 1 "X1"; EvCommit].
Proof.
  destruct (flag_routes_commit_or_roll_back world_queue []) as [Hstock _].
  destruct (Hstock sample_stock_flag) as [Hok _].
  refine (proj1 (Hok (updated_response 0 "Registro actualizado") _)).
  vm_compute. reflexivity.
Defined.

(** X18: update_order_ready_to_ship issues exactly one statement, the UPDATE
    of selectedShipment with the column name spliced into its text and the
    value and order id bound. When it returns, the trace is the statement and
    its commit and the response is updated_response of the reported row count;
    when it raises, it raises HTTP 500 'Error interno' and the trace ends with
    the rollback. *)
Theorem update_route_commits_or_rolls_back (w : World) (data : UpdateShipment)
    (log : list Event) :
  let run := update_order_ready_to_ship w data log in
  (forall r, run.1 = Ok r ->
     run.2 = log ++ [q_update data; EvCommit] /\
     exists result,
       db_execute w log (update_shipment_query (us_columnName data))
         (dict_literal [ ("columnValue", VStr (us_columnValue data));
                         ("idOrder", VStr (us_idOrder data)) ]) = Ok result /\
       r = updated_response (rowcount result) "Registro actualizado") /\
  (forall e, run.1 = Raise e ->
     e = internal_error /\
     (run.2 = log ++ [q_update data; EvRollback] \/
      run.2 = log ++ [q_update data; EvCommit; EvRollback])) /\
  statements run.2 = statements log ++ [update_shipment_query (us_columnName data)].
Proof.
  intros run. subst run. unfold update_order_ready_to_ship.
  rewrite try_rollback_500. mrun. unfold q_update.
  destruct (db_execute w log _ _) as [result|e1]; cbv beta iota;
    [destruct (db_commit w _) as [[]|e2]; cbv beta iota|]; cbn [fst snd].
  all: rewrite <- ?app_assoc; cbn [app].
  all: split; [intros r; try discriminate|split; [intros e; try discriminate|]].
  all: try (intros [= <-]).
  all: try (unfold statements; rewrite omap_app; reflexivity).
  - split; [done|]. by exists result.
  - auto.
  - auto.
Qed.

Lemma update_route_commits_or_rolls_back_witness :
  (update_order_ready_to_ship world_queue sample_update []).2 =
  [] ++ [q_update sample_update; EvCommit].
Proof.
  destruct (update_route_commits_or_rolls_back world_queue sample_update [])
    as [Hok _].
  refine (proj1 (Hok (updated_response 0 "Registro actualizado") _)).
  vm_compute. reflexivity.
Defined.

(** X22: delete_order_ready_to_ship answers an unknown order with deletedRows
    0 and 'No se pudo eliminar el registro' without issuing the DELETE. For a
    known order it deletes and commits, and resets the shipment flag (with the
    given value, 0 when absent) and commits again only when the DELETE reports
    at least one row. When it raises, it raises HTTP 500 'Error interno' after
    a prefix of these events and one rollback; if the flag call fails, the
    deletion is already committed. *)
Theorem delete_route_outcome (w : World) (data : DeleteShipment) (log : list Event) :
  let order_id := ds_idOrder data in
  let log1 := log ++ [q_exists order_id] in
  let run := delete_order_ready_to_ship w data log in
  ((check_order_exists w order_id log).1 = Ok false ->
   run = (Ok {| rows_status := "ok"; rows_kind := deletedRows; rows_affected := 0;
                rows_message := "No se pudo eliminar el registro" |}, log1)) /\
  ((check_order_exists w order_id log).1 = Ok true ->
   (forall r, run.1 = Ok r ->
      exists result,
        db_execute w log1 delete_query
          (dict_literal [("idOrder", VStr order_id)]) = Ok result /\
        r = deleted_response (rowcount result) "Registro eliminado" /\
        run.2 = log1 ++ [q_delete order_id; EvCommit] ++
                (if (0 <? rowcount result)%Z then [q_unflag data; EvCommit] else [])) /\
   (forall e, run.1 = Raise e ->
      e = internal_error /\
      exists n, 1 <= n <= 4 /\
        run.2 = (log1 ++ take n [q_delete order_id; EvCommit; q_unflag data; EvCommit])
                ++ [EvRollback]) /\
   (forall result e,
      db_execute w log1 delete_query
        (dict_literal [("idOrder", VStr order_id)]) = Ok result ->
      db_commit w (log1 ++ [q_delete order_id]) = Ok tt ->
      (0 < rowcount result)%Z ->
      db_execute w (log1 ++ [q_delete order_id; EvCommit])
        (flag_call (ds_shipmentType data))
        (dict_literal [ ("value", VScalar (SInt (int_or_0 (ds_value data))));
                        ("idOrder", VStr order_id) ]) = Raise e ->
      run = (Raise internal_error,
             log1 ++ [q_delete order_id; EvCommit; q_unflag data; EvRollback]))).
Proof.
  intros order_id log1 run. subst order_id run.
  unfold delete_order_ready_to_ship. rewrite try_rollback_500.
  rewrite bind_check_order_exists, !check_order_exists_run.
  destruct (match db_execute w log _ _ with Ok _ => _ | Raise _ => _ end);
    change ((Ok ?b, ?l).1) with (Ok (A := bool) b);
    split; intros H; try discriminate H; clear H; [|done].
  - cbn [negb]. fold log1. mrun. unfold q_delete, q_unflag.
    split; [|split].
    + intros r.
      destruct (db_execute w log1 _ _) as [result|e1]; cbv beta iota; [|discriminate].
      destruct (db_commit w _) as [[]|e2]; cbv beta iota; [|discriminate].
      destruct (0 <? rowcount result)%Z eqn:Hpos; mrun.
      * destruct (db_execute w _ _ _) as [f|e3]; cbv beta iota; [|discriminate].
        destruct (db_commit w _) as [[]|e4]; cbv beta iota; [|discriminate].
        cbn [fst snd]. intros [= <-]. exists result.
        split; [done|]. split; [done|]. rewrite Hpos. by rewrite <- !app_assoc.
      * cbn [fst snd]. intros [= <-]. exists result.
        split; [done|]. split; [done|]. rewrite Hpos. by rewrite <- ?app_assoc.
    + intros e.
      destruct (db_execute w log1 _ _) as [result|e1]; cbv beta iota.
      2:{ cbn [fst snd]. intros [= <-]. split; [done|]. exists 1. split; [lia|done]. }
      destruct (db_commit w _) as [[]|e2]; cbv beta iota.
      2:{ cbn [fst snd]. intros [= <-]. split; [done|]. exists 2. split; [lia|].
          cbn [take]. by rewrite <- !app_assoc. }
      destruct (0 <? rowcount result)%Z; mrun; [|discriminate].
      destruct (db_execute w _ _ _) as [f|e3]; cbv beta iota.
      2:{ cbn [fst snd]. intros [= <-]. split; [done|]. exists 3. split; [lia|].
          cbn [take]. by rewrite <- !app_assoc. }
      destruct (db_commit w _) as [[]|e4]; cbv beta iota; [discriminate|].
      cbn [fst snd]. intros [= <-]. split; [done|]. exists 4. split; [lia|].
      cbn [take]. by rewrite <- !app_assoc.
    + intros result e Hd Hc Hpos Hf. rewrite Hd. cbv beta iota.
      rewrite Hc. cbv beta iota.
      apply Z.ltb_lt in Hpos. rewrite Hpos. mrun.
      rewrite <- !app_assoc in *. cbn [app] in *. rewrite Hf. cbv beta iota.
      by rewrite <- !app_assoc.
Qed.

Lemma delete_route_outcome_witness :
  exists result,
    db_execute world_queue ([] ++ [q_exists "X1"]) delete_query
      (dict_literal [("idOrder", VStr "X1")]) = Ok result /\
    (delete_order_ready_to_ship world_queue sample_unqueue []).2 =
      ([] ++ [q_exists "X1"]) ++ [q_delete "X1"; EvCommit] ++
      (if (0 <? rowcount result)%Z then [q_unflag sample_unqueue; EvCommit] else []).
Proof.
  destruct (delete_route_outcome world_queue sample_unqueue []) as [_ Hknown].
  unshelve refine (let H := Hknown _ in _); [vm_compute; reflexivity|].
  destruct H as (Hok & _).
  unshelve refine (let H := Hok (deleted_response 1 "Registro eliminado") _ in _);
    [vm_compute; reflexivity|].
  destruct H as (result & Hd & _ & Ht).
  exists result. split; [exact Hd|exact Ht].
Defined.

(** ** What a registration raises *)

Section Composition.

Variable w : World.

Lemma raises_plain_bind {A B} (m : M A) (f : A -> M B) :
  raises_plain m -> (forall a, raises_plain (f a)) -> raises_plain (m ≫= f).
Proof.
  intros Hm Hf log e log'. unfold mbind, M_bind.
  destruct (m log) as [[a|e0] l] eqn:E.
  - apply Hf.
  - intros [= <- <-]. by eapply Hm.
Qed.

Lemma raises_plain_ret {A} (a : A) : raises_plain (mret a).
Proof. by intros log e log'. Qed.

Lemma raises_plain_execute sql params :
  plain_failures w -> raises_plain (execute w sql params).
Proof.
  intros [Hex _] log e log'. unfold execute.
  destruct (db_execute w log sql params) as [r|e0] eqn:E; [done|].
  intros [= <- <-] c d ->. by eapply Hex.
Qed.

Lemma raises_plain_commit : plain_failures w -> raises_plain (commit w).
Proof.
  intros [_ Hco] log e log'. unfold commit.
  destruct (db_commit w log) as [r|e0] eqn:E; [done|].
  intros [= <- <-] c d ->. by eapply Hco.
Qed.

Lemma raises_plain_getitem d key : raises_plain (getitem d key).
Proof.
  intros log e log'. unfold getitem. destruct (d !! key); [done|].
  unfold raise. by intros [= <- <-] c d'.
Qed.

Lemma raises_plain_check_not_shipped order_id :
  raises_plain (check_order_not_shipped w order_id).
Proof. intros log e log'. by rewrite check_order_not_shipped_run. Qed.

Lemma raises_plain_request envio : raises_plain (request_shipment_ws w envio).
Proof.
  intros log e log'.
  destruct (request_shipment_ws_total w envio log) as (o & l & -> & _). done.
Qed.

Lemma raises_plain_datetime_now : raises_plain (datetime_now w).
Proof. by intros log e log'. Qed.

Lemma raises_plain_stored_procedure name params :
  plain_failures w -> raises_plain (execute_stored_procedure w name params).
Proof.
  intros Hw. unfold execute_stored_procedure.
  apply raises_plain_bind; [by apply raises_plain_execute|].
  intros result. cbv zeta. destruct (nonempty _); apply raises_plain_ret.
Qed.

Lemma raises_plain_file : plain_failures w -> raises_plain (_register_shipment_file w).
Proof.
  intros Hw. unfold _register_shipment_file, get_orders_by_procedure_raw.
  repeat first
    [ apply raises_plain_ret
    | by apply raises_plain_stored_procedure
    | by apply raises_plain_execute
    | by apply raises_plain_commit
    | apply raises_plain_datetime_now
    | apply raises_plain_bind; [|intros ?]
    | match goal with |- raises_plain (if ?b then _ else _) => destruct b end ].
Qed.

Lemma raises_plain_to_dict result row : raises_plain (to_dict w result row).
Proof.
  intros log e log'. unfold to_dict.
  destruct (dict_of_row w (keys result) row) as [d|reason]; [done|].
  unfold raise, lift. by intros [= <- <-] c d.
Qed.

Lemma raises_plain_ws (a : ascii) (s : string) :
  plain_failures w -> raises_plain (_register_shipment_ws w (Some (String a s))).
Proof.
  intros Hw. unfold _register_shipment_ws. cbn [truthy].
  repeat first
    [ apply raises_plain_ret
    | by apply raises_plain_execute
    | by apply raises_plain_commit
    | apply raises_plain_getitem
    | apply raises_plain_check_not_shipped
    | apply raises_plain_request
    | apply raises_plain_to_dict
    | apply raises_plain_bind; [|intros ?]
    | match goal with |- raises_plain (if ?b then _ else _) => destruct b end
    | match goal with |- raises_plain (match ?b with Some _ => _ | None => _ end) =>
        destruct b end ].
Qed.

End Composition.

(** X23: On a session whose failures are not HTTP exceptions,
    register_shipment raises only two things: HTTP 400 'idOrder es requerido
    para shipmentType=usingWS', with the trace unchanged and no rollback,
    which happens only for a shipmentType other than usingFile without order
    id; or HTTP 500 'Error interno', with the rollback as the last event,
    which happens only for usingFile or with an order id. *)
Theorem register_shipment_raises (w : World) (data : RegisterShipment)
    (log log' : list Event) (e : Exc) :
  plain_failures w ->
  register_shipment w data log = (Raise e, log') ->
  (e = missing_order_error /\ log' = log /\
   shipmentType data <> "usingFile" /\ truthy (idOrder data) = None) \/
  (e = internal_error /\ last log' = Some EvRollback /\
   (shipmentType data = "usingFile" \/ truthy (idOrder data) <> None)).
Proof.
  intros Hw. unfold register_shipment.
  destruct (bool_decide (shipmentType data = "usingFile")) eqn:Hty.
  - apply bool_decide_eq_true in Hty.
    destruct (_register_shipment_file w log) as [[r|[c d|msg]] l] eqn:E; [done| |].
    + by destruct (raises_plain_file w Hw _ _ _ E c d).
    + unfold rollback, handle_database_error. mrun. intros [= <- <-].
      right. split; [done|]. split; [apply last_snoc|by left].
  - apply bool_decide_eq_false in Hty.
    destruct (idOrder data) as [[|a s]|] eqn:Hid.
    + cbn. intros [= <- <-]. by left.
    + destruct (_register_shipment_ws w (Some (String a s)) log)
        as [[r|[c d|msg]] l] eqn:E; [done| |].
      * by destruct (raises_plain_ws w a s Hw _ _ _ E c d).
      * unfold rollback, handle_database_error. mrun. intros [= <- <-].
        right. split; [done|]. split; [apply last_snoc|by right].
    + cbn. intros [= <- <-]. by left.
Qed.

Lemma register_shipment_raises_witness :
  (internal_error = missing_order_error /\ [q_selection; EvRollback] = [] /\
   shipmentType sample_bulk <> "usingFile" /\ truthy (idOrder sample_bulk) = None) \/
  (internal_error = internal_error /\
   last [q_selection; EvRollback] = Some EvRollback /\
   (shipmentType sample_bulk = "usingFile" \/ truthy (idOrder sample_bulk) <> None)).
Proof.
  apply (register_shipment_raises world_db_down sample_bulk []
           [q_selection; EvRollback] internal_error).
  - by split.
  - vm_compute. reflexivity.
Defined.

(** ** How many requests a registration sends *)

Section Requests.

Variable w : World.

Lemma sends_bind {A B} n k (m : M A) (f : A -> M B) :
  sends_at_most n m -> (forall a, sends_at_most k (f a)) ->
  sends_at_most (n + k) (m ≫= f).
Proof.
  intros Hm Hf log. unfold mbind, M_bind.
  destruct (Hm log) as (p1 & H1 & L1).
  destruct (m log) as [[a|e] l].
  - destruct (Hf a l) as (p2 & H2 & L2). exists (p1 ++ p2).
    rewrite H2. cbn [snd] in H1. rewrite H1, length_app, app_assoc.
    split; [done|lia].
  - exists p1. split; [done|lia].
Qed.

Lemma sends_weaken {A} n k (m : M A) :
  n <= k -> sends_at_most n m -> sends_at_most k m.
Proof.
  intros Hle Hm log. destruct (Hm log) as (p & H & L). exists p. split; [done|lia].
Qed.

Lemma sends_quiet_bind {A B} k (m : M A) (f : A -> M B) :
  sends_at_most 0 m -> (forall a, sends_at_most k (f a)) ->
  sends_at_most k (m ≫= f).
Proof. apply (sends_bind 0 k). Qed.

Lemma sends_ret {A} (a : A) : sends_at_most 0 (mret a).
Proof. intros log. exists []. by rewrite app_nil_r. Qed.

Lemma sends_raise {A} e : sends_at_most 0 (raise (A := A) e).
Proof. intros log. exists []. by rewrite app_nil_r. Qed.

Lemma sends_execute sql params : sends_at_most 0 (execute w sql params).
Proof.
  intros log. exists []. unfold execute.
  destruct (db_execute _ _ _ _); cbn [snd]; unfold carrier_requests;
    by rewrite omap_app.
Qed.

Lemma sends_commit : sends_at_most 0 (commit w).
Proof.
  intros log. exists []. unfold commit.
  destruct (db_commit _ _); cbn [snd]; unfold carrier_requests;
    by rewrite omap_app.
Qed.

Lemma sends_rollback : sends_at_most 0 rollback.
Proof.
  intros log. exists []. unfold rollback. cbn [snd]. unfold carrier_requests.
  by rewrite omap_app.
Qed.

Lemma sends_datetime_now : sends_at_most 0 (datetime_now w).
Proof. intros log. exists []. by rewrite app_nil_r. Qed.

Lemma sends_getitem d key : sends_at_most 0 (getitem d key).
Proof. unfold getitem. destruct (d !! key); [apply sends_ret|apply sends_raise]. Qed.

Lemma sends_to_dict result row : sends_at_most 0 (to_dict w result row).
Proof.
  unfold to_dict.
  destruct (dict_of_row w (keys result) row); [apply sends_ret|apply sends_raise].
Qed.

Lemma sends_check_not_shipped order_id :
  sends_at_most 0 (check_order_not_shipped w order_id).
Proof.
  intros log. exists []. rewrite check_order_not_shipped_run. cbn [snd].
  unfold carrier_requests. by rewrite omap_app.
Qed.

Lemma sends_stored_procedure name params :
  sends_at_most 0 (execute_stored_procedure w name params).
Proof.
  unfold execute_stored_procedure.
  apply sends_quiet_bind; [apply sends_execute|].
  intros result. cbv zeta. destruct (nonempty _); apply sends_ret.
Qed.

Lemma request_shipment_ws_trace envio log :
  (request_shipment_ws w envio log).2 = log \/
  exists xml, (request_shipment_ws w envio log).2 =
              log ++ [EvPost (getenv w "GLS_SAVE_SHIP_URL") xml].
Proof.
  unfold request_shipment_ws, try_exceptM, mbind, M_bind.
  rewrite generate_soap_xml_eq.
  destruct (format _ _) as [xml|e]; [|by left].
  right. exists xml. unfold post.
  destruct (http_post _ _ _ _) as [response|e]; [|done].
  unfold lift. by destruct (_parse_gls_response _ _ _).
Qed.

Lemma sends_request envio : sends_at_most 1 (request_shipment_ws w envio).
Proof.
  intros log. destruct (request_shipment_ws_trace envio log) as [->|[xml ->]].
  - exists []. rewrite app_nil_r. split; [done|cbn; lia].
  - exists [xml]. unfold carrier_requests. by rewrite omap_app.
Qed.

Ltac quiet :=
  repeat first
    [ apply sends_ret | apply sends_raise | apply sends_execute | apply sends_commit
    | apply sends_rollback | apply sends_datetime_now | apply sends_getitem
    | apply sends_check_not_shipped | apply sends_stored_procedure
    | apply sends_quiet_bind; [|intros ?]
    | match goal with |- sends_at_most _ (if ?b then _ else _) => destruct b end ].

Lemma sends_file : sends_at_most 0 (_register_shipment_file w).
Proof. unfold _register_shipment_file, get_orders_by_procedure_raw. quiet. Qed.

Lemma sends_ws order_id : sends_at_most 1 (_register_shipment_ws w order_id).
Proof.
  unfold _register_shipment_ws. destruct (truthy order_id) as [id|]; [|
    apply (sends_weaken 0); [lia|apply sends_raise]].
  apply sends_quiet_bind; [apply sends_check_not_shipped|]. intros [|]; cbn [negb].
  2:{ apply (sends_weaken 0); [lia|apply sends_ret]. }
  apply sends_quiet_bind; [apply sends_execute|]. intros result.
  destruct (fetchone result) as [row|];
    [|apply (sends_weaken 0); [lia|apply sends_ret]].
  apply sends_quiet_bind; [apply sends_to_dict|]. intros envio.
  apply (sends_bind 1 0); [apply sends_request|]. intros o. quiet.
Qed.

End Requests.

(** X24: Whatever the database and the carrier do, one call of
    register_shipment sends at most one request to the carrier, and none for
    shipmentType usingFile or without order id; requests already in the trace
    are kept. *)
Theorem at_most_one_carrier_request (w : World) (data : RegisterShipment)
    (log : list Event) :
  exists posts,
    carrier_requests (register_shipment w data log).2 = carrier_requests log ++ posts /\
    length posts <= 1 /\
    (shipmentType data = "usingFile" -> posts = []) /\
    (truthy (idOrder data) = None -> posts = []).
Proof.
  unfold register_shipment.
  destruct (bool_decide (shipmentType data = "usingFile")) eqn:Hty.
  - destruct (sends_file w log) as (posts & H & L).
    assert (posts = []) as -> by (destruct posts; [done|cbn in L; lia]).
    exists []. rewrite app_nil_r in *.
    split; [|split; [cbn; lia|done]].
    destruct (_register_shipment_file w log) as [[r|[c d|msg]] l]; try done.
    unfold rollback, handle_database_error. mrun. cbn [snd] in *.
    unfold carrier_requests in *. by rewrite omap_app, H, app_nil_r.
  - apply bool_decide_eq_false in Hty.
    destruct (sends_ws w (idOrder data) log) as (posts & H & L).
    exists posts.
    assert (carrier_requests
              (let (r, l) := _register_shipment_ws w (idOrder data) log in
               match r with
               | Ok r => (Ok r, l)
               | Raise (HTTPException c d) => (Raise (HTTPException c d), l)
               | Raise e => (_ ← rollback; handle_database_error (A := Response) e
                                              "registering shipment") l
               end).2 = carrier_requests log ++ posts) as Hrun.
    { destruct (_register_shipment_ws w (idOrder data) log) as [[r|[c d|msg]] l];
        try done.
      unfold rollback, handle_database_error. mrun. cbn [snd] in *.
      unfold carrier_requests in *. by rewrite omap_app, H, app_nil_r. }
    split; [exact Hrun|]. split; [done|]. split; [done|].
    intros Hnone. revert H. unfold _register_shipment_ws. rewrite Hnone.
    unfold raise, lift. cbn [snd]. intros H. symmetry.
    apply (app_inv_head (carrier_requests log)). by rewrite app_nil_r.
Qed.

Lemma at_most_one_carrier_request_witness :
  exists posts,
    carrier_requests (register_shipment world_accepted sample_bulk []).2 =
      carrier_requests [] ++ posts /\
    posts = [].
Proof.
  destruct (at_most_one_carrier_request world_accepted sample_bulk [])
    as (posts & H & _ & Hfile & _).
  exists posts. split; [exact H|]. apply Hfile. reflexivity.
Defined.

(** ** Listings, and registrations with nothing to register *)

Section Listings.

Variable w : World.

Lemma execute_stored_procedure_run name params log :
  let sql :=
    match params with
    | Some ((_ :: _) as ps) =>
      "CALL toolstock_amz." +:+ name +:+ "(" +:+
      String.concat ", " (map (fun kv => ":" +:+ kv.1) ps) +:+ ")"
    | _ => "CALL toolstock_amz." +:+ name +:+ "()"
    end in
  let args := dict_literal (default [] params) in
  execute_stored_procedure w name params log =
  (match db_execute w log sql args with
   | Ok rs => Ok (map (row_dict (keys rs)) (fetchall rs))
   | Raise e => Raise e
   end, log ++ [EvExecute sql args]).
Proof.
  intros sql args. unfold execute_stored_procedure. fold sql args. mrun.
  destruct (db_execute w log sql args) as [rs|e]; [|done].
  by destruct (fetchall rs).
Qed.

Lemma get_orders_by_procedure_run name params group_items log :
  get_orders_by_procedure w name params group_items log =
  let (r, log') := execute_stored_procedure w name params log in
  (match r with
   | Ok rows =>
     Ok (if group_items && nonempty rows
         then Grouped (expected_order rows <$> distinct_ids rows)
         else Plain rows)
   | Raise e => Raise e
   end, log').
Proof.
  unfold get_orders_by_procedure, mbind, M_bind.
  destruct (execute_stored_procedure w name params log) as [[rows|e] log']; [|done].
  destruct (group_items && nonempty rows); [|done].
  unfold lift. by rewrite group_orders_with_items_eq.
Qed.

End Listings.

(** X25: get_orders_pending issues one call of uSp_getOrdersDetailUnshipped
    and nothing else. Its header has content 1 and resource 'orderspending'
    also when there is no row, and count is the number of distinct order ids
    (grouped orders), not the number of rows; the payload is the grouping of
    the rows. A database failure becomes HTTP 500 'Error interno', without
    rollback. *)
Theorem pending_orders_counted (w : World) (log : list Event) :
  let run := get_orders_pending w log in
  run.2 = log ++ [q_procedure "uSp_getOrdersDetailUnshipped"] /\
  (forall rs,
     db_execute w log "CALL toolstock_amz.uSp_getOrdersDetailUnshipped()" ∅ = Ok rs ->
     let rows := map (row_dict (keys rs)) (fetchall rs) in
     exists r,
       run.1 = Ok r /\
       header_of r =
         listing_header 1 (Some "orderspending")
           (Some (Z.of_nat (length (distinct_ids rows)))) /\
       message_of r = None /\
       payload_of r =
         (if nonempty rows then Grouped (expected_order rows <$> distinct_ids rows)
          else Plain []) /\
       (fetchall rs = [] -> header_of r = listing_header 1 (Some "orderspending") (Some 0%Z))) /\
  (forall e,
     db_execute w log "CALL toolstock_amz.uSp_getOrdersDetailUnshipped()" ∅ = Raise e ->
     run.1 = Raise internal_error).
Proof.
  intros run. subst run. unfold get_orders_pending. rewrite try_500.
  unfold mbind, M_bind. rewrite get_orders_by_procedure_run.
  rewrite (execute_stored_procedure_run w "uSp_getOrdersDetailUnshipped" None log).
  change (dict_literal (default [] None)) with (∅ : Dict).
  change ("CALL toolstock_amz." +:+ "uSp_getOrdersDetailUnshipped" +:+ "()")
    with "CALL toolstock_amz.uSp_getOrdersDetailUnshipped()".
  unfold q_procedure.
  change ("CALL toolstock_amz." +:+ "uSp_getOrdersDetailUnshipped" +:+ "()")
    with "CALL toolstock_amz.uSp_getOrdersDetailUnshipped()".
  destruct (db_execute w log _ ∅) as [rs'|e']; cbv beta iota; cbn [fst snd].
  - split; [done|]. split; [|discriminate]. intros rs [= <-].
    eexists. split; [reflexivity|]. cbn [andb].
    unfold success_response_of. cbn [header_of message_of payload_of truthy].
    unfold listing_header.
    destruct (fetchall rs') as [|row rest] eqn:Erows; cbn [map nonempty].
    + cbn. done.
    + cbn [order_list_length]. rewrite length_fmap. repeat split; try done.
  - split; [done|]. split; [discriminate|]. done.
Qed.

Lemma pending_orders_counted_witness :
  exists r,
    (get_orders_pending world_pending []).1 = Ok r /\
    header_of r = listing_header 1 (Some "orderspending") (Some 2%Z).
Proof.
  destruct (pending_orders_counted world_pending []) as (_ & Hok & _).
  unshelve refine (let H := Hok (mkResultSet pending_columns pending_rows 3) _ in _);
    [vm_compute; reflexivity|].
  destruct H as (r & Hr & Hh & _).
  exists r. split; [exact Hr|]. etransitivity; [exact Hh|]. vm_compute. reflexivity.
Defined.

Lemma distinct_ids_nil rows : distinct_ids rows = [] -> rows = [].
Proof.
  intros H. destruct rows as [|row rows]; [done|]. exfalso.
  assert (row_order_id row ∈ distinct_ids (row :: rows)) as Hin.
  { apply distinct_ids_elem. exists row. split; [by left|done]. }
  rewrite H in Hin. by apply elem_of_nil in Hin.
Qed.

(** X26: get_order_by_id issues one call of
    uSp_getOrdersDetailUnshippedByOrderId(:id). Without rows it answers the
    empty response (content 0, empty payload, no message); with rows it
    answers content 1 and all returned rows grouped by order, without resource
    or count. A database failure becomes HTTP 500 'Error interno'. *)
Theorem order_by_id_listing (w : World) (order_id : string) (log : list Event) :
  let run := get_order_by_id w order_id log in
  run.2 = log ++ [q_order order_id] /\
  (forall rs,
     db_execute w log "CALL toolstock_amz.uSp_getOrdersDetailUnshippedByOrderId(:id)"
       (dict_literal [("id", VStr order_id)]) = Ok rs ->
     let rows := map (row_dict (keys rs)) (fetchall rs) in
     exists r,
       run.1 = Ok r /\
       message_of r = None /\
       (fetchall rs = [] ->
        header_of r = listing_header 0 None None /\ payload_of r = Plain []) /\
       (fetchall rs <> [] ->
        header_of r = listing_header 1 None None /\
        payload_of r = Grouped (expected_order rows <$> distinct_ids rows))) /\
  (forall e,
     db_execute w log "CALL toolstock_amz.uSp_getOrdersDetailUnshippedByOrderId(:id)"
       (dict_literal [("id", VStr order_id)]) = Raise e ->
     run.1 = Raise internal_error).
Proof.
  intros run. subst run. unfold get_order_by_id. rewrite try_500.
  unfold mbind, M_bind. rewrite get_orders_by_procedure_run.
  rewrite (execute_stored_procedure_run w "uSp_getOrdersDetailUnshippedByOrderId"
             (Some [("id", VStr order_id)]) log).
  unfold q_order. change (default [] (Some ?x)) with x.
  change (_ +:+ "uSp_getOrdersDetailUnshippedByOrderId" +:+ _)
    with "CALL toolstock_amz.uSp_getOrdersDetailUnshippedByOrderId(:id)".
  destruct (db_execute w log _ _) as [rs'|e']; cbv beta iota.
  - cbn [andb].
    destruct (fetchall rs') as [|row rest] eqn:Erows; cbn [map nonempty].
    + cbn [order_list_length length Nat.ltb Nat.leb]. mrun. cbn [fst snd].
      split; [done|]. split; [|discriminate]. intros rs [= <-]. rewrite Erows.
      eexists. split; [reflexivity|]. by repeat split.
    + cbn [order_list_length]. rewrite length_fmap.
      destruct (distinct_ids _) as [|id ids] eqn:Eids.
      { by apply distinct_ids_nil in Eids. }
      cbn [length Nat.ltb Nat.leb]. mrun. cbn [fst snd].
      split; [done|]. split; [|discriminate]. intros rs [= <-]. rewrite Erows.
      eexists. split; [reflexivity|]. split; [done|]. split; [done|].
      intros _. cbn [map]. by rewrite Eids.
  - cbn [fst snd]. split; [done|]. split; [discriminate|]. done.
Qed.

Lemma order_by_id_listing_witness :
  exists r,
    (get_order_by_id world_unknown_order "X9" []).1 = Ok r /\
    header_of r = listing_header 0 None None /\ payload_of r = Plain [].
Proof.
  destruct (order_by_id_listing world_unknown_order "X9" []) as (_ & Hok & _).
  unshelve refine (let H := Hok (mkResultSet [] [] 0) _ in _);
    [vm_compute; reflexivity|].
  destruct H as (r & Hr & _ & Hempty & _).
  exists r. split; [exact Hr|]. apply Hempty. reflexivity.
Defined.

(** X27: get_orders_ready_to_ship returns the rows of
    uSp_getOrdersSelectedShipment as they come, one dictionary per row and
    never grouped, with content 1 even when there is no row, and no resource,
    count or message. A database failure becomes HTTP 500 'Error interno'. *)
Theorem ready_to_ship_listing (w : World) (log : list Event) :
  let run := get_orders_ready_to_ship w log in
  run.2 = log ++ [q_procedure "uSp_getOrdersSelectedShipment"] /\
  (forall rs,
     db_execute w log "CALL toolstock_amz.uSp_getOrdersSelectedShipment()" ∅ = Ok rs ->
     run.1 = Ok {| header_of := listing_header 1 None None;
                   payload_of := Plain (map (row_dict (keys rs)) (fetchall rs));
                   message_of := None |}) /\
  (forall e,
     db_execute w log "CALL toolstock_amz.uSp_getOrdersSelectedShipment()" ∅ = Raise e ->
     run.1 = Raise internal_error).
Proof.
  intros run. subst run. unfold get_orders_ready_to_ship. rewrite try_500.
  unfold mbind, M_bind. rewrite get_orders_by_procedure_run.
  rewrite (execute_stored_procedure_run w "uSp_getOrdersSelectedShipment" None log).
  change (dict_literal (default [] None)) with (∅ : Dict).
  unfold q_procedure.
  change ("CALL toolstock_amz." +:+ "uSp_getOrdersSelectedShipment" +:+ "()")
    with "CALL toolstock_amz.uSp_getOrdersSelectedShipment()".
  destruct (db_execute w log _ ∅) as [rs'|e']; cbv beta iota; cbn [fst snd].
  - split; [done|]. split; [|discriminate]. by intros rs [= <-].
  - split; [done|]. split; [discriminate|]. done.
Qed.

Lemma ready_to_ship_listing_witness :
  (get_orders_ready_to_ship world_unknown_order []).1 =
  Ok {| header_of := listing_header 1 None None;
        payload_of := Plain (map (row_dict []) []);
        message_of := None |}.
Proof.
  destruct (ready_to_ship_listing world_unknown_order []) as (_ & Hok & _).
  apply (Hok (mkResultSet [] [] 0)). vm_compute. reflexivity.
Defined.

(** X28: When the selection for the shipment file has no row, the bulk
    registration answers the empty response (content 0, empty payload, no
    message) and issues nothing but the selection: no file name is generated,
    nothing is updated or committed. register_shipment with shipmentType
    usingFile answers the same, whatever idOrder is given. *)
Theorem empty_selection_registers_nothing (w : World) (log : list Event)
    (rs : ResultSet) (order_id : option string) :
  db_execute w log "CALL toolstock_amz.uSp_getOrdersForShipmentFile()" ∅ = Ok rs ->
  fetchall rs = [] ->
  let nothing :=
    {| header := {| status := "ok"; content := 0; resource := None; count := None |};
       payload := PRows [];
       message := None |} in
  _register_shipment_file w log = (Ok nothing, log ++ [q_selection]) /\
  register_shipment w (mkRegisterShipment "usingFile" order_id) log =
    (Ok nothing, log ++ [q_selection]).
Proof.
  intros Hsel Hrows nothing.
  assert (H : _register_shipment_file w log = (Ok nothing, log ++ [q_selection])).
  { unfold _register_shipment_file, get_orders_by_procedure_raw.
    unfold mbind at 1, M_bind at 1. unfold mbind at 1, M_bind at 1.
    rewrite (execute_stored_procedure_run w "uSp_getOrdersForShipmentFile" None log).
    change (dict_literal (default [] None)) with (∅ : Dict).
    change ("CALL toolstock_amz." +:+ "uSp_getOrdersForShipmentFile" +:+ "()")
      with "CALL toolstock_amz.uSp_getOrdersForShipmentFile()".
    rewrite Hsel, Hrows. done. }
  split; [exact H|]. unfold register_shipment. cbn [shipmentType].
  rewrite bool_decide_eq_true_2 by done. by rewrite H.
Qed.

Lemma empty_selection_registers_nothing_witness :
  _register_shipment_file world_unknown_order [] =
  (Ok {| header := {| status := "ok"; content := 0; resource := None; count := None |};
         payload := PRows [];
         message := None |}, [] ++ [q_selection]).
Proof.
  refine (proj1 (empty_selection_registers_nothing world_unknown_order []
                   (mkResultSet [] [] 0) None _ _)); vm_compute; reflexivity.
Defined.

(** X29: A single-service registration of an unshipped order that has no
    shipment data (no row, or a first row without columns) answers the empty
    response without message; the trace is exactly the not-shipped check and
    the fetch, no request goes to the carrier and nothing is updated. *)
Theorem unqueued_order_not_sent (w : World) (order_id : string) (log : list Event)
    (result : ResultSet) :
  order_id <> EmptyString ->
  (check_order_not_shipped w order_id log).1 = Ok true ->
  db_execute w (log ++ [q_not_shipped order_id])
    "CALL toolstock_amz.uSp_getOrdersForShipmentWS(:idOrder)"
    (dict_literal [("idOrder", VStr order_id)]) = Ok result ->
  (fetchall result = [] \/ exists rest, fetchall result = [] :: rest) ->
  let nothing :=
    {| header := {| status := "ok"; content := 0; resource := None; count := None |};
       payload := PRows [];
       message := None |} in
  let run := register_shipment w (mkRegisterShipment "usingWS" (Some order_id)) log in
  run = (Ok nothing, log ++ [q_not_shipped order_id; q_shipment order_id]) /\
  carrier_requests run.2 = carrier_requests log.
Proof.
  intros Hne Hcheck Hexec Hrows nothing run.
  assert (Hrun : run = (Ok nothing, log ++ [q_not_shipped order_id; q_shipment order_id])).
  { subst run. unfold register_shipment. cbn [shipmentType idOrder].
    rewrite bool_decide_eq_false_2 by done.
    unfold _register_shipment_ws. rewrite truthy_nonempty by done.
    unfold mbind at 1, M_bind at 1.
    rewrite check_order_not_shipped_run in *. cbn [fst] in Hcheck.
    injection Hcheck as ->. cbn [negb].
    unfold mbind at 1, M_bind at 1. unfold execute at 1. rewrite Hexec.
    assert (fetchone result = None) as ->.
    { unfold fetchone. by destruct Hrows as [->|[rest ->]]. }
    mrun. by rewrite <- app_assoc. }
  split; [exact Hrun|]. rewrite Hrun. cbn [snd]. unfold carrier_requests.
  rewrite omap_app. cbn. by rewrite app_nil_r.
Qed.

Lemma unqueued_order_not_sent_witness :
  register_shipment world_unqueued (mkRegisterShipment "usingWS" (Some "X1")) [] =
  (Ok {| header := {| status := "ok"; content := 0; resource := None; count := None |};
         payload := PRows [];
         message := None |},
   [] ++ [q_not_shipped "X1"; q_shipment "X1"]).
Proof.
  refine (proj1 (unqueued_order_not_sent world_unqueued "X1" []
                   (mkResultSet [] [] 0) _ _ _ _)).
  - discriminate.
  - vm_compute. reflexivity.
  - vm_compute. reflexivity.
  - left. reflexivity.
Defined.

(** ** Precondition checks on a failing session *)



